(** * ESP32Dashboard: widget registry, chart store, control dispatch, snapshots

    A shallow embedding of [src/ESP32Dashboard.h] and of the registry and
    synchronisation part of [src/ESP32Dashboard.cpp].

    Modelling conventions.
    - The object ([cards], [controls], [lastUpdate], ...) is passed
      explicitly: a method [void f(args)] becomes
      [f : ESP32Dashboard -> args -> M ESP32Dashboard].
    - Everything outside the object (the user's sketch and hardware, the
      clock, the two servers) is a [World] value that the user callbacks
      read and change; a method also yields the list of the calls the
      object made towards the outside (callback invocations, HTTP
      responses, WebSocket broadcasts), oldest first.
    - User callbacks are closures over the user's own state.  [cards] and
      [controls] are private members, so a callback can reach them only by
      re-entering a public method; such re-entrance is not modelled.
    - ArduinoJson, Arduino [String] and IEEE floats are libraries: their
      operations which the code calls are fields of the class [Platform].
      The capacity of a [DynamicJsonDocument] is not modelled.
    - [logToSerial] output is left out (diagnostics only). *)

From Stdlib Require Import ZArith List String Bool Lia Arith.
From Stdlib Require Import DecimalString DecimalNat.
Import ListNotations.

Open Scope string_scope.
Open Scope Z_scope.
Open Scope list_scope.

(** ** Enumerations of the header *)

Inductive CardType :=
| CARD_TEMPERATURE
| CARD_HUMIDITY
| CARD_MOTOR_RPM
| CARD_CUSTOM
| CARD_STATUS
| CARD_PERCENTAGE
| CARD_CHART.

Inductive ControlType :=
| CONTROL_SWITCH
| CONTROL_BUTTON
| CONTROL_POWER_BUTTON
| CONTROL_SLIDER.

(** The enumerators in the order of their declaration. *)
Definition CardType_enumerators : list CardType :=
  [CARD_TEMPERATURE; CARD_HUMIDITY; CARD_MOTOR_RPM; CARD_CUSTOM;
   CARD_STATUS; CARD_PERCENTAGE; CARD_CHART].

Definition CardType_eqb (a b : CardType) : bool :=
  match a, b with
  | CARD_TEMPERATURE, CARD_TEMPERATURE
  | CARD_HUMIDITY, CARD_HUMIDITY
  | CARD_MOTOR_RPM, CARD_MOTOR_RPM
  | CARD_CUSTOM, CARD_CUSTOM
  | CARD_STATUS, CARD_STATUS
  | CARD_PERCENTAGE, CARD_PERCENTAGE
  | CARD_CHART, CARD_CHART => true
  | _, _ => false
  end.

Definition ControlType_eqb (a b : ControlType) : bool :=
  match a, b with
  | CONTROL_SWITCH, CONTROL_SWITCH
  | CONTROL_BUTTON, CONTROL_BUTTON
  | CONTROL_POWER_BUTTON, CONTROL_POWER_BUTTON
  | CONTROL_SLIDER, CONTROL_SLIDER => true
  | _, _ => false
  end.

(** The value an unscoped enumerator converts to ([cardObj["type"] = card.type]):
    an enumeration without initialisers counts from zero. *)
Definition CardType_to_int (t : CardType) : Z :=
  match t with
  | CARD_TEMPERATURE => 0
  | CARD_HUMIDITY => 1
  | CARD_MOTOR_RPM => 2
  | CARD_CUSTOM => 3
  | CARD_STATUS => 4
  | CARD_PERCENTAGE => 5
  | CARD_CHART => 6
  end.

Definition ControlType_to_int (t : ControlType) : Z :=
  match t with
  | CONTROL_SWITCH => 0
  | CONTROL_BUTTON => 1
  | CONTROL_POWER_BUTTON => 2
  | CONTROL_SLIDER => 3
  end.

(** Position of [t] in a list of kinds, counted from zero. *)
Fixpoint position (t : CardType) (l : list CardType) : Z :=
  match l with
  | [] => 0
  | x :: rest => if CardType_eqb x t then 0 else 1 + position t rest
  end.

(** The kind list in the order in which the specification's data model
    writes it; used only to compare that order with the header's. *)
Definition spec_kind_list : list CardType :=
  [CARD_TEMPERATURE; CARD_HUMIDITY; CARD_MOTOR_RPM; CARD_STATUS;
   CARD_PERCENTAGE; CARD_CUSTOM; CARD_CHART].

(** ** Machine integers *)

Definition INT_MIN : Z := - 2 ^ 31.
Definition INT_MAX : Z := 2 ^ 31 - 1.

(** [int] -> [size_t] / [unsigned long] conversion and unsigned arithmetic
    on the 32-bit target. *)
Definition to_unsigned (z : Z) : Z := z mod 2 ^ 32.

Definition in_int_range (z : Z) : bool := (INT_MIN <=? z) && (z <=? INT_MAX).

(** ** JSON documents *)

#[local] Set Warnings "-register-all".

Inductive Json (float : Type) :=
| JNull
| JBool (b : bool)
| JInt (n : Z)
| JFloat (f : float)
| JString (s : string)
| JArray (elems : list (Json float))
| JObject (members : list (string * Json float)).

#[local] Set Warnings "+register-all".

Arguments JNull {float}.
Arguments JBool {float} b.
Arguments JInt {float} n.
Arguments JFloat {float} f.
Arguments JString {float} s.
Arguments JArray {float} elems.
Arguments JObject {float} members.

Fixpoint assoc {A : Type} (k : string) (l : list (string * A)) : option A :=
  match l with
  | [] => None
  | (k', v) :: rest => if String.eqb k' k then Some v else assoc k rest
  end.

(** [doc[key]] read as a variant: null when [doc] is not an object or has
    no such member. *)
Definition member {float} (doc : Json float) (key : string) : Json float :=
  match doc with
  | JObject ms => match assoc key ms with Some v => v | None => JNull end
  | _ => JNull
  end.

(** [doc.containsKey(key)] *)
Definition containsKey {float} (doc : Json float) (key : string) : bool :=
  match doc with
  | JObject ms => match assoc key ms with Some _ => true | None => false end
  | _ => false
  end.

(** ** The platform: libraries and hardware the code calls into *)

Class Platform := {
  (** IEEE single precision numbers, kept opaque *)
  float : Type;
  (** state of the user's sketch and of the hardware *)
  World : Type;
  (** [millis()], an [unsigned long] *)
  millis : World -> Z;
  (** [webSocket->connectedClients()] *)
  connectedClients : World -> Z;
  (** Arduino [String::toFloat] *)
  toFloat : string -> float;
  (** the document [deserializeJson(doc, input)] leaves in [doc]; the
      error code it returns is ignored by every caller *)
  deserializeJson : string -> Json float;
  (** [serializeJson(doc, out)] *)
  serializeJson : Json float -> string;
  (** conversion of a variant which is not an integer to [int] *)
  variant_to_int : Json float -> Z
}.

Section Dashboard.

Context {P : Platform}.

#[local] Abbreviation json := (Json float).

(** A variant converted to [String]: a string converts to itself, any
    other value to its serialisation (so a missing member gives the text
    of [null]). *)
Definition as_String (v : json) : string :=
  match v with
  | JString s => s
  | _ => serializeJson v
  end.

(** A variant converted to [int]: an integer that fits is taken as it is,
    one that does not fit gives 0. *)
Definition as_int (v : json) : Z :=
  match v with
  | JInt n => if in_int_range n then n else 0
  | _ => variant_to_int v
  end.

(** ** Structures of the header *)

Record ChartDataPoint := {
  timestamp : Z;
  point_value : float
}.

Record DashboardCard := {
  card_id : string;
  card_title : string;
  card_description : string;
  card_value : string;
  card_status : string;
  card_color : string;
  card_icon : string;
  card_type : CardType;
  valueCallback : option (World -> string * World);
  statusCallback : option (World -> string * World);
  chartData : list ChartDataPoint;
  maxDataPoints : Z
}.

Record DashboardControl := {
  id : string;
  title : string;
  description : string;
  type : ControlType;
  state : bool;
  value : Z;
  minValue : Z;
  maxValue : Z;
  color : string;
  switchCallback : option (bool -> World -> World);
  sliderCallback : option (Z -> World -> World);
  buttonCallback : option (World -> World)
}.

Record ESP32Dashboard := {
  cards : list DashboardCard;
  controls : list DashboardControl;
  lastUpdate : Z;
  updateInterval : Z;
  onClientConnect : option (World -> World);
  onClientDisconnect : option (World -> World);
  onCustomMessage : option (string -> string -> World -> World)
}.

(** ** Calls that leave the object *)

Inductive Event :=
| SwitchCallback (control_id : string) (arg : bool)
| SliderCallback (control_id : string) (arg : Z)
| ButtonCallback (control_id : string)
| ValueCallback (card : string)
| StatusCallback (card : string)
| ClientConnect
| ClientDisconnect
| CustomMessage (payload num : string)
| ServerSend (code : Z) (content_type body : string)
| BroadcastTXT (payload : string).

(** ** The effect monad

    A computation runs on the user's state and yields its result, the
    state it leaves and the outgoing calls it made, oldest first. *)

Definition M (A : Type) : Type := World -> A * World * list Event.

Definition ret {A} (a : A) : M A := fun w => (a, w, []).

Definition bind {A B} (m : M A) (k : A -> M B) : M B :=
  fun w =>
    let '(a, w1, t1) := m w in
    let '(b, w2, t2) := k a w1 in
    (b, w2, t1 ++ t2).

(** Record one outgoing call. *)
Definition emit (ev : Event) : M unit := fun w => (tt, w, [ev]).

(** Run user code on the user's state. *)
Definition user {A} (f : World -> A * World) : M A :=
  fun w => let (a, w') := f w in (a, w', []).

Definition user_ (f : World -> World) : M unit :=
  user (fun w => (tt, f w)).

(** Read the environment without changing it. *)
Definition ask {A} (f : World -> A) : M A := fun w => (f w, w, []).

(** The three components of a run. *)
Definition result {A} (r : A * World * list Event) : A := fst (fst r).
Definition world_after {A} (r : A * World * list Event) : World := snd (fst r).
Definition events {A} (r : A * World * list Event) : list Event := snd r.

End Dashboard.

Notation "x <- m ;; k" := (bind m (fun x => k))
  (at level 61, m at next level, right associativity).
Notation "m ;;; k" := (bind m (fun _ => k))
  (at level 61, right associativity).

(** ** Methods of [ESP32Dashboard] *)

Section Methods.

Context {P : Platform}.

#[local] Abbreviation json := (Json float).

(** Assignments to one member of a structure. *)

Definition set_chartData (card : DashboardCard) (data : list ChartDataPoint)
  : DashboardCard :=
  {| card_id := card_id card; card_title := card_title card;
     card_description := card_description card; card_value := card_value card;
     card_status := card_status card; card_color := card_color card;
     card_icon := card_icon card; card_type := card_type card;
     valueCallback := valueCallback card;
     statusCallback := statusCallback card;
     chartData := data; maxDataPoints := maxDataPoints card |}.

Definition set_value_status (card : DashboardCard) (v s : string)
  : DashboardCard :=
  {| card_id := card_id card; card_title := card_title card;
     card_description := card_description card; card_value := v;
     card_status := s; card_color := card_color card;
     card_icon := card_icon card; card_type := card_type card;
     valueCallback := valueCallback card;
     statusCallback := statusCallback card;
     chartData := chartData card; maxDataPoints := maxDataPoints card |}.

Definition set_state (control : DashboardControl) (b : bool)
  : DashboardControl :=
  {| id := id control; title := title control;
     description := description control; type := type control;
     state := b; value := value control; minValue := minValue control;
     maxValue := maxValue control; color := color control;
     switchCallback := switchCallback control;
     sliderCallback := sliderCallback control;
     buttonCallback := buttonCallback control |}.

Definition set_value (control : DashboardControl) (v : Z)
  : DashboardControl :=
  {| id := id control; title := title control;
     description := description control; type := type control;
     state := state control; value := v; minValue := minValue control;
     maxValue := maxValue control; color := color control;
     switchCallback := switchCallback control;
     sliderCallback := sliderCallback control;
     buttonCallback := buttonCallback control |}.

Definition set_cards (this : ESP32Dashboard) (cs : list DashboardCard)
  : ESP32Dashboard :=
  {| cards := cs; controls := controls this; lastUpdate := lastUpdate this;
     updateInterval := updateInterval this;
     onClientConnect := onClientConnect this;
     onClientDisconnect := onClientDisconnect this;
     onCustomMessage := onCustomMessage this |}.

Definition set_controls (this : ESP32Dashboard) (cs : list DashboardControl)
  : ESP32Dashboard :=
  {| cards := cards this; controls := cs; lastUpdate := lastUpdate this;
     updateInterval := updateInterval this;
     onClientConnect := onClientConnect this;
     onClientDisconnect := onClientDisconnect this;
     onCustomMessage := onCustomMessage this |}.

Definition set_lastUpdate (this : ESP32Dashboard) (t : Z) : ESP32Dashboard :=
  {| cards := cards this; controls := controls this; lastUpdate := t;
     updateInterval := updateInterval this;
     onClientConnect := onClientConnect this;
     onClientDisconnect := onClientDisconnect this;
     onCustomMessage := onCustomMessage this |}.

(** *** Invoking a [std::function] member when it holds a target *)

Definition call_switchCallback (control : DashboardControl) (arg : bool)
  : M unit :=
  match switchCallback control with
  | Some f => emit (SwitchCallback (id control) arg) ;;; user_ (f arg)
  | None => ret tt
  end.

Definition call_sliderCallback (control : DashboardControl) (arg : Z)
  : M unit :=
  match sliderCallback control with
  | Some f => emit (SliderCallback (id control) arg) ;;; user_ (f arg)
  | None => ret tt
  end.

Definition call_buttonCallback (control : DashboardControl) : M unit :=
  match buttonCallback control with
  | Some f => emit (ButtonCallback (id control)) ;;; user_ f
  | None => ret tt
  end.

(** [card.valueCallback ? card.valueCallback() : card.value] *)
Definition value_of (card : DashboardCard) : M string :=
  match valueCallback card with
  | Some f => emit (ValueCallback (card_id card)) ;;; user f
  | None => ret (card_value card)
  end.

(** [card.statusCallback ? card.statusCallback() : card.status] *)
Definition status_of (card : DashboardCard) : M string :=
  match statusCallback card with
  | Some f => emit (StatusCallback (card_id card)) ;;; user f
  | None => ret (card_status card)
  end.

(** *** [addChartDataPoint] *)

Definition is_chart (card : DashboardCard) : bool :=
  CardType_eqb (card_type card) CARD_CHART.

(** The body run on the matching card: [push_back], then [erase(begin())]
    when [size() > maxDataPoints] (an unsigned comparison). *)
Definition push_point (card : DashboardCard) (point : ChartDataPoint)
  : DashboardCard :=
  let data := chartData card ++ [point] in
  if Z.of_nat (List.length data) >? to_unsigned (maxDataPoints card)
  then set_chartData card (tl data)
  else set_chartData card data.

Fixpoint addChartDataPoint_loop (cardId : string) (v : float)
  (cs : list DashboardCard) : M (list DashboardCard) :=
  match cs with
  | [] => ret []
  | card :: rest =>
      if String.eqb (card_id card) cardId && is_chart card then
        now <- ask millis ;;
        ret (push_point card {| timestamp := now; point_value := v |} :: rest)
      else
        rest' <- addChartDataPoint_loop cardId v rest ;;
        ret (card :: rest')
  end.

Definition addChartDataPoint (this : ESP32Dashboard) (cardId : string)
  (v : float) : M ESP32Dashboard :=
  cs <- addChartDataPoint_loop cardId v (cards this) ;;
  ret (set_cards this cs).

(** *** State management *)

Definition is_switch_like (control : DashboardControl) : bool :=
  ControlType_eqb (type control) CONTROL_SWITCH
  || ControlType_eqb (type control) CONTROL_POWER_BUTTON.

Definition is_slider (control : DashboardControl) : bool :=
  ControlType_eqb (type control) CONTROL_SLIDER.

Definition is_button (control : DashboardControl) : bool :=
  ControlType_eqb (type control) CONTROL_BUTTON.

Fixpoint getSwitchState_loop (id0 : string) (cs : list DashboardControl)
  : bool :=
  match cs with
  | [] => false
  | control :: rest =>
      if String.eqb (id control) id0 && is_switch_like control
      then state control
      else getSwitchState_loop id0 rest
  end.

Definition getSwitchState (this : ESP32Dashboard) (id0 : string) : bool :=
  getSwitchState_loop id0 (controls this).

Fixpoint setSwitchState_loop (id0 : string) (st : bool)
  (cs : list DashboardControl) : M (list DashboardControl) :=
  match cs with
  | [] => ret []
  | control :: rest =>
      if String.eqb (id control) id0 && is_switch_like control then
        let control := set_state control st in
        call_switchCallback control st ;;;
        ret (control :: rest)
      else
        rest' <- setSwitchState_loop id0 st rest ;;
        ret (control :: rest')
  end.

Definition setSwitchState (this : ESP32Dashboard) (id0 : string) (st : bool)
  : M ESP32Dashboard :=
  cs <- setSwitchState_loop id0 st (controls this) ;;
  ret (set_controls this cs).

Fixpoint getSliderValue_loop (id0 : string) (cs : list DashboardControl)
  : Z :=
  match cs with
  | [] => 0
  | control :: rest =>
      if String.eqb (id control) id0 && is_slider control
      then value control
      else getSliderValue_loop id0 rest
  end.

Definition getSliderValue (this : ESP32Dashboard) (id0 : string) : Z :=
  getSliderValue_loop id0 (controls this).

Fixpoint setSliderValue_loop (id0 : string) (v : Z)
  (cs : list DashboardControl) : M (list DashboardControl) :=
  match cs with
  | [] => ret []
  | control :: rest =>
      if String.eqb (id control) id0 && is_slider control then
        let control := set_value control v in
        call_sliderCallback control v ;;;
        ret (control :: rest)
      else
        rest' <- setSliderValue_loop id0 v rest ;;
        ret (control :: rest')
  end.

Definition setSliderValue (this : ESP32Dashboard) (id0 : string) (v : Z)
  : M ESP32Dashboard :=
  cs <- setSliderValue_loop id0 v (controls this) ;;
  ret (set_controls this cs).

(** [updateCard]: [status] is stored only when it is not empty. *)
Fixpoint updateCard_loop (id0 v s : string) (cs : list DashboardCard)
  : list DashboardCard :=
  match cs with
  | [] => []
  | card :: rest =>
      if String.eqb (card_id card) id0 then
        set_value_status card v
          (if (0 <? Z.of_nat (String.length s)) then s else card_status card)
        :: rest
      else card :: updateCard_loop id0 v s rest
  end.

Definition updateCard (this : ESP32Dashboard) (id0 v s : string)
  : ESP32Dashboard :=
  set_cards this (updateCard_loop id0 v s (cards this)).

(** *** Snapshot documents *)

Fixpoint mapM {A B : Type} (f : A -> M B) (l : list A) : M (list B) :=
  match l with
  | [] => ret []
  | a :: rest => b <- f a ;; bs <- mapM f rest ;; ret (b :: bs)
  end.

Definition pointObj (point : ChartDataPoint) : json :=
  JObject [("timestamp", JInt (timestamp point));
           ("value", JFloat (point_value point))].

(** The member [chartData], created for chart cards only. *)
Definition chartArray (card : DashboardCard) : list (string * json) :=
  if is_chart card
  then [("chartData", JArray (map pointObj (chartData card)))]
  else [].

(** One element of [cards] in [handleApiData]. *)
Definition full_cardObj (card : DashboardCard) : M json :=
  v <- value_of card ;;
  s <- status_of card ;;
  ret (JObject ([("id", JString (card_id card));
                 ("title", JString (card_title card));
                 ("description", JString (card_description card));
                 ("value", JString v);
                 ("status", JString s);
                 ("color", JString (card_color card));
                 ("icon", JString (card_icon card));
                 ("type", JInt (CardType_to_int (card_type card)))]
                ++ chartArray card)).

(** One element of [controls] in [handleApiData]. *)
Definition full_controlObj (control : DashboardControl) : json :=
  JObject [("id", JString (id control));
           ("title", JString (title control));
           ("description", JString (description control));
           ("type", JInt (ControlType_to_int (type control)));
           ("state", JBool (state control));
           ("value", JInt (value control));
           ("color", JString (color control))].

(** One element of [cards] in [sendDataToClients]. *)
Definition compact_cardObj (card : DashboardCard) : M json :=
  v <- value_of card ;;
  s <- status_of card ;;
  ret (JObject ([("id", JString (card_id card));
                 ("value", JString v);
                 ("status", JString s);
                 ("type", JInt (CardType_to_int (card_type card)))]
                ++ chartArray card)).

(** One element of [controls] in [sendDataToClients]. *)
Definition compact_controlObj (control : DashboardControl) : json :=
  JObject [("id", JString (id control));
           ("state", JBool (state control));
           ("value", JInt (value control))].

(** The document [handleApiData] builds. *)
Definition full_document (this : ESP32Dashboard) : M json :=
  cardArray <- mapM full_cardObj (cards this) ;;
  now <- ask millis ;;
  n <- ask connectedClients ;;
  ret (JObject [("cards", JArray cardArray);
                ("controls", JArray (map full_controlObj (controls this)));
                ("timestamp", JInt now);
                ("connectedClients", JInt n)]).

(** The document [sendDataToClients] builds. *)
Definition compact_document (this : ESP32Dashboard) : M json :=
  cardArray <- mapM compact_cardObj (cards this) ;;
  now <- ask millis ;;
  n <- ask connectedClients ;;
  ret (JObject [("cards", JArray cardArray);
                ("controls", JArray (map compact_controlObj (controls this)));
                ("timestamp", JInt now);
                ("connectedClients", JInt n)]).

Definition application_json : string := "application/json".

Definition handleApiData (this : ESP32Dashboard) : M ESP32Dashboard :=
  doc <- full_document this ;;
  emit (ServerSend 200 application_json (serializeJson doc)) ;;;
  ret this.

Definition sendDataToClients (this : ESP32Dashboard) : M unit :=
  doc <- compact_document this ;;
  emit (BroadcastTXT (serializeJson doc)).

(** *** Control actions *)

(** The body both handlers run on the control whose id matches: the
    [if / else if / else if] chain on [action] and [control.type]. *)
Definition apply_action (action : string) (doc : json)
  (control : DashboardControl) : M DashboardControl :=
  if String.eqb action "toggle" && is_switch_like control then
    let control := set_state control (negb (state control)) in
    call_switchCallback control (state control) ;;;
    ret control
  else if String.eqb action "click" && is_button control then
    call_buttonCallback control ;;;
    ret control
  else if String.eqb action "slide" && is_slider control then
    let control := set_value control (as_int (member doc "value")) in
    call_sliderCallback control (value control) ;;;
    ret control
  else ret control.

(** [for (auto& control : controls) if (control.id == controlId) { ...;
    break; }] -- the same loop in [handleApiControl] and in
    [webSocketEvent], which differ in [logToSerial] calls only. *)
Fixpoint control_loop (controlId action : string) (doc : json)
  (cs : list DashboardControl) : M (list DashboardControl) :=
  match cs with
  | [] => ret []
  | control :: rest =>
      if String.eqb (id control) controlId then
        control' <- apply_action action doc control ;;
        ret (control' :: rest)
      else
        rest' <- control_loop controlId action doc rest ;;
        ret (control :: rest')
  end.

Definition quote : string := String (Ascii.ascii_of_nat 34) EmptyString.

(** The text [{"status":"success"}]. *)
Definition status_success : string :=
  ("{" ++ quote ++ "status" ++ quote ++ ":" ++ quote ++ "success" ++ quote
   ++ "}")%string.

(** The text [{"error":"No data received"}]. *)
Definition error_no_data : string :=
  ("{" ++ quote ++ "error" ++ quote ++ ":" ++ quote ++ "No data received"
   ++ quote ++ "}")%string.

(** [plain] is the request body: [server->hasArg("plain")] holds when the
    request carries one, and [server->arg("plain")] is its text. *)
Definition handleApiControl (this : ESP32Dashboard) (plain : option string)
  : M ESP32Dashboard :=
  match plain with
  | Some body =>
      let doc := deserializeJson body in
      let controlId := as_String (member doc "id") in
      let action := as_String (member doc "action") in
      cs <- control_loop controlId action doc (controls this) ;;
      let this := set_controls this cs in
      emit (ServerSend 200 application_json status_success) ;;;
      sendDataToClients this ;;;
      ret this
  | None =>
      emit (ServerSend 400 application_json error_no_data) ;;;
      ret this
  end.

Definition handleNotFound (this : ESP32Dashboard) : M ESP32Dashboard :=
  emit (ServerSend 404 "text/plain" "File Not Found") ;;;
  ret this.

Inductive WStype_t :=
| WStype_DISCONNECTED
| WStype_CONNECTED
| WStype_TEXT
| WStype_other.

(** [String(num)] for a client number. *)
Definition String_of_num (num : nat) : string :=
  NilEmpty.string_of_uint (Nat.to_uint num).

Definition call_hook (hook : option (World -> World)) (ev : Event) : M unit :=
  match hook with
  | Some f => emit ev ;;; user_ f
  | None => ret tt
  end.

Definition webSocketEvent (this : ESP32Dashboard) (num : nat)
  (ty : WStype_t) (payload : string) : M ESP32Dashboard :=
  match ty with
  | WStype_DISCONNECTED =>
      call_hook (onClientDisconnect this) ClientDisconnect ;;;
      ret this
  | WStype_CONNECTED =>
      call_hook (onClientConnect this) ClientConnect ;;;
      sendDataToClients this ;;;
      ret this
  | WStype_TEXT =>
      let doc := deserializeJson payload in
      this <-
        (if containsKey doc "id" && containsKey doc "action" then
           let controlId := as_String (member doc "id") in
           let action := as_String (member doc "action") in
           cs <- control_loop controlId action doc (controls this) ;;
           let this := set_controls this cs in
           sendDataToClients this ;;;
           ret this
         else ret this) ;;
      match onCustomMessage this with
      | Some f =>
          emit (CustomMessage payload (String_of_num num)) ;;;
          user_ (f payload (String_of_num num))
      | None => ret tt
      end ;;;
      ret this
  | WStype_other => ret this
  end.

(** *** The loop *)

(** A request the HTTP server hands to a handler registered in [begin];
    the route of the page itself (markup generation) is left out. *)
Inductive HttpRequest :=
| api_data
| api_control (plain : option string)
| not_found.

(** [server->handleClient()] with at most one pending request. *)
Definition handleClient (this : ESP32Dashboard) (req : option HttpRequest)
  : M ESP32Dashboard :=
  match req with
  | None => ret this
  | Some api_data => handleApiData this
  | Some (api_control plain) => handleApiControl this plain
  | Some not_found => handleNotFound this
  end.

(** [webSocket->loop()] delivering the pending events in order. *)
Fixpoint webSocket_loop (this : ESP32Dashboard)
  (events : list (nat * WStype_t * string)) : M ESP32Dashboard :=
  match events with
  | [] => ret this
  | (num, ty, payload) :: rest =>
      this <- webSocketEvent this num ty payload ;;
      webSocket_loop this rest
  end.

(** The chart update of a tick.  The loop runs over the elements of
    [cards]; [addChartDataPoint] changes [chartData] members only, which
    the loop itself does not read. *)
Fixpoint update_charts (this : ESP32Dashboard) (cs : list DashboardCard)
  : M ESP32Dashboard :=
  match cs with
  | [] => ret this
  | card :: rest =>
      match is_chart card, valueCallback card with
      | true, Some f =>
          s <- (emit (ValueCallback (card_id card)) ;;; user f) ;;
          this <- addChartDataPoint this (card_id card) (toFloat s) ;;
          update_charts this rest
      | _, _ => update_charts this rest
      end
  end.

Definition loop (this : ESP32Dashboard) (req : option HttpRequest)
  (events : list (nat * WStype_t * string)) : M ESP32Dashboard :=
  this <- handleClient this req ;;
  this <- webSocket_loop this events ;;
  now <- ask millis ;;
  if to_unsigned (now - lastUpdate this) >=? updateInterval this then
    this <- update_charts this (cards this) ;;
    sendDataToClients this ;;;
    now' <- ask millis ;;
    ret (set_lastUpdate this now')
  else ret this.

End Methods.

(** ** Vocabulary of the statements *)

Section Vocabulary.

Context {P : Platform}.

(** The card [addChartDataPoint] selects: the first one with this id and
    of chart type. *)
Definition find_chart (cardId : string) (cs : list DashboardCard)
  : option DashboardCard :=
  find (fun card => String.eqb (card_id card) cardId && is_chart card) cs.

(** The sample an append made in world [w] with value [v] stores. *)
Definition sample_of (call : World * float) : ChartDataPoint :=
  {| timestamp := millis (fst call); point_value := snd call |}.

(** Successive appends to one card, each in the world of its moment. *)
Fixpoint appends (this : ESP32Dashboard) (cardId : string)
  (calls : list (World * float)) : ESP32Dashboard :=
  match calls with
  | [] => this
  | (w, v) :: rest =>
      appends (result (addChartDataPoint this cardId v w)) cardId rest
  end.

(** The [k] newest elements of a sequence kept oldest first. *)
Definition newest {A} (k : nat) (l : list A) : list A :=
  skipn (List.length l - k) l.

Definition is_control_callback (ev : Event) : bool :=
  match ev with
  | SwitchCallback _ _ | SliderCallback _ _ | ButtonCallback _ => true
  | _ => false
  end.

Definition is_broadcast (ev : Event) : bool :=
  match ev with BroadcastTXT _ => true | _ => false end.

Definition is_send (ev : Event) : bool :=
  match ev with ServerSend _ _ _ => true | _ => false end.

(** Calls of a card's value or status producer. *)
Definition is_producer (ev : Event) : bool :=
  match ev with ValueCallback _ | StatusCallback _ => true | _ => false end.

Definition control_callbacks (t : list Event) : list Event :=
  filter is_control_callback t.

Definition broadcasts (t : list Event) : list Event := filter is_broadcast t.

Definition server_sends (t : list Event) : list Event := filter is_send t.

Definition producers_only (t : list Event) : Prop :=
  Forall (fun ev => is_producer ev = true) t.

(** The control a handler's loop stops at: the first one with this id. *)
Definition find_control (controlId : string) (cs : list DashboardControl)
  : option DashboardControl :=
  find (fun control => String.eqb (id control) controlId) cs.

(** [l] with its first element satisfying [p] replaced by its image. *)
Fixpoint update_first {A} (p : A -> bool) (f : A -> A) (l : list A)
  : list A :=
  match l with
  | [] => []
  | a :: rest => if p a then f a :: rest else a :: update_first p f rest
  end.

(** The verb / kind table of the specification: [toggle] fits Switch and
    PowerButton, [click] fits Button, [slide] fits Slider. *)
Definition verb_fits (action : string) (k : ControlType) : bool :=
  match k with
  | CONTROL_SWITCH | CONTROL_POWER_BUTTON => String.eqb action "toggle"
  | CONTROL_BUTTON => String.eqb action "click"
  | CONTROL_SLIDER => String.eqb action "slide"
  end.

Definition control_callbacks_only (t : list Event) : Prop :=
  Forall (fun ev => is_control_callback ev = true) t.

Definition has_id_and_action (doc : Json float) : bool :=
  containsKey doc "id" && containsKey doc "action".

Definition custom_message_events (this : ESP32Dashboard) (num : nat)
  (payload : string) : list Event :=
  match onCustomMessage this with
  | Some _ => [CustomMessage payload (String_of_num num)]
  | None => []
  end.

(** [String controlId = doc["id"]] and [String action = doc["action"]]
    for the document an inbound text parses to. *)
Definition controlId_of (text : string) : string :=
  as_String (member (deserializeJson text) "id").

Definition action_of (text : string) : string :=
  as_String (member (deserializeJson text) "action").

(** The [type] members of the card objects of a snapshot document. *)
Definition type_codes (doc : Json float) : list (Json float) :=
  match member doc "cards" with
  | JArray objs => map (fun obj => member obj "type") objs
  | _ => []
  end.

(** The selections of the two device-side setters. *)
Definition switch_with_id (id0 : string) (control : DashboardControl) : bool :=
  String.eqb (id control) id0 && is_switch_like control.

Definition slider_with_id (id0 : string) (control : DashboardControl) : bool :=
  String.eqb (id control) id0 && is_slider control.

(** The test [loop] makes: the update interval has elapsed. *)
Definition tick_due (this : ESP32Dashboard) (w : World) : bool :=
  to_unsigned (millis w - lastUpdate this) >=? updateInterval this.

(** The broadcast of a due tick, with nothing pending on either channel,
    carries the compact object of [control] among its controls. *)
Definition tick_shows (this : ESP32Dashboard) (w : World)
  (control : DashboardControl) : Prop :=
  exists doc elems,
    broadcasts (events (loop this None [] w))
    = [BroadcastTXT (serializeJson doc)]
    /\ member doc "controls" = JArray elems
    /\ In (compact_controlObj control) elems.

End Vocabulary.

(** ** Construction and registration *)

(** Float operations the registration lambdas call. *)
Class FloatOps {P : Platform} := {
  (** [String(x, decimalPlaces)] *)
  String_of_float : float -> Z -> string;
  (** an [int] literal converted to [float] *)
  float_of_int : Z -> float;
  (** [a < b] *)
  float_ltb : float -> float -> bool
}.

Section Registration.

Context {P : Platform} {F : FloatOps}.

(** [String(n)] for an [int]. *)
Definition String_of_int (n : Z) : string :=
  NilEmpty.string_of_int (Z.to_int n).

(** What the members a registration leaves unassigned happen to hold
    ([DashboardCard card;] and [DashboardControl control;] initialise the
    strings, the vector and the functions, not the scalars). *)
Record Unassigned := {
  u_state : bool;
  u_value : Z;
  u_minValue : Z;
  u_maxValue : Z;
  u_maxDataPoints : Z
}.

(** The constructor, as far as the members modelled here go. *)
Definition ESP32Dashboard_new : ESP32Dashboard :=
  {| cards := []; controls := []; lastUpdate := 0; updateInterval := 1000;
     onClientConnect := None; onClientDisconnect := None;
     onCustomMessage := None |}.

Definition set_updateInterval (this : ESP32Dashboard) (t : Z)
  : ESP32Dashboard :=
  {| cards := cards this; controls := controls this;
     lastUpdate := lastUpdate this; updateInterval := t;
     onClientConnect := onClientConnect this;
     onClientDisconnect := onClientDisconnect this;
     onCustomMessage := onCustomMessage this |}.

Definition setUpdateInterval (this : ESP32Dashboard) (interval : Z)
  : ESP32Dashboard :=
  set_updateInterval this interval.

(** Assignment to the three public callback members. *)
Definition set_hooks (this : ESP32Dashboard)
  (connect disconnect : option (World -> World))
  (custom : option (string -> string -> World -> World)) : ESP32Dashboard :=
  {| cards := cards this; controls := controls this;
     lastUpdate := lastUpdate this; updateInterval := updateInterval this;
     onClientConnect := connect; onClientDisconnect := disconnect;
     onCustomMessage := custom |}.

(** [cards.push_back(card); return card.id;] *)
Definition push_card (this : ESP32Dashboard) (card : DashboardCard)
  : ESP32Dashboard * string :=
  (set_cards this (cards this ++ [card]), card_id card).

(** [controls.push_back(control); return control.id;] *)
Definition push_control (this : ESP32Dashboard) (control : DashboardControl)
  : ESP32Dashboard * string :=
  (set_controls this (controls this ++ [control]), id control).

(** The id of the next card or control: prefix, then the current size. *)
Definition next_id (prefix : string) {A} (l : list A) : string :=
  (prefix ++ String_of_num (List.length l))%string.

Definition temperature_status (temp : float) : string :=
  if float_ltb (float_of_int 30) temp then "🔥 High temperature"
  else if float_ltb temp (float_of_int 15) then "❄️ Low temperature"
  else "✅ Normal range".

Definition humidity_status (hum : float) : string :=
  if float_ltb (float_of_int 70) hum then "💧 High humidity"
  else if float_ltb hum (float_of_int 30) then "🏜️ Low humidity"
  else "✅ Optimal".

Definition rpm_status (rpm : Z) : string :=
  if rpm >? 1400 then "⚡ High speed"
  else if rpm <? 800 then "🐌 Low speed"
  else "✅ Normal speed".

Definition percentage_status (pct : Z) : string :=
  if pct >? 80 then "🔋 Excellent"
  else if pct >? 50 then "✅ Good"
  else if pct >? 20 then "⚠️ Low"
  else "🔴 Critical".

(** The registration functions.  Each takes every argument explicitly
    (a default argument of the header is the caller's to supply) and, last,
    what its unassigned members hold; it yields the object after the
    [push_back] and the id it returns.  A callback of type
    [std::function<void(...)>] or [std::function<String()>] stored as it
    is may be empty ([None]); a callback wrapped in a lambda is called by
    that lambda and is taken to be callable. *)

(** A lambda [[callback]() -> String { return f(callback()); }]. *)
Definition producer {A} (callback : World -> A * World) (f : A -> string)
  : option (World -> string * World) :=
  Some (fun w => let (a, w') := callback w in (f a, w')).

Definition addTemperatureCard (this : ESP32Dashboard) (title0 : string)
  (callback : World -> float * World) (u : Unassigned)
  : ESP32Dashboard * string :=
  push_card this
    {| card_id := next_id "temp_" (cards this);
       card_title := title0; card_description := "Temperature";
       card_value := ""; card_status := "";
       card_color := "orange"; card_icon := "🌡️";
       card_type := CARD_TEMPERATURE;
       valueCallback :=
         producer callback
           (fun temp => (String_of_float temp 1 ++ "°C")%string);
       statusCallback := producer callback temperature_status;
       chartData := []; maxDataPoints := u_maxDataPoints u |}.

Definition addHumidityCard (this : ESP32Dashboard) (title0 : string)
  (callback : World -> float * World) (u : Unassigned)
  : ESP32Dashboard * string :=
  push_card this
    {| card_id := next_id "hum_" (cards this);
       card_title := title0; card_description := "Humidity";
       card_value := ""; card_status := "";
       card_color := "blue"; card_icon := "💧";
       card_type := CARD_HUMIDITY;
       valueCallback :=
         producer callback (fun hum => (String_of_float hum 1 ++ "%")%string);
       statusCallback := producer callback humidity_status;
       chartData := []; maxDataPoints := u_maxDataPoints u |}.

Definition addMotorRPMCard (this : ESP32Dashboard) (title0 : string)
  (callback : World -> Z * World) (u : Unassigned)
  : ESP32Dashboard * string :=
  push_card this
    {| card_id := next_id "rpm_" (cards this);
       card_title := title0; card_description := "Motor RPM";
       card_value := ""; card_status := "";
       card_color := "green"; card_icon := "⚙️";
       card_type := CARD_MOTOR_RPM;
       valueCallback := producer callback String_of_int;
       statusCallback := producer callback rpm_status;
       chartData := []; maxDataPoints := u_maxDataPoints u |}.

Definition addStatusCard (this : ESP32Dashboard) (title0 description0 : string)
  (valueCallback0 statusCallback0 : option (World -> string * World))
  (color0 : string) (u : Unassigned) : ESP32Dashboard * string :=
  push_card this
    {| card_id := next_id "status_" (cards this);
       card_title := title0; card_description := description0;
       card_value := ""; card_status := "";
       card_color := color0; card_icon := "ℹ️";
       card_type := CARD_STATUS;
       valueCallback := valueCallback0;
       statusCallback := statusCallback0;
       chartData := []; maxDataPoints := u_maxDataPoints u |}.

Definition addPercentageCard (this : ESP32Dashboard)
  (title0 description0 : string) (callback : World -> Z * World)
  (color0 : string) (u : Unassigned) : ESP32Dashboard * string :=
  push_card this
    {| card_id := next_id "pct_" (cards this);
       card_title := title0; card_description := description0;
       card_value := ""; card_status := "";
       card_color := color0; card_icon := "📊";
       card_type := CARD_PERCENTAGE;
       valueCallback :=
         producer callback (fun pct => (String_of_int pct ++ "%")%string);
       statusCallback := producer callback percentage_status;
       chartData := []; maxDataPoints := u_maxDataPoints u |}.

Definition addCustomCard (this : ESP32Dashboard) (title0 description0 : string)
  (valueCallback0 statusCallback0 : option (World -> string * World))
  (color0 icon0 : string) (u : Unassigned) : ESP32Dashboard * string :=
  push_card this
    {| card_id := next_id "custom_" (cards this);
       card_title := title0; card_description := description0;
       card_value := ""; card_status := "";
       card_color := color0;
       card_icon :=
         if 0 <? Z.of_nat (String.length icon0) then icon0 else "⭐";
       card_type := CARD_CUSTOM;
       valueCallback := valueCallback0;
       statusCallback := statusCallback0;
       chartData := []; maxDataPoints := u_maxDataPoints u |}.

Definition addChartCard (this : ESP32Dashboard) (title0 description0 : string)
  (callback : World -> float * World) (color0 : string) (maxPoints : Z)
  : ESP32Dashboard * string :=
  push_card this
    {| card_id := next_id "chart_" (cards this);
       card_title := title0; card_description := description0;
       card_value := ""; card_status := "";
       card_color := color0; card_icon := "📈";
       card_type := CARD_CHART;
       valueCallback := producer callback (fun x => String_of_float x 2);
       statusCallback := Some (fun w => ("Real-time data", w));
       chartData := []; maxDataPoints := maxPoints |}.

Definition addSwitch (this : ESP32Dashboard) (title0 description0 : string)
  (callback : option (bool -> World -> World)) (color0 : string)
  (u : Unassigned) : ESP32Dashboard * string :=
  push_control this
    {| id := next_id "switch_" (controls this);
       title := title0; description := description0;
       type := CONTROL_SWITCH; state := false;
       value := u_value u; minValue := u_minValue u;
       maxValue := u_maxValue u; color := color0;
       switchCallback := callback; sliderCallback := None;
       buttonCallback := None |}.

Definition addButton (this : ESP32Dashboard) (title0 description0 : string)
  (callback : option (World -> World)) (color0 : string)
  (u : Unassigned) : ESP32Dashboard * string :=
  push_control this
    {| id := next_id "btn_" (controls this);
       title := title0; description := description0;
       type := CONTROL_BUTTON; state := false;
       value := u_value u; minValue := u_minValue u;
       maxValue := u_maxValue u; color := color0;
       switchCallback := None; sliderCallback := None;
       buttonCallback := callback |}.

Definition addPowerButton (this : ESP32Dashboard)
  (title0 description0 : string)
  (callback : option (bool -> World -> World))
  (u : Unassigned) : ESP32Dashboard * string :=
  push_control this
    {| id := next_id "power_" (controls this);
       title := title0; description := description0;
       type := CONTROL_POWER_BUTTON; state := false;
       value := u_value u; minValue := u_minValue u;
       maxValue := u_maxValue u; color := "green";
       switchCallback := callback; sliderCallback := None;
       buttonCallback := None |}.

Definition addSlider (this : ESP32Dashboard) (title0 description0 : string)
  (callback : option (Z -> World -> World)) (min max : Z) (color0 : string)
  (u : Unassigned) : ESP32Dashboard * string :=
  push_control this
    {| id := next_id "slider_" (controls this);
       title := title0; description := description0;
       type := CONTROL_SLIDER; state := u_state u;
       value := min; minValue := min; maxValue := max; color := color0;
       switchCallback := None; sliderCallback := callback;
       buttonCallback := None |}.

End Registration.

(** ** Vocabulary of the invariants *)

Section Invariants.

Context {P : Platform} {F : FloatOps}.

(** A control with [state] and [value] blanked: what is left is what no
    method changes after registration. *)
Definition control_shape (control : DashboardControl) : DashboardControl :=
  set_value (set_state control false) 0.

(** A card with its samples dropped. *)
Definition card_without_samples (card : DashboardCard) : DashboardCard :=
  set_chartData card [].

(** A card with samples, value and status blanked. *)
Definition card_shape (card : DashboardCard) : DashboardCard :=
  set_value_status (set_chartData card []) "" "".

(** The store of a card respects its capacity, when that capacity is a
    non-negative [int]. *)
Definition within_capacity (card : DashboardCard) : Prop :=
  0 <= maxDataPoints card <= INT_MAX ->
  Z.of_nat (List.length (chartData card)) <= maxDataPoints card.

(** Only chart cards hold samples. *)
Definition samples_only_in_charts (card : DashboardCard) : Prop :=
  is_chart card = false -> chartData card = [].

(** A control holds no callback of another kind than its own. *)
Definition callbacks_fit_kind (control : DashboardControl) : Prop :=
  match type control with
  | CONTROL_SWITCH | CONTROL_POWER_BUTTON =>
      sliderCallback control = None /\ buttonCallback control = None
  | CONTROL_BUTTON =>
      switchCallback control = None /\ sliderCallback control = None
  | CONTROL_SLIDER =>
      switchCallback control = None /\ buttonCallback control = None
  end.

(** Two states of the object with the same widgets in the same order,
    differing at most in the [state] and [value] of controls, the samples
    of cards and [lastUpdate]. *)
Definition same_shape (a b : ESP32Dashboard) : Prop :=
  map control_shape (controls a) = map control_shape (controls b)
  /\ map card_without_samples (cards a) = map card_without_samples (cards b)
  /\ updateInterval a = updateInterval b
  /\ onClientConnect a = onClientConnect b
  /\ onClientDisconnect a = onClientDisconnect b
  /\ onCustomMessage a = onCustomMessage b.

(** Does [c] occur in [s]? *)
Fixpoint occurs (c : Ascii.ascii) (s : string) : bool :=
  match s with
  | EmptyString => false
  | String c' rest => Ascii.eqb c' c || occurs c rest
  end.

Definition underscore : Ascii.ascii := Ascii.ascii_of_nat 95.

(** The element at position [i] has an id made of some prefix, an
    underscore and [i] in decimal. *)
Definition numbered {A} (get_id : A -> string) (l : list A) : Prop :=
  forall i a, nth_error l i = Some a ->
    exists prefix,
      get_id a = (prefix ++ String underscore (String_of_num i))%string.

(** The states of the object a sketch can bring about: construction, then
    registrations, setter calls, card updates, assignments to the public
    members and [loop] calls in any order, in any world, with anything
    pending on the two channels. *)
Inductive Reachable : ESP32Dashboard -> Prop :=
| reach_new : Reachable ESP32Dashboard_new
| reach_addTemperatureCard this title0 callback u :
    Reachable this ->
    Reachable (fst (addTemperatureCard this title0 callback u))
| reach_addHumidityCard this title0 callback u :
    Reachable this ->
    Reachable (fst (addHumidityCard this title0 callback u))
| reach_addMotorRPMCard this title0 callback u :
    Reachable this ->
    Reachable (fst (addMotorRPMCard this title0 callback u))
| reach_addStatusCard this title0 description0 vcb scb color0 u :
    Reachable this ->
    Reachable (fst (addStatusCard this title0 description0 vcb scb color0 u))
| reach_addPercentageCard this title0 description0 callback color0 u :
    Reachable this ->
    Reachable
      (fst (addPercentageCard this title0 description0 callback color0 u))
| reach_addCustomCard this title0 description0 vcb scb color0 icon0 u :
    Reachable this ->
    Reachable
      (fst (addCustomCard this title0 description0 vcb scb color0 icon0 u))
| reach_addChartCard this title0 description0 callback color0 maxPoints :
    Reachable this ->
    Reachable
      (fst (addChartCard this title0 description0 callback color0 maxPoints))
| reach_addSwitch this title0 description0 callback color0 u :
    Reachable this ->
    Reachable (fst (addSwitch this title0 description0 callback color0 u))
| reach_addButton this title0 description0 callback color0 u :
    Reachable this ->
    Reachable (fst (addButton this title0 description0 callback color0 u))
| reach_addPowerButton this title0 description0 callback u :
    Reachable this ->
    Reachable (fst (addPowerButton this title0 description0 callback u))
| reach_addSlider this title0 description0 callback min max color0 u :
    Reachable this ->
    Reachable
      (fst (addSlider this title0 description0 callback min max color0 u))
| reach_setSwitchState this id0 st w :
    Reachable this -> Reachable (result (setSwitchState this id0 st w))
| reach_setSliderValue this id0 v w :
    Reachable this -> Reachable (result (setSliderValue this id0 v w))
| reach_updateCard this id0 v s :
    Reachable this -> Reachable (updateCard this id0 v s)
| reach_setUpdateInterval this interval :
    Reachable this -> Reachable (setUpdateInterval this interval)
| reach_set_hooks this connect disconnect custom :
    Reachable this -> Reachable (set_hooks this connect disconnect custom)
| reach_loop this req evs w :
    Reachable this -> Reachable (result (loop this req evs w)).

(** What one due tick does to a card: a chart card with a value producer
    gets one sample, any other card is left as it is. *)
Definition ticked (card card' : DashboardCard) : Prop :=
  match is_chart card, valueCallback card with
  | true, Some _ => exists point, card' = push_point card point
  | _, _ => card' = card
  end.

(** The members a compact card object keeps of a full one. *)
Definition compact_of_full_card (obj : Json float) : Json float :=
  match obj with
  | JObject ms =>
      JObject (filter (fun kv =>
                         negb (String.eqb (fst kv) "title"
                               || String.eqb (fst kv) "description"
                               || String.eqb (fst kv) "color"
                               || String.eqb (fst kv) "icon")) ms)
  | _ => obj
  end.

(** The members a compact control object keeps of a full one. *)
Definition compact_of_full_control (obj : Json float) : Json float :=
  match obj with
  | JObject ms =>
      JObject (filter (fun kv =>
                         String.eqb (fst kv) "id"
                         || String.eqb (fst kv) "state"
                         || String.eqb (fst kv) "value") ms)
  | _ => obj
  end.

(** The compact document a full one projects to. *)
Definition compact_of_full (doc : Json float) : Json float :=
  match doc with
  | JObject [(k1, JArray cs); (k2, JArray ctls); ts; n] =>
      JObject [(k1, JArray (map compact_of_full_card cs));
               (k2, JArray (map compact_of_full_control ctls)); ts; n]
  | _ => doc
  end.

Definition is_custom_message (ev : Event) : bool :=
  match ev with CustomMessage _ _ => true | _ => false end.

End Invariants.

(** ** A bench: one platform and one registry to run the code on *)

Module Bench.

Definition decimal (z : Z) : string := NilEmpty.string_of_int (Z.to_int z).

(** A serialiser for the bench: compact JSON text, numbers in decimal. *)
Fixpoint serialize (j : Json Z) : string :=
  match j with
  | JNull => "null"
  | JBool b => if b then "true" else "false"
  | JInt n => decimal n
  | JFloat f => decimal f
  | JString s => quote ++ s ++ quote
  | JArray l =>
      "[" ++ (fix elems (l : list (Json Z)) : string :=
                match l with
                | [] => ""
                | [x] => serialize x
                | x :: r => serialize x ++ "," ++ elems r
                end) l ++ "]"
  | JObject ms =>
      "{" ++ (fix mems (l : list (string * Json Z)) : string :=
                match l with
                | [] => ""
                | [(k, v)] => quote ++ k ++ quote ++ ":" ++ serialize v
                | (k, v) :: r =>
                    quote ++ k ++ quote ++ ":" ++ serialize v ++ "," ++ mems r
                end) ms ++ "}"
  end%string.

(** The message [{"id":<id>,"action":<action>}] and its document. *)
Definition action_doc (id0 action : string) : Json Z :=
  JObject [("id", JString id0); ("action", JString action)].

(** The message [{"id":<id>,"action":"slide","value":<v>}]. *)
Definition slide_doc (id0 : string) (v : Z) : Json Z :=
  JObject [("id", JString id0); ("action", JString "slide");
           ("value", JInt v)].

(** The message [{"id":"switch_0"}], which has no [action]. *)
Definition id_only_doc : Json Z := JObject [("id", JString "switch_0")].

(** The documents whose texts the bench parser knows. *)
Definition documents : list (Json Z) :=
  [action_doc "switch_0" "toggle";
   action_doc "btn_1" "toggle";
   action_doc "nobody" "toggle";
   slide_doc "slider_2" 75;
   slide_doc "slider_2" 150;
   id_only_doc].

Definition toggle_switch_0 : string := serialize (action_doc "switch_0" "toggle").
Definition toggle_btn_1 : string := serialize (action_doc "btn_1" "toggle").
Definition toggle_nobody : string := serialize (action_doc "nobody" "toggle").
Definition slide_75 : string := serialize (slide_doc "slider_2" 75).
Definition slide_150 : string := serialize (slide_doc "slider_2" 150).
Definition id_only : string := serialize id_only_doc.

(** A text that is not JSON. *)
Definition not_json : string := "not json".

(** A parser for the bench: the text of a known document gives that
    document, any other text is refused and leaves the null document. *)
Definition deserialize (text : string) : Json Z :=
  match find (fun doc => String.eqb (serialize doc) text) documents with
  | Some doc => doc
  | None => JNull
  end.

(** The world of the bench is the clock reading alone. *)
#[export] Instance platform : Platform := {|
  float := Z;
  World := Z;
  millis := fun w => w;
  connectedClients := fun _ => 1;
  toFloat := fun _ => 0;
  deserializeJson := deserialize;
  serializeJson := serialize;
  variant_to_int := fun _ => 0
|}.

Definition chart_0 : DashboardCard := {|
  card_id := "chart_0"; card_title := "Load"; card_description := "CPU";
  card_value := ""; card_status := ""; card_color := "blue";
  card_icon := ""; card_type := CARD_CHART;
  valueCallback := None; statusCallback := None;
  chartData := []; maxDataPoints := 2 |}.

Definition status_1 : DashboardCard := {|
  card_id := "status_1"; card_title := "Link"; card_description := "WiFi";
  card_value := "up"; card_status := "ok"; card_color := "blue";
  card_icon := ""; card_type := CARD_STATUS;
  valueCallback := None; statusCallback := None;
  chartData := []; maxDataPoints := 0 |}.

Definition custom_2 : DashboardCard := {|
  card_id := "custom_2"; card_title := "Mode"; card_description := "";
  card_value := "auto"; card_status := ""; card_color := "purple";
  card_icon := ""; card_type := CARD_CUSTOM;
  valueCallback := None; statusCallback := None;
  chartData := []; maxDataPoints := 0 |}.

Definition switch_0 : DashboardControl := {|
  id := "switch_0"; title := "Lamp"; description := "";
  type := CONTROL_SWITCH; state := false; value := 0; minValue := 0;
  maxValue := 0; color := "blue";
  switchCallback := Some (fun _ w => w); sliderCallback := None;
  buttonCallback := None |}.

Definition btn_1 : DashboardControl := {|
  id := "btn_1"; title := "Reset"; description := "";
  type := CONTROL_BUTTON; state := false; value := 0; minValue := 0;
  maxValue := 0; color := "green";
  switchCallback := None; sliderCallback := None;
  buttonCallback := Some (fun w => w) |}.

Definition slider_2 : DashboardControl := {|
  id := "slider_2"; title := "Speed"; description := "";
  type := CONTROL_SLIDER; state := false; value := 50; minValue := 0;
  maxValue := 100; color := "blue";
  switchCallback := None; sliderCallback := Some (fun _ w => w);
  buttonCallback := None |}.

Definition registry : ESP32Dashboard := {|
  cards := [chart_0; status_1; custom_2];
  controls := [switch_0; btn_1; slider_2];
  lastUpdate := 0; updateInterval := 1000;
  onClientConnect := None; onClientDisconnect := None;
  onCustomMessage := Some (fun _ _ w => w) |}.

End Bench.

(** ** A second bench: a registry built by registration calls *)

Module Workshop.

(** The documents whose texts the parser of this bench knows. *)
Definition documents : list (Json Z) :=
  Bench.documents
  ++ [Bench.action_doc "btn_1" "click";
      Bench.action_doc "slider_2" "toggle"].

Definition deserialize (text : string) : Json Z :=
  match find (fun doc => String.eqb (Bench.serialize doc) text) documents with
  | Some doc => doc
  | None => JNull
  end.

(** Decimal text to number, 0 when the text is no number. *)
Definition to_number (s : string) : Z :=
  match NilEmpty.int_of_string s with
  | Some n => Z.of_int n
  | None => 0
  end.

(** As the first bench, with a parser that knows more texts and a
    [toFloat] that reads decimal integers. *)
#[export] Instance platform : Platform := {|
  float := Z;
  World := Z;
  millis := fun w => w;
  connectedClients := fun _ => 1;
  toFloat := to_number;
  deserializeJson := deserialize;
  serializeJson := Bench.serialize;
  variant_to_int := fun _ => 0
|}.

#[export] Instance float_ops : FloatOps := {|
  String_of_float := fun x _ => Bench.decimal x;
  float_of_int := fun n => n;
  float_ltb := Z.ltb
|}.

Definition unassigned : Unassigned := {|
  u_state := true; u_value := 7; u_minValue := 8; u_maxValue := 9;
  u_maxDataPoints := -1 |}.

(** A sensor reading derived from the clock. *)
Definition sensor (w : Z) : Z * Z := (w mod 50, w).

Definition with_temperature : ESP32Dashboard :=
  fst (addTemperatureCard ESP32Dashboard_new "Room" sensor unassigned).

Definition with_chart : ESP32Dashboard :=
  fst (addChartCard with_temperature "Load" "CPU" sensor "blue" 2).

Definition with_static : ESP32Dashboard :=
  fst (addStatusCard with_chart "Link" "WiFi" None None "blue" unassigned).

Definition with_switch : ESP32Dashboard :=
  fst (addSwitch with_static "Lamp" "" (Some (fun _ w => w)) "blue"
         unassigned).

Definition with_button : ESP32Dashboard :=
  fst (addButton with_switch "Reset" "" (Some (fun w => w)) "green"
         unassigned).

(** The registry of the second bench: cards [temp_0], [chart_1],
    [status_2]; controls [switch_0], [btn_1], [slider_2]. *)
Definition built : ESP32Dashboard :=
  fst (addSlider with_button "Speed" "" (Some (fun _ w => w)) 10 90 "blue"
         unassigned).

Definition click_btn_1 : string :=
  Bench.serialize (Bench.action_doc "btn_1" "click").
Definition toggle_switch_0 : string :=
  Bench.serialize (Bench.action_doc "switch_0" "toggle").
Definition slide_150 : string :=
  Bench.serialize (Bench.slide_doc "slider_2" 150).

(** The same registry with the custom message callback assigned. *)
Definition hooked : ESP32Dashboard :=
  set_hooks built None None (Some (fun _ _ w => w)).

(** A chart card registered with [maxPoints = -1]. *)
Definition with_unbounded_chart : ESP32Dashboard :=
  fst (addChartCard ESP32Dashboard_new "Log" "" sensor "blue" (-1)).

(** The widgets of [built] the examples name. *)
Definition chart_1 : DashboardCard := {|
  card_id := "chart_1"; card_title := "Load"; card_description := "CPU";
  card_value := ""; card_status := ""; card_color := "blue";
  card_icon := "📈"; card_type := CARD_CHART;
  valueCallback := producer sensor (fun x => String_of_float x 2);
  statusCallback := Some (fun w => ("Real-time data", w));
  chartData := []; maxDataPoints := 2 |}.

Definition temp_0 : DashboardCard := hd chart_1 (cards built).

Definition status_2 : DashboardCard := last (cards built) chart_1.

Definition log_0 : DashboardCard := hd chart_1 (cards with_unbounded_chart).

Definition switch_0 : DashboardControl := {|
  id := "switch_0"; title := "Lamp"; description := "";
  type := CONTROL_SWITCH; state := false; value := 7; minValue := 8;
  maxValue := 9; color := "blue";
  switchCallback := Some (fun _ w => w); sliderCallback := None;
  buttonCallback := None |}.

Definition btn_1 : DashboardControl := {|
  id := "btn_1"; title := "Reset"; description := "";
  type := CONTROL_BUTTON; state := false; value := 7; minValue := 8;
  maxValue := 9; color := "green";
  switchCallback := None; sliderCallback := None;
  buttonCallback := Some (fun w => w) |}.

Definition slider_2 : DashboardControl := {|
  id := "slider_2"; title := "Speed"; description := "";
  type := CONTROL_SLIDER; state := true; value := 10; minValue := 10;
  maxValue := 90; color := "blue";
  switchCallback := None; sliderCallback := Some (fun _ w => w);
  buttonCallback := None |}.

(** [built] with the last tick taken 100 ms before the clock wraps. *)
Definition before_wrap : ESP32Dashboard :=
  set_lastUpdate built (2 ^ 32 - 100).

End Workshop.

(** ** Vocabulary of the callback runs and of what a broadcast shows *)

Section CallbackRuns.

Context {P : Platform}.

(** The world after [if (hook) hook();] ran in [w]. *)
Definition after_hook (hook : option (World -> World)) (w : World) : World :=
  match hook with
  | Some f => f w
  | None => w
  end.

(** The world after [if (control.switchCallback)
    control.switchCallback(arg);] ran in [w], and likewise for the other
    callbacks. *)
Definition after_switchCallback (control : DashboardControl) (arg : bool)
  (w : World) : World :=
  after_hook (option_map (fun f => f arg) (switchCallback control)) w.

Definition after_sliderCallback (control : DashboardControl) (arg : Z)
  (w : World) : World :=
  after_hook (option_map (fun f => f arg) (sliderCallback control)) w.

Definition after_buttonCallback (control : DashboardControl) (w : World)
  : World :=
  after_hook (buttonCallback control) w.

Definition after_customMessage (this : ESP32Dashboard) (num : nat)
  (payload : string) (w : World) : World :=
  after_hook
    (option_map (fun f => f payload (String_of_num num))
       (onCustomMessage this)) w.

(** The one entry a call adds to the list of outgoing calls, when the
    callback is set. *)
Definition call_of {A} (hook : option A) (ev : Event) : list Event :=
  match hook with
  | Some _ => [ev]
  | None => []
  end.

(** The object with [onCustomMessage] emptied. *)
Definition without_customMessage (this : ESP32Dashboard) : ESP32Dashboard :=
  {| cards := cards this; controls := controls this;
     lastUpdate := lastUpdate this; updateInterval := updateInterval this;
     onClientConnect := onClientConnect this;
     onClientDisconnect := onClientDisconnect this;
     onCustomMessage := None |}.



Definition is_empty (s : string) : bool :=
  negb (0 <? Z.of_nat (String.length s)).

End CallbackRuns.

(** ** The object in the store: producers that call back into it

    In the embedding above a method gets the object as an argument and
    the user's callbacks cannot reach it.  A sketch keeps the dashboard in
    a global, and a producer may call its public methods.  For
    [handleApiData] this section puts the members that methods write
    after registration ([state], [value]; [value], [status], [chartData])
    into the world, by position, so that a producer can change them while
    the handler runs.  The members no method writes after registration
    (ids, texts, kinds, bounds, callbacks) stay in the [ESP32Dashboard]
    value, here called the layout.  A registration from inside a producer
    would reallocate the vector under the running loop and is left out. *)

Record Registers (F : Type) := {
  control_registers : list (bool * Z);
  card_registers : list (string * string * list (Z * F))
}.

Arguments control_registers {F} r.
Arguments card_registers {F} r.

(** Where the world keeps the written members of the object. *)
Class SharedObject {P : Platform} := {
  registers : World -> Registers float
}.

Section Shared.

Context {P : Platform} {SO : SharedObject}.

Definition load_control (control : DashboardControl) (r : bool * Z)
  : DashboardControl :=
  set_value (set_state control (fst r)) (snd r).

Definition load_card (card : DashboardCard)
  (r : string * string * list (Z * float)) : DashboardCard :=
  set_value_status
    (set_chartData card
       (map (fun p => {| timestamp := fst p; point_value := snd p |})
          (snd r)))
    (fst (fst r)) (snd (fst r)).

(** Fill a layout from the registers, position by position. *)
Fixpoint load_list {A R} (load : A -> R -> A) (l : list A) (rs : list R)
  : list A :=
  match l, rs with
  | a :: l', r :: rs' => load a r :: load_list load l' rs'
  | _, _ => l
  end.

(** The object as it is in world [w]. *)
Definition current (this : ESP32Dashboard) (w : World) : ESP32Dashboard :=
  set_cards
    (set_controls this
       (load_list load_control (controls this)
          (control_registers (registers w))))
    (load_list load_card (cards this) (card_registers (registers w))).

(** The body of the loop over [cards] in [handleApiData], for the card at
    position [i]: [card] is a reference into the vector, so [card.value],
    [card.status] and [card.chartData] are read from the store when the
    statement that uses them runs. *)
Definition shared_full_cardObj (this : ESP32Dashboard) (i : nat)
  (card : DashboardCard) : M (Json float) :=
  v <- match valueCallback card with
       | Some f => emit (ValueCallback (card_id card)) ;;; user f
       | None =>
           ask (fun w => card_value (nth i (cards (current this w)) card))
       end ;;
  s <- match statusCallback card with
       | Some f => emit (StatusCallback (card_id card)) ;;; user f
       | None =>
           ask (fun w => card_status (nth i (cards (current this w)) card))
       end ;;
  chart <- ask (fun w => chartArray (nth i (cards (current this w)) card)) ;;
  ret (JObject ([("id", JString (card_id card));
                 ("title", JString (card_title card));
                 ("description", JString (card_description card));
                 ("value", JString v);
                 ("status", JString s);
                 ("color", JString (card_color card));
                 ("icon", JString (card_icon card));
                 ("type", JInt (CardType_to_int (card_type card)))]
                ++ chart)).

Fixpoint shared_cards_loop (this : ESP32Dashboard) (i : nat)
  (cs : list DashboardCard) : M (list (Json float)) :=
  match cs with
  | [] => ret []
  | card :: rest =>
      obj <- shared_full_cardObj this i card ;;
      objs <- shared_cards_loop this (S i) rest ;;
      ret (obj :: objs)
  end.

(** [handleApiData] on the object in the store. *)
Definition shared_handleApiData (this : ESP32Dashboard) : M unit :=
  cardArray <- shared_cards_loop this 0 (cards this) ;;
  controlArray <-
    ask (fun w => map full_controlObj (controls (current this w))) ;;
  now <- ask millis ;;
  n <- ask connectedClients ;;
  emit (ServerSend 200 application_json
          (serializeJson
             (JObject [("cards", JArray cardArray);
                       ("controls", JArray controlArray);
                       ("timestamp", JInt now);
                       ("connectedClients", JInt n)]))).

(** No value or status producer of the layout changes the registers. *)
Definition producers_keep_registers (this : ESP32Dashboard) : Prop :=
  forall card f w,
    In card (cards this) ->
    valueCallback card = Some f \/ statusCallback card = Some f ->
    registers (snd (f w)) = registers w.

End Shared.

(** ** A third bench: callbacks with effects, and the object in the store *)

Module Lab.

(** The sketch's state: a clock, what the control callbacks drive, what
    the event callbacks record, and the written members of the
    dashboard. *)
Record Sketch := {
  clock : Z;
  lamp : bool;
  speed : Z;
  presses : Z;
  viewers : Z;
  inbox : list (string * string);
  store : Registers Z
}.

Definition deserialize (text : string) : Json Z := Workshop.deserialize text.

#[export] Instance platform : Platform := {|
  float := Z;
  World := Sketch;
  millis := clock;
  connectedClients := viewers;
  toFloat := Workshop.to_number;
  deserializeJson := deserialize;
  serializeJson := Bench.serialize;
  variant_to_int := fun _ => 0
|}.

#[export] Instance shared : SharedObject := {| registers := store |}.

Definition set_lamp (b : bool) (w : Sketch) : Sketch :=
  {| clock := clock w; lamp := b; speed := speed w; presses := presses w;
     viewers := viewers w; inbox := inbox w; store := store w |}.

Definition set_speed (v : Z) (w : Sketch) : Sketch :=
  {| clock := clock w; lamp := lamp w; speed := v; presses := presses w;
     viewers := viewers w; inbox := inbox w; store := store w |}.

Definition press (w : Sketch) : Sketch :=
  {| clock := clock w; lamp := lamp w; speed := speed w;
     presses := presses w + 1;
     viewers := viewers w; inbox := inbox w; store := store w |}.

Definition join (w : Sketch) : Sketch :=
  {| clock := clock w; lamp := lamp w; speed := speed w; presses := presses w;
     viewers := viewers w + 1; inbox := inbox w; store := store w |}.

Definition leave (w : Sketch) : Sketch :=
  {| clock := clock w; lamp := lamp w; speed := speed w; presses := presses w;
     viewers := viewers w - 1; inbox := inbox w; store := store w |}.

Definition receive (payload num : string) (w : Sketch) : Sketch :=
  {| clock := clock w; lamp := lamp w; speed := speed w; presses := presses w;
     viewers := viewers w; inbox := (payload, num) :: inbox w;
     store := store w |}.

Definition set_store (r : Registers Z) (w : Sketch) : Sketch :=
  {| clock := clock w; lamp := lamp w; speed := speed w; presses := presses w;
     viewers := viewers w; inbox := inbox w; store := r |}.

Definition switch_0 : DashboardControl := {|
  id := "switch_0"; title := "Lamp"; description := "";
  type := CONTROL_SWITCH; state := false; value := 0; minValue := 0;
  maxValue := 0; color := "blue";
  switchCallback := Some set_lamp; sliderCallback := None;
  buttonCallback := None |}.

Definition btn_1 : DashboardControl := {|
  id := "btn_1"; title := "Reset"; description := "";
  type := CONTROL_BUTTON; state := false; value := 0; minValue := 0;
  maxValue := 0; color := "green";
  switchCallback := None; sliderCallback := None;
  buttonCallback := Some press |}.

Definition slider_2 : DashboardControl := {|
  id := "slider_2"; title := "Speed"; description := "";
  type := CONTROL_SLIDER; state := false; value := 50; minValue := 0;
  maxValue := 100; color := "blue";
  switchCallback := None; sliderCallback := Some set_speed;
  buttonCallback := None |}.

Definition link : DashboardCard := {|
  card_id := "status_0"; card_title := "Link"; card_description := "WiFi";
  card_value := "up"; card_status := "ok"; card_color := "blue";
  card_icon := ""; card_type := CARD_STATUS;
  valueCallback := None; statusCallback := None;
  chartData := []; maxDataPoints := 0 |}.

(** Three controls whose callbacks drive the sketch, one static card, all
    three event callbacks set. *)
Definition registry : ESP32Dashboard := {|
  cards := [link];
  controls := [switch_0; btn_1; slider_2];
  lastUpdate := 0; updateInterval := 1000;
  onClientConnect := Some join; onClientDisconnect := Some leave;
  onCustomMessage := Some receive |}.


Definition quiet_store : Registers Z := {|
  control_registers := [(false, 0); (false, 0); (false, 50)];
  card_registers := [("up", "ok", [])] |}.

(** The sketch at time [t], nothing switched, the dashboard as built. *)
Definition at_time (t : Z) : Sketch := {|
  clock := t; lamp := false; speed := 0; presses := 0; viewers := 1;
  inbox := []; store := quiet_store |}.

Definition toggle_switch_0 : string :=
  Bench.serialize (Bench.action_doc "switch_0" "toggle").
Definition click_btn_1 : string :=
  Bench.serialize (Bench.action_doc "btn_1" "click").
Definition slide_150 : string :=
  Bench.serialize (Bench.slide_doc "slider_2" 150).

(** What [dashboard.setSwitchState("plain_0", true)] does to the store:
    the first control is the switch of that id, without callback. *)
Definition switch_on (w : Sketch) : Sketch :=
  set_store
    {| control_registers :=
         match control_registers (store w) with
         | (_, v) :: rest => (true, v) :: rest
         | [] => []
         end;
       card_registers := card_registers (store w) |} w.

Definition plain_0 : DashboardControl := {|
  id := "plain_0"; title := "Pump"; description := "";
  type := CONTROL_SWITCH; state := false; value := 0; minValue := 0;
  maxValue := 0; color := "blue";
  switchCallback := None; sliderCallback := None;
  buttonCallback := None |}.

(** A status card whose value producer switches the pump on. *)
Definition watchdog : DashboardCard := {|
  card_id := "status_0"; card_title := "Watchdog"; card_description := "";
  card_value := ""; card_status := ""; card_color := "blue";
  card_icon := ""; card_type := CARD_STATUS;
  valueCallback := Some (fun w => ("armed", switch_on w));
  statusCallback := None;
  chartData := []; maxDataPoints := 0 |}.

Definition reentrant : ESP32Dashboard := {|
  cards := [watchdog];
  controls := [plain_0];
  lastUpdate := 0; updateInterval := 1000;
  onClientConnect := None; onClientDisconnect := None;
  onCustomMessage := None |}.

Definition pump_off : Sketch := {|
  clock := 5; lamp := false; speed := 0; presses := 0; viewers := 1;
  inbox := [];
  store := {| control_registers := [(false, 0)];
              card_registers := [("", "", [])] |} |}.

(** A status card whose value producer counts its calls in the sketch
    and leaves the dashboard alone. *)
Definition counter : DashboardCard := {|
  card_id := "status_0"; card_title := "Polls"; card_description := "";
  card_value := ""; card_status := ""; card_color := "blue";
  card_icon := ""; card_type := CARD_STATUS;
  valueCallback := Some (fun w => ("polled", press w));
  statusCallback := None;
  chartData := []; maxDataPoints := 0 |}.

Definition counting : ESP32Dashboard := {|
  cards := [counter];
  controls := [switch_0; btn_1; slider_2];
  lastUpdate := 0; updateInterval := 1000;
  onClientConnect := None; onClientDisconnect := None;
  onCustomMessage := None |}.

End Lab.

(** ** Running computations *)

Section Runs.

Context {P : Platform}.

Lemma bind_run {A B} (m : M A) (k : A -> M B) (w : World) :
  bind m k w =
  (result (k (result (m w)) (world_after (m w))),
   world_after (k (result (m w)) (world_after (m w))),
   events (m w) ++ events (k (result (m w)) (world_after (m w)))).
Proof.
  unfold bind, result, world_after, events.
  destruct (m w) as [[a w1] t1]; simpl.
  destruct (k a w1) as [[b w2] t2]; reflexivity.
Qed.

Lemma result_bind {A B} (m : M A) (k : A -> M B) w :
  result (bind m k w) = result (k (result (m w)) (world_after (m w))).
Proof. rewrite bind_run; reflexivity. Qed.

Lemma world_bind {A B} (m : M A) (k : A -> M B) w :
  world_after (bind m k w)
  = world_after (k (result (m w)) (world_after (m w))).
Proof. rewrite bind_run; reflexivity. Qed.

Lemma events_bind {A B} (m : M A) (k : A -> M B) w :
  events (bind m k w)
  = events (m w) ++ events (k (result (m w)) (world_after (m w))).
Proof. rewrite bind_run; reflexivity. Qed.

Lemma events_user {A} (f : World -> A * World) w : events (user f w) = [].
Proof. unfold user; destruct (f w); reflexivity. Qed.

Lemma result_user {A} (f : World -> A * World) w :
  result (user f w) = fst (f w).
Proof. unfold user; destruct (f w); reflexivity. Qed.

Lemma world_user {A} (f : World -> A * World) w :
  world_after (user f w) = snd (f w).
Proof. unfold user; destruct (f w); reflexivity. Qed.

Lemma events_emit ev w : events (emit ev w) = [ev].
Proof. reflexivity. Qed.

Lemma world_emit ev w : world_after (emit ev w) = w.
Proof. reflexivity. Qed.

Lemma events_ask {A} (f : World -> A) w : events (ask f w) = [].
Proof. reflexivity. Qed.

Lemma world_ask {A} (f : World -> A) w : world_after (ask f w) = w.
Proof. reflexivity. Qed.

Lemma result_ask {A} (f : World -> A) w : result (ask f w) = f w.
Proof. reflexivity. Qed.

Lemma events_ret {A} (a : A) w : events (ret a w) = [].
Proof. reflexivity. Qed.

Lemma world_ret {A} (a : A) w : world_after (ret a w) = w.
Proof. reflexivity. Qed.

Lemma result_ret {A} (a : A) w : result (ret a w) = a.
Proof. reflexivity. Qed.

End Runs.

(** Push [result], [world_after] and [events] through the binds. *)
Ltac run :=
  unfold user_;
  repeat first
    [ rewrite result_bind | rewrite world_bind | rewrite events_bind
    | rewrite events_user | rewrite result_user | rewrite world_user
    | rewrite events_emit | rewrite world_emit
    | rewrite events_ask | rewrite world_ask | rewrite result_ask
    | rewrite events_ret | rewrite world_ret | rewrite result_ret ];
  cbn [fst snd].

(** ** The chart store *)

Section ChartStore.

Context {P : Platform}.

Lemma newest_length {A} k (l : list A) :
  List.length (newest k l) = Nat.min (List.length l) k.
Proof. unfold newest; rewrite length_skipn; lia. Qed.

Lemma newest_app_newest {A} k (a b : list A) :
  newest k (newest k a ++ b) = newest k (a ++ b).
Proof.
  unfold newest.
  rewrite !length_app, length_skipn.
  destruct (Nat.le_gt_cases (List.length a) k) as [Hle | Hgt].
  - replace (List.length a - k)%nat with 0%nat by lia.
    simpl. f_equal. lia.
  - rewrite !skipn_app, !length_skipn, skipn_skipn.
    f_equal; f_equal; lia.
Qed.

(** What the body of the loop does to the stored sequence. *)
Lemma push_point_chartData card point :
  0 <= maxDataPoints card <= INT_MAX ->
  Z.of_nat (List.length (chartData card)) <= maxDataPoints card ->
  chartData (push_point card point)
  = newest (Z.to_nat (maxDataPoints card)) (chartData card ++ [point]).
Proof.
  intros Hmax Hlen. unfold push_point, to_unsigned, newest.
  assert (HI : INT_MAX < 2 ^ 32) by (unfold INT_MAX; lia).
  rewrite Z.mod_small by lia.
  rewrite length_app; simpl List.length.
  destruct (Z.gtb_spec (Z.of_nat (List.length (chartData card) + 1))
              (maxDataPoints card)) as [Hgt | Hle]; simpl.
  - replace (List.length (chartData card) + 1
             - Z.to_nat (maxDataPoints card))%nat with 1%nat by lia.
    destruct (chartData card ++ [point]); reflexivity.
  - replace (List.length (chartData card) + 1
             - Z.to_nat (maxDataPoints card))%nat with 0%nat by lia.
    reflexivity.
Qed.

Lemma push_point_frame card point :
  maxDataPoints (push_point card point) = maxDataPoints card
  /\ card_id (push_point card point) = card_id card
  /\ card_type (push_point card point) = card_type card.
Proof.
  unfold push_point.
  destruct (_ >? _); repeat split.
Qed.

(** One call appends to the selected card and to no other. *)
Lemma addChartDataPoint_find this cardId v w card :
  find_chart cardId (cards this) = Some card ->
  find_chart cardId (cards (result (addChartDataPoint this cardId v w)))
  = Some (push_point card (sample_of (w, v))).
Proof.
  unfold addChartDataPoint, find_chart.
  rewrite result_bind. cbn [ret result fst cards set_cards].
  generalize (cards this) as cs.
  induction cs as [| c rest IH]; intros Hfind; [discriminate |].
  cbn [find addChartDataPoint_loop] in *.
  destruct (String.eqb (card_id c) cardId && is_chart c) eqn:Hsel.
  - injection Hfind as ->.
    rewrite result_bind. cbn [ask ret result fst find].
    destruct (push_point_frame card (sample_of (w, v))) as (_ & Hid & Hty).
    unfold is_chart in *. unfold sample_of in *; cbn [fst snd] in *.
    rewrite Hid, Hty, Hsel. reflexivity.
  - rewrite result_bind. cbn [ret result fst find]. rewrite Hsel.
    apply IH, Hfind.
Qed.

(** The store after any number of appends, from any content within the
    capacity. *)
Lemma appends_chartData calls : forall this cardId card,
  find_chart cardId (cards this) = Some card ->
  0 <= maxDataPoints card <= INT_MAX ->
  Z.of_nat (List.length (chartData card)) <= maxDataPoints card ->
  exists card',
    find_chart cardId (cards (appends this cardId calls)) = Some card'
    /\ maxDataPoints card' = maxDataPoints card
    /\ chartData card'
       = newest (Z.to_nat (maxDataPoints card))
           (chartData card ++ map sample_of calls).
Proof.
  induction calls as [| [w v] rest IH]; intros this cardId card Hfind Hmax Hlen.
  - exists card. cbn [appends map]. rewrite app_nil_r.
    repeat split; trivial.
    unfold newest.
    replace (_ - _)%nat with 0%nat by lia. reflexivity.
  - cbn [appends map].
    pose proof (addChartDataPoint_find this cardId v w card Hfind) as Hstep.
    pose proof (push_point_chartData card (sample_of (w, v)) Hmax Hlen) as Hdata.
    destruct (push_point_frame card (sample_of (w, v))) as (Hm & _ & _).
    destruct (IH _ _ _ Hstep) as (card' & Hfind' & Hmax' & Hdata').
    + rewrite Hm; exact Hmax.
    + rewrite Hm, Hdata, newest_length. lia.
    + exists card'. split; [exact Hfind' |]. split; [congruence |].
      rewrite Hdata', Hm, Hdata, newest_app_newest, <- app_assoc.
      reflexivity.
Qed.

(** C1. A chart card with capacity [0 <= maxDataPoints] (an [int]) whose
    store holds at most [maxDataPoints] samples still does so after every
    append: the store is then the [maxDataPoints] newest samples of the
    old content followed by the appended ones, oldest first, so the
    oldest sample is the one evicted.  From the empty store, [N] appends
    leave [min N maxDataPoints] samples, the most recent ones in arrival
    order. *)
Theorem chart_store_bounded_fifo :
  forall (this : ESP32Dashboard) (cardId : string) (card : DashboardCard)
         (calls : list (World * float)),
    find_chart cardId (cards this) = Some card ->
    0 <= maxDataPoints card <= INT_MAX ->
    Z.of_nat (List.length (chartData card)) <= maxDataPoints card ->
    exists card',
      find_chart cardId (cards (appends this cardId calls)) = Some card'
      /\ Z.of_nat (List.length (chartData card')) <= maxDataPoints card
      /\ chartData card'
         = newest (Z.to_nat (maxDataPoints card))
             (chartData card ++ map sample_of calls)
      /\ (chartData card = [] ->
          List.length (chartData card')
          = Nat.min (List.length calls) (Z.to_nat (maxDataPoints card))
          /\ chartData card'
             = newest (Nat.min (List.length calls)
                         (Z.to_nat (maxDataPoints card)))
                 (map sample_of calls)).
Proof.
  intros this cardId card calls Hfind Hmax Hlen.
  destruct (appends_chartData calls this cardId card Hfind Hmax Hlen)
    as (card' & Hfind' & _ & Hdata).
  exists card'. split; [exact Hfind' |].
  split; [rewrite Hdata, newest_length; lia |].
  split; [exact Hdata |].
  intros Hempty. rewrite Hdata, Hempty. cbn [app].
  split.
  - rewrite newest_length, length_map. reflexivity.
  - unfold newest. rewrite length_map. f_equal. lia.
Qed.

End ChartStore.

(** ** Observations on the outgoing calls *)

Section Observations.

Context {P : Platform}.

Lemma filter_none {A} (f : A -> bool) (l : list A) :
  Forall (fun a => f a = false) l -> filter f l = [].
Proof.
  induction 1 as [| a l Ha _ IH]; [reflexivity |].
  cbn [filter]. rewrite Ha. exact IH.
Qed.

Lemma producers_only_silent t :
  producers_only t ->
  control_callbacks t = [] /\ broadcasts t = [] /\ server_sends t = [].
Proof.
  intros H. repeat split; apply filter_none;
    (eapply Forall_impl; [| exact H]);
    intros [] Hp; (discriminate || reflexivity).
Qed.

Lemma producers_only_app t1 t2 :
  producers_only t1 -> producers_only t2 -> producers_only (t1 ++ t2).
Proof. intros; apply Forall_app; split; assumption. Qed.

Lemma value_of_producers card w : producers_only (events (value_of card w)).
Proof.
  unfold value_of. destruct (valueCallback card) as [f |].
  - run. repeat constructor.
  - constructor.
Qed.

Lemma status_of_producers card w : producers_only (events (status_of card w)).
Proof.
  unfold status_of. destruct (statusCallback card) as [f |].
  - run. repeat constructor.
  - constructor.
Qed.

Lemma mapM_producers {A B} (f : A -> M B) (l : list A) :
  (forall a w, producers_only (events (f a w))) ->
  forall w, producers_only (events (mapM f l w)).
Proof.
  intros Hf. induction l as [| a l IH]; intros w; cbn [mapM].
  - constructor.
  - run. rewrite app_nil_r.
    apply producers_only_app; [apply Hf | apply IH].
Qed.

Lemma full_cardObj_producers card w :
  producers_only (events (full_cardObj card w)).
Proof.
  unfold full_cardObj. run. rewrite app_nil_r.
  apply producers_only_app; [apply value_of_producers | apply status_of_producers].
Qed.

Lemma compact_cardObj_producers card w :
  producers_only (events (compact_cardObj card w)).
Proof.
  unfold compact_cardObj. run. rewrite app_nil_r.
  apply producers_only_app; [apply value_of_producers | apply status_of_producers].
Qed.

(** Building a document calls producers and nothing else. *)
Lemma full_document_producers this w :
  producers_only (events (full_document this w)).
Proof.
  unfold full_document. run. rewrite !app_nil_r.
  apply mapM_producers, full_cardObj_producers.
Qed.

Lemma compact_document_producers this w :
  producers_only (events (compact_document this w)).
Proof.
  unfold compact_document. run. rewrite !app_nil_r.
  apply mapM_producers, compact_cardObj_producers.
Qed.

(** The shape of the two documents. *)
Lemma full_document_result this w :
  exists now n,
    result (full_document this w)
    = JObject [("cards", JArray (result (mapM full_cardObj (cards this) w)));
               ("controls", JArray (map full_controlObj (controls this)));
               ("timestamp", JInt now);
               ("connectedClients", JInt n)].
Proof.
  unfold full_document. run. eauto.
Qed.

Lemma compact_document_result this w :
  exists now n,
    result (compact_document this w)
    = JObject [("cards", JArray (result (mapM compact_cardObj (cards this) w)));
               ("controls", JArray (map compact_controlObj (controls this)));
               ("timestamp", JInt now);
               ("connectedClients", JInt n)].
Proof.
  unfold compact_document. run. eauto.
Qed.

(** [sendDataToClients] is one broadcast of the compact document, after
    the producer calls that build it. *)
Lemma sendDataToClients_events this w :
  events (sendDataToClients this w)
  = events (compact_document this w)
    ++ [BroadcastTXT (serializeJson (result (compact_document this w)))].
Proof. unfold sendDataToClients. run. reflexivity. Qed.

Lemma sendDataToClients_observed this w :
  control_callbacks (events (sendDataToClients this w)) = []
  /\ broadcasts (events (sendDataToClients this w))
     = [BroadcastTXT (serializeJson (result (compact_document this w)))]
  /\ server_sends (events (sendDataToClients this w)) = [].
Proof.
  rewrite sendDataToClients_events.
  destruct (producers_only_silent _ (compact_document_producers this w))
    as (Hc & Hb & Hs).
  unfold control_callbacks, broadcasts, server_sends in *.
  rewrite !filter_app, Hc, Hb, Hs. repeat split.
Qed.

End Observations.

(** ** Control actions from the two inbound channels *)

Section Dispatch.

Context {P : Platform}.

Lemma set_controls_same this : set_controls this (controls this) = this.
Proof. destruct this; reflexivity. Qed.

Lemma set_state_same control : set_state control (state control) = control.
Proof. destruct control; reflexivity. Qed.

Lemma update_first_same {A} (p : A -> bool) (f : A -> A) (l : list A) :
  (forall a, find p l = Some a -> f a = a) -> update_first p f l = l.
Proof.
  induction l as [| a l IH]; intros Hf; cbn [update_first find] in *.
  - reflexivity.
  - destruct (p a).
    + rewrite Hf; reflexivity.
    + rewrite IH; [reflexivity | exact Hf].
Qed.

Lemma find_update_first {A} (p : A -> bool) (f : A -> A) (l : list A) a :
  find p l = Some a -> p (f a) = true ->
  find p (update_first p f l) = Some (f a).
Proof.
  induction l as [| b l IH]; intros Hfind Hp; cbn [update_first find] in *.
  - discriminate.
  - destruct (p b) eqn:Hb.
    + injection Hfind as ->. cbn [find]. rewrite Hp. reflexivity.
    + cbn [find]. rewrite Hb. apply IH; assumption.
Qed.

Lemma update_first_twice {A} (p : A -> bool) (f g : A -> A) (l : list A) :
  (forall a, p a = true -> p (f a) = true) ->
  update_first p g (update_first p f l)
  = update_first p (fun a => g (f a)) l.
Proof.
  intros Hp. induction l as [| a l IH]; cbn [update_first].
  - reflexivity.
  - destruct (p a) eqn:Ha; cbn [update_first].
    + rewrite (Hp a Ha). reflexivity.
    + rewrite Ha, IH. reflexivity.
Qed.

(** A verb that does not fit the kind of the control falls through the
    whole chain. *)
Lemma apply_action_mismatch action doc control w :
  verb_fits action (type control) = false ->
  apply_action action doc control w = (control, w, []).
Proof.
  unfold verb_fits, apply_action, is_switch_like, is_button, is_slider.
  destruct (type control); cbn [ControlType_eqb orb]; intros ->;
    rewrite ?andb_false_r; reflexivity.
Qed.

(** The loop, when it stops at [control]. *)
Lemma control_loop_match controlId action doc cs w control :
  find_control controlId cs = Some control ->
  control_loop controlId action doc cs w
  = (update_first (fun c => String.eqb (id c) controlId)
       (fun _ => result (apply_action action doc control w)) cs,
     world_after (apply_action action doc control w),
     events (apply_action action doc control w)).
Proof.
  unfold find_control.
  induction cs as [| c rest IH]; cbn [find control_loop update_first].
  - discriminate.
  - destruct (String.eqb (id c) controlId).
    + intros [= ->]. rewrite bind_run. run.
      rewrite app_nil_r. reflexivity.
    + intros Hfind. rewrite bind_run, (IH Hfind). run.
      rewrite app_nil_r. reflexivity.
Qed.

(** The loop, when no control has the id. *)
Lemma control_loop_unknown controlId action doc cs w :
  find_control controlId cs = None ->
  control_loop controlId action doc cs w = (cs, w, []).
Proof.
  unfold find_control.
  induction cs as [| c rest IH]; cbn [find control_loop].
  - reflexivity.
  - destruct (String.eqb (id c) controlId).
    + discriminate.
    + intros Hfind. rewrite bind_run, (IH Hfind). reflexivity.
Qed.

(** Unknown id or unfit verb: the loop does nothing. *)
Lemma control_loop_noop controlId action doc cs w :
  (forall control, find_control controlId cs = Some control ->
                   verb_fits action (type control) = false) ->
  control_loop controlId action doc cs w = (cs, w, []).
Proof.
  intros H. destruct (find_control controlId cs) as [control |] eqn:Hfind.
  - rewrite (control_loop_match _ _ _ _ _ _ Hfind).
    rewrite (apply_action_mismatch _ _ _ _ (H _ eq_refl)).
    cbn [result world_after events fst snd].
    rewrite update_first_same; [reflexivity |].
    unfold find_control in Hfind. intros a Ha. congruence.
  - apply control_loop_unknown, Hfind.
Qed.

Lemma control_callbacks_only_quiet t :
  control_callbacks_only t ->
  broadcasts t = [] /\ server_sends t = [] /\ control_callbacks t = t.
Proof.
  intros H. repeat split.
  - apply filter_none. eapply Forall_impl; [| exact H].
    intros [] Hp; (discriminate || reflexivity).
  - apply filter_none. eapply Forall_impl; [| exact H].
    intros [] Hp; (discriminate || reflexivity).
  - unfold control_callbacks. induction H as [| ev t Hev _ IH].
    + reflexivity.
    + cbn [filter]. rewrite Hev, IH. reflexivity.
Qed.

Lemma call_switchCallback_events control arg w :
  events (call_switchCallback control arg w)
  = match switchCallback control with
    | Some _ => [SwitchCallback (id control) arg]
    | None => []
    end.
Proof.
  unfold call_switchCallback. destruct (switchCallback control); run; reflexivity.
Qed.

Lemma call_sliderCallback_events control arg w :
  events (call_sliderCallback control arg w)
  = match sliderCallback control with
    | Some _ => [SliderCallback (id control) arg]
    | None => []
    end.
Proof.
  unfold call_sliderCallback. destruct (sliderCallback control); run; reflexivity.
Qed.

Lemma call_buttonCallback_events control w :
  events (call_buttonCallback control w)
  = match buttonCallback control with
    | Some _ => [ButtonCallback (id control)]
    | None => []
    end.
Proof.
  unfold call_buttonCallback. destruct (buttonCallback control); run; reflexivity.
Qed.

Lemma apply_action_callbacks_only action doc control w :
  control_callbacks_only (events (apply_action action doc control w)).
Proof.
  unfold apply_action.
  repeat match goal with |- context [if ?b then _ else _] => destruct b end;
    run; rewrite ?app_nil_r;
    rewrite ?call_switchCallback_events, ?call_sliderCallback_events,
      ?call_buttonCallback_events;
    cbn [switchCallback sliderCallback buttonCallback set_state set_value];
    try match goal with |- context [match ?o with _ => _ end] => destruct o end;
    repeat constructor.
Qed.

Lemma control_loop_callbacks_only controlId action doc cs w :
  control_callbacks_only (events (control_loop controlId action doc cs w)).
Proof.
  destruct (find_control controlId cs) as [control |] eqn:Hfind.
  - rewrite (control_loop_match _ _ _ _ _ _ Hfind).
    apply apply_action_callbacks_only.
  - rewrite (control_loop_unknown _ _ _ _ _ Hfind). constructor.
Qed.

(** What [handleApiControl] does with a body, step by step. *)
Lemma handleApiControl_body this body w :
  let doc := deserializeJson body in
  let run_loop :=
    control_loop (as_String (member doc "id"))
      (as_String (member doc "action")) doc (controls this) w in
  let this' := set_controls this (result run_loop) in
  result (handleApiControl this (Some body) w) = this'
  /\ events (handleApiControl this (Some body) w)
     = events run_loop
       ++ ServerSend 200 application_json status_success
          :: events (sendDataToClients this' (world_after run_loop)).
Proof.
  cbv zeta. unfold handleApiControl. run.
  rewrite app_nil_r. split; reflexivity.
Qed.

(** What [webSocketEvent] does with a text message that has both keys. *)
Lemma webSocketEvent_text_action this num payload w :
  let doc := deserializeJson payload in
  let run_loop :=
    control_loop (as_String (member doc "id"))
      (as_String (member doc "action")) doc (controls this) w in
  let this' := set_controls this (result run_loop) in
  has_id_and_action doc = true ->
  result (webSocketEvent this num WStype_TEXT payload w) = this'
  /\ events (webSocketEvent this num WStype_TEXT payload w)
     = events run_loop
       ++ events (sendDataToClients this' (world_after run_loop))
       ++ custom_message_events this num payload.
Proof.
  cbv zeta. unfold has_id_and_action, webSocketEvent, custom_message_events.
  intros ->. run. rewrite !app_nil_r. split; [reflexivity |].
  cbn [onCustomMessage set_controls].
  destruct (onCustomMessage this); run;
    rewrite ?app_nil_r, <- ?app_assoc; reflexivity.
Qed.

(** ... and with one that lacks a key. *)
Lemma webSocketEvent_text_other this num payload w :
  has_id_and_action (deserializeJson payload) = false ->
  result (webSocketEvent this num WStype_TEXT payload w) = this
  /\ events (webSocketEvent this num WStype_TEXT payload w)
     = custom_message_events this num payload.
Proof.
  unfold has_id_and_action, webSocketEvent, custom_message_events.
  intros ->. run. split; [reflexivity |].
  destruct (onCustomMessage this); run; reflexivity.
Qed.

End Dispatch.

(** ** The inbound channels: broadcasts, responses, dropped messages *)

(** Name what the dispatch loop and the broadcast in the goal emit. *)
Ltac loop_quiet :=
  match goal with
  | |- context [events (control_loop ?a ?b ?c ?d ?e)] =>
      destruct (control_callbacks_only_quiet _
                  (control_loop_callbacks_only a b c d e))
        as (Hloop_b & Hloop_s & Hloop_c)
  end.

Ltac send_observed :=
  match goal with
  | |- context [sendDataToClients ?d ?v] =>
      destruct (sendDataToClients_observed d v)
        as (Hsend_c & Hsend_b & Hsend_s)
  end.

Section Channels.

Context {P : Platform}.

Lemma broadcasts_app t1 t2 : broadcasts (t1 ++ t2) = broadcasts t1 ++ broadcasts t2.
Proof. apply filter_app. Qed.

Lemma server_sends_app t1 t2 :
  server_sends (t1 ++ t2) = server_sends t1 ++ server_sends t2.
Proof. apply filter_app. Qed.

Lemma control_callbacks_app t1 t2 :
  control_callbacks (t1 ++ t2) = control_callbacks t1 ++ control_callbacks t2.
Proof. apply filter_app. Qed.

Lemma custom_message_events_observed this num payload :
  broadcasts (custom_message_events this num payload) = []
  /\ server_sends (custom_message_events this num payload) = []
  /\ control_callbacks (custom_message_events this num payload) = [].
Proof.
  unfold custom_message_events. destruct (onCustomMessage this); repeat split.
Qed.

(** C2, as the code has it.  On the request/response channel every
    control request that carries a body, and on the push channel every
    text message whose document has both [id] and [action], triggers
    exactly one broadcast, whether or not the id names a control and
    whether or not the verb fits its kind; a request without body and a
    message lacking [id] or [action] trigger none. *)
Theorem inbound_action_broadcasts :
  forall (this : ESP32Dashboard) (w : World),
    (forall body,
        List.length (broadcasts (events (handleApiControl this (Some body) w)))
        = 1%nat)
    /\ broadcasts (events (handleApiControl this None w)) = []
    /\ (forall num payload,
           List.length
             (broadcasts
                (events (webSocketEvent this num WStype_TEXT payload w)))
           = if has_id_and_action (deserializeJson payload)
             then 1%nat else 0%nat).
Proof.
  intros this w. split; [| split].
  - intros body.
    destruct (handleApiControl_body this body w) as (_ & ->).
    change (ServerSend ?c ?t ?b :: ?l) with ([ServerSend c t b] ++ l).
    rewrite !broadcasts_app.
    loop_quiet. send_observed. rewrite Hloop_b, Hsend_b.
    reflexivity.
  - reflexivity.
  - intros num payload.
    destruct (has_id_and_action (deserializeJson payload)) eqn:Hkeys.
    + destruct (webSocketEvent_text_action this num payload w Hkeys) as (_ & ->).
      rewrite !broadcasts_app.
      loop_quiet. send_observed. rewrite Hloop_b, Hsend_b.
      destruct (custom_message_events_observed this num payload) as (-> & _).
      reflexivity.
    + destruct (webSocketEvent_text_other this num payload w Hkeys) as (_ & ->).
      destruct (custom_message_events_observed this num payload) as (-> & _).
      reflexivity.
Qed.

(** C3. When the control an inbound action addresses has a kind the verb
    does not fit, either handler leaves the whole object as it was (so the
    [state] and [value] of every control) and calls no control callback. *)
Theorem verb_kind_mismatch_is_noop :
  forall (this : ESP32Dashboard) (text : string) (w : World)
         (control : DashboardControl),
    find_control (controlId_of text) (controls this) = Some control ->
    verb_fits (action_of text) (type control) = false ->
    (result (handleApiControl this (Some text) w) = this
     /\ control_callbacks (events (handleApiControl this (Some text) w)) = [])
    /\ (forall num,
           result (webSocketEvent this num WStype_TEXT text w) = this
           /\ control_callbacks
                (events (webSocketEvent this num WStype_TEXT text w)) = []).
Proof.
  intros this text w control Hfind Hfit.
  assert (Hloop :
            control_loop (controlId_of text) (action_of text)
              (deserializeJson text) (controls this) w
            = (controls this, w, [])).
  { apply control_loop_noop. intros c Hc.
    rewrite Hfind in Hc. injection Hc as <-. exact Hfit. }
  unfold controlId_of, action_of in Hloop.
  split.
  - destruct (handleApiControl_body this text w) as (-> & ->).
    rewrite Hloop. cbn [result events world_after fst snd app].
    rewrite set_controls_same. split; [reflexivity |].
    change (ServerSend ?c ?t ?b :: ?l) with ([ServerSend c t b] ++ l).
    rewrite control_callbacks_app.
    destruct (sendDataToClients_observed this w) as (-> & _).
    reflexivity.
  - intros num.
    destruct (has_id_and_action (deserializeJson text)) eqn:Hkeys.
    + destruct (webSocketEvent_text_action this num text w Hkeys) as (-> & ->).
      rewrite Hloop. cbn [result events world_after fst snd app].
      rewrite set_controls_same. split; [reflexivity |].
      rewrite control_callbacks_app.
      destruct (sendDataToClients_observed this w) as (-> & _).
      destruct (custom_message_events_observed this num text) as (_ & _ & ->).
      reflexivity.
    + destruct (webSocketEvent_text_other this num text w Hkeys) as (-> & ->).
      split; [reflexivity |].
      apply custom_message_events_observed.
Qed.

(** C4, as the code has it.  The response to a control request depends on
    the presence of a body alone: with a body, whatever its text parses to
    and whatever the dispatch does, it is 200 with [{"status":"success"}];
    without a body it is 400 with the error object.  It is the only
    response sent. *)
Theorem api_control_response :
  forall (this : ESP32Dashboard) (plain : option string) (w : World),
    server_sends (events (handleApiControl this plain w))
    = [match plain with
       | Some _ => ServerSend 200 application_json status_success
       | None => ServerSend 400 application_json error_no_data
       end].
Proof.
  intros this [body |] w.
  - destruct (handleApiControl_body this body w) as (_ & ->).
    change (ServerSend ?c ?t ?b :: ?l) with ([ServerSend c t b] ++ l).
    rewrite !server_sends_app.
    loop_quiet. send_observed. rewrite Hloop_s, Hsend_s.
    reflexivity.
  - reflexivity.
Qed.

(** C7, as the code has it.  A text message on the push channel whose
    document lacks [id] or [action] (the null document of a refused text
    among them) leaves the object as it was and causes no broadcast, no
    response and no control or producer callback; the one call it causes
    is [onCustomMessage] with the raw text and the client number, when
    that hook is set. *)
Theorem text_without_id_or_action :
  forall (this : ESP32Dashboard) (num : nat) (payload : string) (w : World),
    has_id_and_action (deserializeJson payload) = false ->
    result (webSocketEvent this num WStype_TEXT payload w) = this
    /\ events (webSocketEvent this num WStype_TEXT payload w)
       = match onCustomMessage this with
         | Some _ => [CustomMessage payload (String_of_num num)]
         | None => []
         end.
Proof.
  intros this num payload w Hkeys.
  exact (webSocketEvent_text_other this num payload w Hkeys).
Qed.

End Channels.

(** ** The handlers, run in full *)

Section HandlerRuns.

Context {P : Platform}.

Lemma tuple_eq {A} (r : A * World * list Event) a w t :
  result r = a -> world_after r = w -> events r = t -> r = (a, w, t).
Proof. destruct r as [[a' w'] t']. cbn. congruence. Qed.

Lemma call_switchCallback_run control arg w :
  call_switchCallback control arg w
  = (tt, after_switchCallback control arg w,
     call_of (switchCallback control) (SwitchCallback (id control) arg)).
Proof.
  unfold call_switchCallback, after_switchCallback, after_hook, call_of.
  destruct (switchCallback control); [| reflexivity].
  apply tuple_eq; run; reflexivity.
Qed.

Lemma call_sliderCallback_run control arg w :
  call_sliderCallback control arg w
  = (tt, after_sliderCallback control arg w,
     call_of (sliderCallback control) (SliderCallback (id control) arg)).
Proof.
  unfold call_sliderCallback, after_sliderCallback, after_hook, call_of.
  destruct (sliderCallback control); [| reflexivity].
  apply tuple_eq; run; reflexivity.
Qed.

Lemma call_buttonCallback_run control w :
  call_buttonCallback control w
  = (tt, after_buttonCallback control w,
     call_of (buttonCallback control) (ButtonCallback (id control))).
Proof.
  unfold call_buttonCallback, after_buttonCallback, after_hook, call_of.
  destruct (buttonCallback control); [| reflexivity].
  apply tuple_eq; run; reflexivity.
Qed.

Lemma call_hook_run hook ev w :
  call_hook hook ev w = (tt, after_hook hook w, call_of hook ev).
Proof.
  unfold call_hook, after_hook, call_of.
  destruct hook; [| reflexivity].
  apply tuple_eq; run; reflexivity.
Qed.

(** The three branches of the chain, each with the callback run. *)
Lemma apply_action_toggle_run action doc control w :
  action = "toggle" ->
  is_switch_like control = true ->
  apply_action action doc control w
  = (set_state control (negb (state control)),
     after_switchCallback control (negb (state control)) w,
     call_of (switchCallback control)
       (SwitchCallback (id control) (negb (state control)))).
Proof.
  intros -> Hkind. unfold apply_action. rewrite Hkind.
  cbn [String.eqb Ascii.eqb Bool.eqb andb].
  rewrite bind_run, call_switchCallback_run.
  cbn [result world_after events fst snd ret]. rewrite app_nil_r.
  reflexivity.
Qed.

Lemma apply_action_click_run action doc control w :
  action = "click" ->
  is_button control = true ->
  apply_action action doc control w
  = (control, after_buttonCallback control w,
     call_of (buttonCallback control) (ButtonCallback (id control))).
Proof.
  intros -> Hkind. unfold apply_action. rewrite Hkind.
  cbn [String.eqb Ascii.eqb Bool.eqb andb].
  rewrite bind_run, call_buttonCallback_run.
  cbn [result world_after events fst snd ret]. rewrite app_nil_r.
  reflexivity.
Qed.

Lemma apply_action_slide_run action doc control w :
  action = "slide" ->
  is_slider control = true ->
  apply_action action doc control w
  = (set_value control (as_int (member doc "value")),
     after_sliderCallback control (as_int (member doc "value")) w,
     call_of (sliderCallback control)
       (SliderCallback (id control) (as_int (member doc "value")))).
Proof.
  intros -> Hkind. unfold apply_action. rewrite Hkind.
  cbn [String.eqb Ascii.eqb Bool.eqb andb].
  rewrite bind_run, call_sliderCallback_run.
  cbn [result world_after events fst snd ret]. rewrite app_nil_r.
  reflexivity.
Qed.

(** [handleApiControl] with a body: the loop, the response, the
    broadcast. *)
Lemma handleApiControl_run this body w :
  handleApiControl this (Some body) w
  = (set_controls this
       (result (control_loop (controlId_of body) (action_of body)
                  (deserializeJson body) (controls this) w)),
     world_after
       (sendDataToClients
          (set_controls this
             (result (control_loop (controlId_of body) (action_of body)
                        (deserializeJson body) (controls this) w)))
          (world_after
             (control_loop (controlId_of body) (action_of body)
                (deserializeJson body) (controls this) w))),
     events (control_loop (controlId_of body) (action_of body)
               (deserializeJson body) (controls this) w)
     ++ ServerSend 200 application_json status_success
        :: events
             (sendDataToClients
                (set_controls this
                   (result (control_loop (controlId_of body) (action_of body)
                              (deserializeJson body) (controls this) w)))
                (world_after
                   (control_loop (controlId_of body) (action_of body)
                      (deserializeJson body) (controls this) w)))).
Proof.
  unfold controlId_of, action_of.
  apply tuple_eq; unfold handleApiControl; run; rewrite ?app_nil_r;
    reflexivity.
Qed.

(** [webSocketEvent] with a text that has both keys: the loop, the
    broadcast, the custom message callback. *)
Lemma webSocketEvent_text_run this num payload w :
  has_id_and_action (deserializeJson payload) = true ->
  webSocketEvent this num WStype_TEXT payload w
  = (set_controls this
       (result (control_loop (controlId_of payload) (action_of payload)
                  (deserializeJson payload) (controls this) w)),
     after_customMessage this num payload
       (world_after
          (sendDataToClients
             (set_controls this
                (result (control_loop (controlId_of payload)
                           (action_of payload) (deserializeJson payload)
                           (controls this) w)))
             (world_after
                (control_loop (controlId_of payload) (action_of payload)
                   (deserializeJson payload) (controls this) w)))),
     events (control_loop (controlId_of payload) (action_of payload)
               (deserializeJson payload) (controls this) w)
     ++ events
          (sendDataToClients
             (set_controls this
                (result (control_loop (controlId_of payload)
                           (action_of payload) (deserializeJson payload)
                           (controls this) w)))
             (world_after
                (control_loop (controlId_of payload) (action_of payload)
                   (deserializeJson payload) (controls this) w)))
     ++ call_of (onCustomMessage this)
          (CustomMessage payload (String_of_num num))).
Proof.
  unfold controlId_of, action_of, has_id_and_action, webSocketEvent,
    after_customMessage, after_hook, call_of.
  intros ->.
  apply tuple_eq; run; cbn [onCustomMessage set_controls];
    destruct (onCustomMessage this); run;
    rewrite ?app_nil_r, <- ?app_assoc; reflexivity.
Qed.

(** ... and with a text that lacks a key. *)
Lemma webSocketEvent_text_dropped_run this num payload w :
  has_id_and_action (deserializeJson payload) = false ->
  webSocketEvent this num WStype_TEXT payload w
  = (this, after_customMessage this num payload w,
     call_of (onCustomMessage this)
       (CustomMessage payload (String_of_num num))).
Proof.
  unfold has_id_and_action, webSocketEvent, after_customMessage, after_hook,
    call_of.
  intros ->.
  apply tuple_eq; run; destruct (onCustomMessage this); run; reflexivity.
Qed.




End HandlerRuns.

(** ** Actions that fit: [toggle] and [slide] *)

Section Actions.

Context {P : Platform}.

Lemma apply_action_toggle action doc control w :
  action = "toggle" ->
  is_switch_like control = true ->
  result (apply_action action doc control w)
  = set_state control (negb (state control))
  /\ events (apply_action action doc control w)
     = match switchCallback control with
       | Some _ => [SwitchCallback (id control) (negb (state control))]
       | None => []
       end.
Proof.
  intros -> Hkind. unfold apply_action. rewrite Hkind.
  cbn [String.eqb Ascii.eqb Bool.eqb andb]. run.
  rewrite app_nil_r, call_switchCallback_events. split; reflexivity.
Qed.

Lemma apply_action_slide action doc control w :
  action = "slide" ->
  is_slider control = true ->
  result (apply_action action doc control w)
  = set_value control (as_int (member doc "value"))
  /\ events (apply_action action doc control w)
     = match sliderCallback control with
       | Some _ => [SliderCallback (id control) (as_int (member doc "value"))]
       | None => []
       end.
Proof.
  intros -> Hkind. unfold apply_action. rewrite Hkind.
  cbn [String.eqb Ascii.eqb Bool.eqb andb]. run.
  rewrite app_nil_r, call_sliderCallback_events. split; reflexivity.
Qed.

Lemma find_control_id controlId cs control :
  find_control controlId cs = Some control ->
  String.eqb (id control) controlId = true.
Proof.
  unfold find_control. intros H.
  apply find_some in H. apply H.
Qed.

(** The controls after an action that stops at [control] and turns it
    into [control']. *)
Lemma find_control_updated controlId cs control control' :
  find_control controlId cs = Some control ->
  id control' = id control ->
  find_control controlId
    (update_first (fun c => String.eqb (id c) controlId) (fun _ => control') cs)
  = Some control'.
Proof.
  intros Hfind Hid. unfold find_control in *.
  apply (find_update_first _ (fun _ => control') cs control Hfind).
  rewrite Hid. exact (find_control_id _ _ _ Hfind).
Qed.

Lemma getSliderValue_at_first controlId cs control :
  find_control controlId cs = Some control ->
  is_slider control = true ->
  getSliderValue_loop controlId cs = value control.
Proof.
  unfold find_control.
  induction cs as [| c rest IH]; cbn [find getSliderValue_loop].
  - discriminate.
  - destruct (String.eqb (id c) controlId); cbn [andb].
    + intros [= ->] ->. reflexivity.
    + exact IH.
Qed.

(** C6. A [slide] action addressed to a Slider whose [value] member is an
    integer [v] (an [int]) stores exactly [v], on either channel, with no
    comparison against [minValue] or [maxValue]: afterwards the addressed
    control has [value = v] and its bounds as before, and
    [getSliderValue] for its id gives [v]. *)
Theorem slide_assigns_requested_value :
  forall (this : ESP32Dashboard) (text : string) (w : World)
         (control : DashboardControl) (v : Z),
    find_control (controlId_of text) (controls this) = Some control ->
    type control = CONTROL_SLIDER ->
    action_of text = "slide" ->
    member (deserializeJson text) "value" = JInt v ->
    INT_MIN <= v <= INT_MAX ->
    (exists control',
        find_control (controlId_of text)
          (controls (result (handleApiControl this (Some text) w)))
        = Some control'
        /\ control' = set_value control v
        /\ value control' = v
        /\ minValue control' = minValue control
        /\ maxValue control' = maxValue control
        /\ getSliderValue (result (handleApiControl this (Some text) w))
             (controlId_of text) = v)
    /\ (has_id_and_action (deserializeJson text) = true ->
        forall num,
        exists control',
          find_control (controlId_of text)
            (controls (result (webSocketEvent this num WStype_TEXT text w)))
          = Some control'
          /\ control' = set_value control v
          /\ value control' = v
          /\ minValue control' = minValue control
          /\ maxValue control' = maxValue control
          /\ getSliderValue
               (result (webSocketEvent this num WStype_TEXT text w))
               (controlId_of text) = v).
Proof.
  intros this text w control v Hfind Hkind Hact Hval Hrange.
  assert (Hslider : is_slider control = true)
    by (unfold is_slider; rewrite Hkind; reflexivity).
  assert (Hint : as_int (member (deserializeJson text) "value") = v).
  { rewrite Hval. unfold as_int, in_int_range.
    destruct (Z.leb_spec INT_MIN v); [| lia].
    destruct (Z.leb_spec v INT_MAX); [| lia]. reflexivity. }
  assert (Hloop :
            result (control_loop (controlId_of text) (action_of text)
                      (deserializeJson text) (controls this) w)
            = update_first (fun c => String.eqb (id c) (controlId_of text))
                (fun _ => set_value control v) (controls this)).
  { rewrite (control_loop_match _ _ _ _ _ _ Hfind).
    rewrite (apply_action_slide_run _ _ _ _ Hact Hslider), Hint.
    reflexivity. }
  assert (Hfound :
            find_control (controlId_of text)
              (update_first (fun c => String.eqb (id c) (controlId_of text))
                 (fun _ => set_value control v) (controls this))
            = Some (set_value control v))
    by (apply (find_control_updated _ _ control);
        [exact Hfind | reflexivity]).
  assert (Hall : forall this',
             controls this'
             = update_first (fun c => String.eqb (id c) (controlId_of text))
                 (fun _ => set_value control v) (controls this) ->
             exists control',
               find_control (controlId_of text) (controls this')
               = Some control'
               /\ control' = set_value control v
               /\ value control' = v
               /\ minValue control' = minValue control
               /\ maxValue control' = maxValue control
               /\ getSliderValue this' (controlId_of text) = v).
  { intros this' E. exists (set_value control v).
    unfold getSliderValue. rewrite E.
    repeat split; try reflexivity; [exact Hfound |].
    apply (getSliderValue_at_first _ _ (set_value control v) Hfound Hslider). }
  split.
  - apply Hall. rewrite handleApiControl_run. exact Hloop.
  - intros Hkeys num. apply Hall.
    rewrite (webSocketEvent_text_run _ _ _ _ Hkeys). exact Hloop.
Qed.

Lemma getSwitchState_at_first controlId cs control :
  find_control controlId cs = Some control ->
  is_switch_like control = true ->
  getSwitchState_loop controlId cs = state control.
Proof.
  unfold find_control.
  induction cs as [| c rest IH]; cbn [find getSwitchState_loop].
  - discriminate.
  - destruct (String.eqb (id c) controlId); cbn [andb].
    + intros [= ->] ->. reflexivity.
    + exact IH.
Qed.

(** One [toggle] request addressed to a switch with callback [f]: the
    state is flipped, [f] runs once on the new state, before the response
    and the broadcast. *)
Lemma toggle_request_run this text w control f :
  find_control (controlId_of text) (controls this) = Some control ->
  action_of text = "toggle" ->
  is_switch_like control = true ->
  switchCallback control = Some f ->
  handleApiControl this (Some text) w
  = (set_controls this
       (update_first (fun c => String.eqb (id c) (controlId_of text))
          (fun _ => set_state control (negb (state control)))
          (controls this)),
     world_after
       (sendDataToClients
          (set_controls this
             (update_first (fun c => String.eqb (id c) (controlId_of text))
                (fun _ => set_state control (negb (state control)))
                (controls this)))
          (f (negb (state control)) w)),
     SwitchCallback (id control) (negb (state control))
     :: ServerSend 200 application_json status_success
     :: events
          (sendDataToClients
             (set_controls this
                (update_first (fun c => String.eqb (id c) (controlId_of text))
                   (fun _ => set_state control (negb (state control)))
                   (controls this)))
             (f (negb (state control)) w))).
Proof.
  intros Hfind Hact Hkind Hcb.
  rewrite handleApiControl_run.
  rewrite (control_loop_match _ _ _ _ _ _ Hfind).
  rewrite (apply_action_toggle_run _ _ _ _ Hact Hkind).
  unfold after_switchCallback, after_hook, call_of. rewrite Hcb.
  reflexivity.
Qed.

(** C8. Two [toggle] requests addressed to a Switch (or PowerButton) with
    a bound callback [f].  The first stores [negb s], where [s] is the
    start state, and runs [f (negb s)]; the second stores [s] again, so
    that every control is as before the first, and runs [f s] on the
    world the first request left.  Each request makes exactly one call of
    the callback, before its response and its broadcast, with the state
    just stored; [getSwitchState] reads [s], [negb s], [s]. *)
Theorem toggle_twice :
  forall (this : ESP32Dashboard) (text1 text2 : string) (w : World)
         (control : DashboardControl)
         (f : bool -> World -> World),
    find_control (controlId_of text1) (controls this) = Some control ->
    controlId_of text2 = controlId_of text1 ->
    action_of text1 = "toggle" ->
    action_of text2 = "toggle" ->
    is_switch_like control = true ->
    switchCallback control = Some f ->
    let first := handleApiControl this (Some text1) w in
    let second :=
      handleApiControl (result first) (Some text2) (world_after first) in
    (getSwitchState this (controlId_of text1) = state control
     /\ getSwitchState (result first) (controlId_of text1)
        = negb (state control)
     /\ getSwitchState (result second) (controlId_of text1) = state control)
    /\ controls (result second) = controls this
    /\ (world_after first
        = world_after
            (sendDataToClients (result first) (f (negb (state control)) w))
        /\ events first
           = SwitchCallback (id control) (negb (state control))
             :: ServerSend 200 application_json status_success
             :: events
                  (sendDataToClients (result first)
                     (f (negb (state control)) w)))
    /\ (world_after second
        = world_after
            (sendDataToClients (result second)
               (f (state control) (world_after first)))
        /\ events second
           = SwitchCallback (id control) (state control)
             :: ServerSend 200 application_json status_success
             :: events
                  (sendDataToClients (result second)
                     (f (state control) (world_after first))))
    /\ control_callbacks (events first ++ events second)
       = [SwitchCallback (id control) (negb (state control));
          SwitchCallback (id control) (state control)].
Proof.
  intros this text1 text2 w control f Hfind Hid2 Hact1 Hact2 Hkind Hcb.
  cbv zeta.
  set (flipped := set_state control (negb (state control))).
  set (sel := fun c : DashboardControl => String.eqb (id c) (controlId_of text1)).
  pose proof (toggle_request_run this text1 w control f Hfind Hact1 Hkind Hcb)
    as H1.
  fold flipped sel in H1.
  set (this1 := set_controls this
                  (update_first sel (fun _ => flipped) (controls this))) in *.
  assert (Hfind1 : find_control (controlId_of text1) (controls this1)
                   = Some flipped)
    by (apply (find_control_updated _ _ control);
        [exact Hfind | reflexivity]).
  assert (Hfind1' : find_control (controlId_of text2) (controls this1)
                    = Some flipped) by (rewrite Hid2; exact Hfind1).
  rewrite H1. cbn [result world_after events fst snd].
  set (w1 := world_after (sendDataToClients this1 (f (negb (state control)) w))).
  pose proof (toggle_request_run this1 text2 w1 flipped f Hfind1' Hact2 Hkind Hcb)
    as H2.
  rewrite Hid2 in H2. fold sel in H2.
  cbn [state id flipped set_state] in H2. rewrite negb_involutive in H2.
  assert (Hback :
            update_first sel (fun _ => set_state flipped (state control))
              (controls this1)
            = controls this).
  { cbn [controls this1 set_controls].
    rewrite update_first_twice
      by (intros a _; exact (find_control_id _ _ _ Hfind)).
    apply update_first_same.
    intros a Ha. unfold find_control in Hfind. fold sel in Hfind.
    rewrite Hfind in Ha. injection Ha as <-.
    destruct control; reflexivity. }
  rewrite Hback in H2. rewrite H2.
  cbn [result world_after events fst snd controls set_controls].
  split; [| split; [reflexivity | split; [split; reflexivity |
                                          split; [split; reflexivity |]]]].
  - unfold getSwitchState. cbn [controls set_controls].
    rewrite (getSwitchState_at_first _ _ _ Hfind Hkind),
      (getSwitchState_at_first _ _ _ Hfind1 Hkind).
    repeat split; reflexivity.
  - unfold control_callbacks.
    cbn [app filter is_control_callback]. rewrite filter_app.
    cbn [filter is_control_callback].
    repeat match goal with
           | |- context [filter _ (events (sendDataToClients ?d ?v))] =>
               let H := fresh in
               destruct (sendDataToClients_observed d v) as (H & _);
               unfold control_callbacks in H; rewrite H; clear H
           end.
    reflexivity.
Qed.

End Actions.

(** ** The device-side setters and the tick *)

Section Setters.

Context {P : Platform}.


Lemma setSwitchState_loop_run id0 st cs w control :
  find (switch_with_id id0) cs = Some control ->
  result (setSwitchState_loop id0 st cs w)
  = update_first (switch_with_id id0) (fun c => set_state c st) cs
  /\ events (setSwitchState_loop id0 st cs w)
     = match switchCallback control with
       | Some _ => [SwitchCallback (id control) st]
       | None => []
       end.
Proof.
  unfold switch_with_id.
  induction cs as [| c rest IH]; cbn [find setSwitchState_loop update_first].
  - discriminate.
  - destruct (String.eqb (id c) id0 && is_switch_like c).
    + intros [= ->]. run. rewrite app_nil_r, call_switchCallback_events.
      split; reflexivity.
    + intros Hfind. destruct (IH Hfind) as (Hr & He). run.
      rewrite Hr, He, app_nil_r. split; reflexivity.
Qed.

Lemma setSliderValue_loop_run id0 v cs w control :
  find (slider_with_id id0) cs = Some control ->
  result (setSliderValue_loop id0 v cs w)
  = update_first (slider_with_id id0) (fun c => set_value c v) cs
  /\ events (setSliderValue_loop id0 v cs w)
     = match sliderCallback control with
       | Some _ => [SliderCallback (id control) v]
       | None => []
       end.
Proof.
  unfold slider_with_id.
  induction cs as [| c rest IH]; cbn [find setSliderValue_loop update_first].
  - discriminate.
  - destruct (String.eqb (id c) id0 && is_slider c).
    + intros [= ->]. run. rewrite app_nil_r, call_sliderCallback_events.
      split; reflexivity.
    + intros Hfind. destruct (IH Hfind) as (Hr & He). run.
      rewrite Hr, He, app_nil_r. split; reflexivity.
Qed.

Lemma addChartDataPoint_loop_events cardId v cs w :
  events (addChartDataPoint_loop cardId v cs w) = [].
Proof.
  induction cs as [| c rest IH]; cbn [addChartDataPoint_loop].
  - reflexivity.
  - destruct (String.eqb (card_id c) cardId && is_chart c); run.
    + reflexivity.
    + rewrite IH. reflexivity.
Qed.

(** The chart update of a tick touches no control and calls producers
    only. *)
Lemma update_charts_frame cs : forall this w,
  controls (result (update_charts this cs w)) = controls this
  /\ producers_only (events (update_charts this cs w)).
Proof.
  induction cs as [| c rest IH]; intros this w; cbn [update_charts].
  - split; [reflexivity | constructor].
  - destruct (is_chart c); [destruct (valueCallback c) as [f |] |];
      try apply IH.
    run.
    match goal with
    | |- context [update_charts ?d rest ?v] => destruct (IH d v) as (Hc & Hp)
    end.
    split.
    + rewrite Hc. unfold addChartDataPoint. run. reflexivity.
    + unfold addChartDataPoint at 1. run.
      rewrite addChartDataPoint_loop_events. cbn [app].
      apply Forall_cons; [reflexivity | exact Hp].
Qed.

(** A due tick with nothing pending: the chart update, then one
    broadcast. *)
Lemma loop_idle_tick this w :
  tick_due this w = true ->
  events (loop this None [] w)
  = events (update_charts this (cards this) w)
    ++ events (sendDataToClients
                 (result (update_charts this (cards this) w))
                 (world_after (update_charts this (cards this) w))).
Proof.
  unfold tick_due, loop, handleClient. cbn [webSocket_loop]. intros Hdue.
  run. rewrite Hdue. run. rewrite !app_nil_r. reflexivity.
Qed.

Lemma tick_shows_control this w control :
  tick_due this w = true ->
  In control (controls this) ->
  tick_shows this w control.
Proof.
  intros Hdue Hin. unfold tick_shows.
  rewrite (loop_idle_tick this w Hdue).
  destruct (update_charts_frame (cards this) this w) as (Hc & Hp).
  set (this1 := result (update_charts this (cards this) w)) in *.
  set (w1 := world_after (update_charts this (cards this) w)).
  destruct (compact_document_result this1 w1) as (now & n & Hdoc).
  exists (result (compact_document this1 w1)),
    (map compact_controlObj (controls this1)).
  split; [| split].
  - unfold broadcasts. rewrite filter_app.
    destruct (producers_only_silent _ Hp) as (_ & Hb & _).
    unfold broadcasts in Hb. rewrite Hb.
    apply sendDataToClients_observed.
  - rewrite Hdoc. reflexivity.
  - rewrite Hc. apply in_map, Hin.
Qed.

End Setters.

(** ** Type codes in the snapshots *)

Section Snapshots.

Context {P : Platform}.

Lemma CardType_to_int_position t :
  CardType_to_int t = position t CardType_enumerators.
Proof. destruct t; reflexivity. Qed.

Lemma full_cardObj_type card w :
  member (result (full_cardObj card w)) "type"
  = JInt (CardType_to_int (card_type card)).
Proof. unfold full_cardObj. run. reflexivity. Qed.

Lemma compact_cardObj_type card w :
  member (result (compact_cardObj card w)) "type"
  = JInt (CardType_to_int (card_type card)).
Proof. unfold compact_cardObj. run. reflexivity. Qed.

Lemma mapM_members {A} (f : A -> M (Json float)) (g : A -> Json float)
  (key : string) (l : list A) :
  (forall a w, member (result (f a w)) key = g a) ->
  forall w, map (fun obj => member obj key) (result (mapM f l w)) = map g l.
Proof.
  intros Hf. induction l as [| a l IH]; intros w; cbn [mapM map].
  - reflexivity.
  - run. cbn [map]. rewrite Hf, IH. reflexivity.
Qed.

(** C5, as the code has it.  In the full and in the compact snapshot the
    [type] member of each card object is the position of the card's kind
    in the order in which the header declares the enumerators:
    Temperature, Humidity, MotorRPM, Custom, Status, Percentage, Chart,
    counted from zero.  Chart is 6, and Custom (3) comes before Status
    (4).  These documents are what [handleApiData] sends and
    [sendDataToClients] broadcasts. *)
Theorem card_type_codes :
  forall (this : ESP32Dashboard) (w : World),
    type_codes (result (full_document this w))
    = map (fun card => JInt (position (card_type card) CardType_enumerators))
        (cards this)
    /\ type_codes (result (compact_document this w))
       = map (fun card => JInt (position (card_type card) CardType_enumerators))
           (cards this)
    /\ position CARD_CHART CardType_enumerators = 6
    /\ position CARD_CUSTOM CardType_enumerators
       < position CARD_STATUS CardType_enumerators
    /\ server_sends (events (handleApiData this w))
       = [ServerSend 200 application_json
            (serializeJson (result (full_document this w)))]
    /\ broadcasts (events (sendDataToClients this w))
       = [BroadcastTXT (serializeJson (result (compact_document this w)))].
Proof.
  intros this w.
  assert (Hcode : forall cs,
             map (fun card => @JInt float (CardType_to_int (card_type card))) cs
             = map (fun card =>
                      JInt (position (card_type card) CardType_enumerators)) cs).
  { intros cs. apply map_ext. intros c.
    rewrite CardType_to_int_position. reflexivity. }
  repeat split.
  - destruct (full_document_result this w) as (now & n & ->).
    unfold type_codes. cbn [member assoc String.eqb Ascii.eqb Bool.eqb].
    rewrite <- Hcode. apply mapM_members, full_cardObj_type.
  - destruct (compact_document_result this w) as (now & n & ->).
    unfold type_codes. cbn [member assoc String.eqb Ascii.eqb Bool.eqb].
    rewrite <- Hcode. apply mapM_members, compact_cardObj_type.
  - unfold handleApiData. run. rewrite app_nil_r.
    unfold server_sends. rewrite filter_app.
    destruct (producers_only_silent _ (full_document_producers this w))
      as (_ & _ & Hs).
    unfold server_sends in Hs. rewrite Hs. reflexivity.
  - apply sendDataToClients_observed.
Qed.

End Snapshots.

(** ** The accessors *)

Section Accessors.

Context {P : Platform}.

Lemma setSwitchState_loop_result id0 st cs w :
  result (setSwitchState_loop id0 st cs w)
  = update_first (switch_with_id id0) (fun c => set_state c st) cs.
Proof.
  unfold switch_with_id.
  induction cs as [| c rest IH]; cbn [setSwitchState_loop update_first].
  - reflexivity.
  - destruct (String.eqb (id c) id0 && is_switch_like c); run.
    + reflexivity.
    + rewrite IH. reflexivity.
Qed.

Lemma setSliderValue_loop_result id0 v cs w :
  result (setSliderValue_loop id0 v cs w)
  = update_first (slider_with_id id0) (fun c => set_value c v) cs.
Proof.
  unfold slider_with_id.
  induction cs as [| c rest IH]; cbn [setSliderValue_loop update_first].
  - reflexivity.
  - destruct (String.eqb (id c) id0 && is_slider c); run.
    + reflexivity.
    + rewrite IH. reflexivity.
Qed.

Lemma setSwitchState_controls this id0 st w :
  controls (result (setSwitchState this id0 st w))
  = update_first (switch_with_id id0) (fun c => set_state c st)
      (controls this).
Proof.
  unfold setSwitchState. run. apply setSwitchState_loop_result.
Qed.

Lemma setSliderValue_controls this id0 v w :
  controls (result (setSliderValue this id0 v w))
  = update_first (slider_with_id id0) (fun c => set_value c v)
      (controls this).
Proof.
  unfold setSliderValue. run. apply setSliderValue_loop_result.
Qed.

Lemma eqb_trans_false (a b c : string) :
  String.eqb a b = true -> String.eqb c b = false -> String.eqb a c = false.
Proof.
  intros Hab Hcb. apply String.eqb_eq in Hab. subst a.
  rewrite String.eqb_sym. exact Hcb.
Qed.

(** Reading a switch after the list was updated at the first switch with
    id [id0]. *)
Lemma getSwitchState_loop_updated id0 st x cs :
  getSwitchState_loop x
    (update_first (switch_with_id id0) (fun c => set_state c st) cs)
  = if String.eqb x id0 && existsb (switch_with_id id0) cs
    then st else getSwitchState_loop x cs.
Proof.
  induction cs as [| c rest IH];
    cbn [update_first getSwitchState_loop existsb].
  - rewrite andb_false_r. reflexivity.
  - destruct (switch_with_id id0 c) eqn:Hsel; cbn [orb].
    + rewrite andb_true_r. cbn [getSwitchState_loop].
      unfold switch_with_id, is_switch_like in *.
      cbn [id type state set_state].
      apply andb_prop in Hsel. destruct Hsel as (Hid & Hkind).
      rewrite Hkind, !andb_true_r.
      destruct (String.eqb x id0) eqn:Hx.
      * apply String.eqb_eq in Hx. subst x. rewrite Hid. reflexivity.
      * rewrite (eqb_trans_false _ _ _ Hid Hx). reflexivity.
    + cbn [getSwitchState_loop]. rewrite IH.
      destruct (String.eqb (id c) x && is_switch_like c) eqn:Hc;
        [| reflexivity].
      destruct (String.eqb x id0) eqn:Hx; [| reflexivity].
      apply String.eqb_eq in Hx. subst x.
      unfold switch_with_id in Hsel. congruence.
Qed.

Lemma getSliderValue_loop_updated id0 v x cs :
  getSliderValue_loop x
    (update_first (slider_with_id id0) (fun c => set_value c v) cs)
  = if String.eqb x id0 && existsb (slider_with_id id0) cs
    then v else getSliderValue_loop x cs.
Proof.
  induction cs as [| c rest IH];
    cbn [update_first getSliderValue_loop existsb].
  - rewrite andb_false_r. reflexivity.
  - destruct (slider_with_id id0 c) eqn:Hsel; cbn [orb].
    + rewrite andb_true_r. cbn [getSliderValue_loop].
      unfold slider_with_id, is_slider in *.
      cbn [id type value set_value].
      apply andb_prop in Hsel. destruct Hsel as (Hid & Hkind).
      rewrite Hkind, !andb_true_r.
      destruct (String.eqb x id0) eqn:Hx.
      * apply String.eqb_eq in Hx. subst x. rewrite Hid. reflexivity.
      * rewrite (eqb_trans_false _ _ _ Hid Hx). reflexivity.
    + cbn [getSliderValue_loop]. rewrite IH.
      destruct (String.eqb (id c) x && is_slider c) eqn:Hc;
        [| reflexivity].
      destruct (String.eqb x id0) eqn:Hx; [| reflexivity].
      apply String.eqb_eq in Hx. subst x.
      unfold slider_with_id in Hsel. congruence.
Qed.

(** A getter does not see a change of the member it does not read. *)
Lemma getSliderValue_loop_set_state p st x cs :
  getSliderValue_loop x (update_first p (fun c => set_state c st) cs)
  = getSliderValue_loop x cs.
Proof.
  induction cs as [| c rest IH]; cbn [update_first getSliderValue_loop].
  - reflexivity.
  - destruct (p c); cbn [getSliderValue_loop]; [| rewrite IH]; reflexivity.
Qed.

Lemma getSwitchState_loop_set_value p v x cs :
  getSwitchState_loop x (update_first p (fun c => set_value c v) cs)
  = getSwitchState_loop x cs.
Proof.
  induction cs as [| c rest IH]; cbn [update_first getSwitchState_loop].
  - reflexivity.
  - destruct (p c); cbn [getSwitchState_loop]; [| rewrite IH]; reflexivity.
Qed.

Lemma getSwitchState_loop_absent x cs :
  existsb (switch_with_id x) cs = false -> getSwitchState_loop x cs = false.
Proof.
  unfold switch_with_id.
  induction cs as [| c rest IH]; cbn [existsb getSwitchState_loop].
  - reflexivity.
  - destruct (String.eqb (id c) x && is_switch_like c); cbn [orb].
    + discriminate.
    + exact IH.
Qed.

(** X1. [getSwitchState] after [setSwitchState(id0, st)]: asked for [id0]
    it gives [st] when a Switch or PowerButton has that id; in any other
    case it gives what it gave before.  For an id no Switch or
    PowerButton has, it gives [false], before and after. *)
Theorem setSwitchState_then_get :
  forall (this : ESP32Dashboard) (id0 x : string) (st : bool) (w : World),
    getSwitchState (result (setSwitchState this id0 st w)) x
    = (if String.eqb x id0 && existsb (switch_with_id id0) (controls this)
       then st else getSwitchState this x)
    /\ (existsb (switch_with_id x) (controls this) = false ->
        getSwitchState this x = false
        /\ getSwitchState (result (setSwitchState this id0 st w)) x = false).
Proof.
  intros this id0 x st w.
  assert (Hget : getSwitchState (result (setSwitchState this id0 st w)) x
                 = (if String.eqb x id0
                       && existsb (switch_with_id id0) (controls this)
                    then st else getSwitchState this x)).
  { unfold getSwitchState.
    rewrite setSwitchState_controls. apply getSwitchState_loop_updated. }
  split; [exact Hget |].
  intros Habsent.
  assert (Hbefore : getSwitchState this x = false)
    by (apply getSwitchState_loop_absent, Habsent).
  split; [exact Hbefore |].
  rewrite Hget, Hbefore.
  destruct (String.eqb x id0) eqn:E; [| reflexivity].
  apply String.eqb_eq in E. subst x. rewrite Habsent. reflexivity.
Qed.

(** X2. [getSliderValue] after [setSliderValue(id0, v)]: asked for [id0]
    it gives [v], whatever the bounds of the slider, when a Slider has
    that id; in any other case it gives what it gave before. *)
Theorem setSliderValue_then_get :
  forall (this : ESP32Dashboard) (id0 x : string) (v : Z) (w : World),
    getSliderValue (result (setSliderValue this id0 v w)) x
    = if String.eqb x id0 && existsb (slider_with_id id0) (controls this)
      then v else getSliderValue this x.
Proof.
  intros this id0 x v w. unfold getSliderValue.
  rewrite setSliderValue_controls. apply getSliderValue_loop_updated.
Qed.

(** X3. A setter called with an id that no control of its kind has (an
    unknown id, or the id of a control of another kind) does nothing: the
    object and the world are as before and no call is made. *)
Theorem setters_ignore_other_ids :
  forall (this : ESP32Dashboard) (sid lid : string) (st : bool) (v : Z)
         (w : World),
    find (switch_with_id sid) (controls this) = None ->
    find (slider_with_id lid) (controls this) = None ->
    setSwitchState this sid st w = (this, w, [])
    /\ setSliderValue this lid v w = (this, w, []).
Proof.
  intros this sid lid st v w Hs Hl.
  assert (Hsw : forall cs, find (switch_with_id sid) cs = None ->
                           setSwitchState_loop sid st cs w = (cs, w, [])).
  { unfold switch_with_id.
    induction cs as [| c rest IH]; cbn [find setSwitchState_loop].
    - reflexivity.
    - destruct (String.eqb (id c) sid && is_switch_like c); [discriminate |].
      intros H. rewrite bind_run, (IH H). reflexivity. }
  assert (Hsl : forall cs, find (slider_with_id lid) cs = None ->
                           setSliderValue_loop lid v cs w = (cs, w, [])).
  { unfold slider_with_id.
    induction cs as [| c rest IH]; cbn [find setSliderValue_loop].
    - reflexivity.
    - destruct (String.eqb (id c) lid && is_slider c); [discriminate |].
      intros H. rewrite bind_run, (IH H). reflexivity. }
  unfold setSwitchState, setSliderValue.
  rewrite !bind_run, (Hsw _ Hs), (Hsl _ Hl).
  cbn [result world_after events fst snd ret app].
  rewrite set_controls_same. split; reflexivity.
Qed.

(** X4. The two setters do not disturb each other's getter:
    [setSwitchState] changes no [getSliderValue], [setSliderValue] no
    [getSwitchState], for any ids. *)
Theorem setters_frame_other_getter :
  forall (this : ESP32Dashboard) (id0 x : string) (st : bool) (v : Z)
         (w : World),
    getSliderValue (result (setSwitchState this id0 st w)) x
    = getSliderValue this x
    /\ getSwitchState (result (setSliderValue this id0 v w)) x
       = getSwitchState this x.
Proof.
  intros this id0 x st v w. unfold getSliderValue, getSwitchState.
  rewrite setSwitchState_controls, setSliderValue_controls.
  split; [apply getSliderValue_loop_set_state
         | apply getSwitchState_loop_set_value].
Qed.

End Accessors.

(** ** Actions seen through the getters; [click] *)

Section ActionsObserved.

Context {P : Platform}.

(** The getter reads the control the handlers stop at, when that control
    is a switch. *)
Lemma getSwitchState_loop_first controlId cs control :
  find_control controlId cs = Some control ->
  is_switch_like control = true ->
  getSwitchState_loop controlId cs = state control.
Proof.
  unfold find_control.
  induction cs as [| c rest IH]; cbn [find getSwitchState_loop].
  - discriminate.
  - destruct (String.eqb (id c) controlId); cbn [andb].
    + intros [= ->] ->. reflexivity.
    + exact IH.
Qed.

Lemma toggle_loop_result text cs w control :
  find_control (controlId_of text) cs = Some control ->
  action_of text = "toggle" ->
  is_switch_like control = true ->
  result (control_loop (controlId_of text) (action_of text)
            (deserializeJson text) cs w)
  = update_first (fun c => String.eqb (id c) (controlId_of text))
      (fun _ => set_state control (negb (state control))) cs.
Proof.
  intros Hfind Hact Hkind.
  rewrite (control_loop_match _ _ _ _ _ _ Hfind).
  destruct (apply_action_toggle (action_of text) (deserializeJson text)
              control w Hact Hkind) as (-> & _).
  reflexivity.
Qed.

(** X5. After a [toggle] action addressed to a Switch or PowerButton, on
    either channel, [getSwitchState] for that id gives the negation of
    what it gave before. *)
Theorem toggle_observed_by_getSwitchState :
  forall (this : ESP32Dashboard) (text : string) (w : World)
         (control : DashboardControl),
    find_control (controlId_of text) (controls this) = Some control ->
    action_of text = "toggle" ->
    is_switch_like control = true ->
    has_id_and_action (deserializeJson text) = true ->
    getSwitchState (result (handleApiControl this (Some text) w))
      (controlId_of text)
    = negb (getSwitchState this (controlId_of text))
    /\ (forall num,
           getSwitchState
             (result (webSocketEvent this num WStype_TEXT text w))
             (controlId_of text)
           = negb (getSwitchState this (controlId_of text))).
Proof.
  intros this text w control Hfind Hact Hkind Hkeys.
  pose proof (toggle_loop_result text (controls this) w control
                Hfind Hact Hkind) as Hloop.
  unfold getSwitchState.
  rewrite (getSwitchState_loop_first _ _ _ Hfind Hkind).
  assert (Hafter :
            getSwitchState_loop (controlId_of text)
              (update_first (fun c => String.eqb (id c) (controlId_of text))
                 (fun _ => set_state control (negb (state control)))
                 (controls this))
            = negb (state control)).
  { apply (getSwitchState_loop_first _ _
             (set_state control (negb (state control)))).
    - apply (find_control_updated _ _ control); [exact Hfind | reflexivity].
    - exact Hkind. }
  unfold controlId_of, action_of in Hloop.
  split.
  - destruct (handleApiControl_body this text w) as (-> & _).
    cbn [controls set_controls]. rewrite Hloop. exact Hafter.
  - intros num.
    destruct (webSocketEvent_text_action this num text w Hkeys) as (-> & _).
    cbn [controls set_controls]. rewrite Hloop. exact Hafter.
Qed.

Lemma apply_action_click action doc control w :
  action = "click" ->
  is_button control = true ->
  result (apply_action action doc control w) = control
  /\ events (apply_action action doc control w)
     = match buttonCallback control with
       | Some _ => [ButtonCallback (id control)]
       | None => []
       end.
Proof.
  intros -> Hkind. unfold apply_action. rewrite Hkind.
  cbn [String.eqb Ascii.eqb Bool.eqb andb]. run.
  rewrite app_nil_r, call_buttonCallback_events. split; reflexivity.
Qed.

(** X6. A [click] action addressed to a Button, on either channel, stores
    nothing (the object is as before) and runs exactly the button's
    callback, once, when one is bound: the response and the broadcast
    follow in the world the callback left, and on the push channel the
    custom message callback last. *)
Theorem click_calls_button_callback :
  forall (this : ESP32Dashboard) (text : string) (w : World)
         (control : DashboardControl),
    find_control (controlId_of text) (controls this) = Some control ->
    action_of text = "click" ->
    type control = CONTROL_BUTTON ->
    has_id_and_action (deserializeJson text) = true ->
    (handleApiControl this (Some text) w
     = (this,
        world_after
          (sendDataToClients this (after_buttonCallback control w)),
        call_of (buttonCallback control) (ButtonCallback (id control))
        ++ ServerSend 200 application_json status_success
           :: events
                (sendDataToClients this (after_buttonCallback control w)))
     /\ control_callbacks (events (handleApiControl this (Some text) w))
        = call_of (buttonCallback control) (ButtonCallback (id control)))
    /\ (forall num,
           webSocketEvent this num WStype_TEXT text w
           = (this,
              after_customMessage this num text
                (world_after
                   (sendDataToClients this (after_buttonCallback control w))),
              call_of (buttonCallback control) (ButtonCallback (id control))
              ++ events
                   (sendDataToClients this (after_buttonCallback control w))
              ++ call_of (onCustomMessage this)
                   (CustomMessage text (String_of_num num)))
           /\ control_callbacks
                (events (webSocketEvent this num WStype_TEXT text w))
              = call_of (buttonCallback control)
                  (ButtonCallback (id control))).
Proof.
  intros this text w control Hfind Hact Hkind Hkeys.
  assert (Hbutton : is_button control = true)
    by (unfold is_button; rewrite Hkind; reflexivity).
  pose proof (control_loop_match (controlId_of text) (action_of text)
                (deserializeJson text) (controls this) w control Hfind)
    as Hloop.
  rewrite (apply_action_click_run _ _ _ _ Hact Hbutton) in Hloop.
  cbn [result world_after events fst snd] in Hloop.
  rewrite update_first_same in Hloop
    by (intros a Ha; unfold find_control in Hfind; congruence).
  assert (Hcb : control_callbacks
                  (call_of (buttonCallback control)
                     (ButtonCallback (id control)))
                = call_of (buttonCallback control)
                    (ButtonCallback (id control)))
    by (unfold call_of; destruct (buttonCallback control); reflexivity).
  split.
  - rewrite handleApiControl_run, Hloop.
    cbn [result world_after events fst snd].
    rewrite set_controls_same. split; [reflexivity |].
    change (ServerSend ?c ?t ?b :: ?l) with ([ServerSend c t b] ++ l).
    rewrite !control_callbacks_app, Hcb.
    send_observed. rewrite Hsend_c. cbn [control_callbacks filter].
    rewrite app_nil_r. reflexivity.
  - intros num.
    rewrite (webSocketEvent_text_run _ _ _ _ Hkeys), Hloop.
    cbn [result world_after events fst snd].
    rewrite set_controls_same. split; [reflexivity |].
    rewrite !control_callbacks_app, Hcb.
    send_observed. rewrite Hsend_c.
    replace (control_callbacks
               (call_of (onCustomMessage this)
                  (CustomMessage text (String_of_num num)))) with
      (@nil Event)
      by (unfold call_of; destruct (onCustomMessage this); reflexivity).
    rewrite !app_nil_r. reflexivity.
Qed.

End ActionsObserved.

(** ** What the running dashboard never changes *)

Section Frames.

Context {P : Platform} {F : FloatOps}.

Lemma same_shape_refl this : same_shape this this.
Proof. repeat split. Qed.

Lemma same_shape_trans a b c :
  same_shape a b -> same_shape b c -> same_shape a c.
Proof.
  unfold same_shape. intros (H1 & H2 & H3 & H4 & H5 & H6)
    (K1 & K2 & K3 & K4 & K5 & K6).
  repeat split; congruence.
Qed.

Lemma map_update_first {A B} (g : A -> B) (p : A -> bool) (f : A -> A) l :
  (forall a, p a = true -> g (f a) = g a) ->
  map g (update_first p f l) = map g l.
Proof.
  intros Hf. induction l as [| a l IH]; cbn [update_first map].
  - reflexivity.
  - destruct (p a) eqn:Ha; cbn [map].
    + rewrite (Hf a Ha). reflexivity.
    + rewrite IH. reflexivity.
Qed.

Lemma map_update_first_found {A B} (g : A -> B) (p : A -> bool) l a a' :
  find p l = Some a -> g a' = g a ->
  map g (update_first p (fun _ => a') l) = map g l.
Proof.
  intros Hfind Hg. revert Hfind.
  induction l as [| b l IH]; cbn [update_first map find].
  - reflexivity.
  - destruct (p b); cbn [map].
    + intros [= ->]. rewrite Hg. reflexivity.
    + intros H. rewrite (IH H). reflexivity.
Qed.

Lemma apply_action_shape action doc control w :
  control_shape (result (apply_action action doc control w))
  = control_shape control.
Proof.
  unfold apply_action.
  repeat match goal with |- context [if ?b then _ else _] => destruct b end;
    run; reflexivity.
Qed.

Lemma control_loop_shape controlId action doc cs w :
  map control_shape (result (control_loop controlId action doc cs w))
  = map control_shape cs.
Proof.
  destruct (find_control controlId cs) as [control |] eqn:Hfind.
  - rewrite (control_loop_match _ _ _ _ _ _ Hfind).
    cbn [result fst].
    apply (map_update_first_found _ _ _ control); [exact Hfind |].
    apply apply_action_shape.
  - rewrite (control_loop_unknown _ _ _ _ _ Hfind). reflexivity.
Qed.

Lemma set_controls_shape this cs :
  map control_shape cs = map control_shape (controls this) ->
  same_shape (set_controls this cs) this.
Proof. intros H. repeat split. exact H. Qed.

Lemma handleApiControl_shape this plain w :
  same_shape (result (handleApiControl this plain w)) this
  /\ cards (result (handleApiControl this plain w)) = cards this
  /\ lastUpdate (result (handleApiControl this plain w)) = lastUpdate this.
Proof.
  destruct plain as [body |].
  - destruct (handleApiControl_body this body w) as (-> & _).
    split; [| split; reflexivity].
    apply set_controls_shape, control_loop_shape.
  - unfold handleApiControl. run.
    split; [apply same_shape_refl | split; reflexivity].
Qed.

Lemma webSocketEvent_shape this num ty payload w :
  same_shape (result (webSocketEvent this num ty payload w)) this
  /\ cards (result (webSocketEvent this num ty payload w)) = cards this
  /\ lastUpdate (result (webSocketEvent this num ty payload w))
     = lastUpdate this.
Proof.
  destruct ty.
  - unfold webSocketEvent. run.
    split; [apply same_shape_refl | split; reflexivity].
  - unfold webSocketEvent. run.
    split; [apply same_shape_refl | split; reflexivity].
  - destruct (has_id_and_action (deserializeJson payload)) eqn:Hkeys.
    + destruct (webSocketEvent_text_action this num payload w Hkeys)
        as (-> & _).
      split; [| split; reflexivity].
      apply set_controls_shape, control_loop_shape.
    + destruct (webSocketEvent_text_other this num payload w Hkeys)
        as (-> & _).
      split; [apply same_shape_refl | split; reflexivity].
  - split; [apply same_shape_refl | split; reflexivity].
Qed.

Lemma handleApiData_unchanged this w : result (handleApiData this w) = this.
Proof. unfold handleApiData. run. reflexivity. Qed.

Lemma handleClient_shape this req w :
  same_shape (result (handleClient this req w)) this
  /\ cards (result (handleClient this req w)) = cards this
  /\ lastUpdate (result (handleClient this req w)) = lastUpdate this.
Proof.
  destruct req as [[| plain |] |]; cbn [handleClient].
  - rewrite handleApiData_unchanged.
    split; [apply same_shape_refl | split; reflexivity].
  - apply handleApiControl_shape.
  - unfold handleNotFound. run.
    split; [apply same_shape_refl | split; reflexivity].
  - split; [apply same_shape_refl | split; reflexivity].
Qed.

Lemma webSocket_loop_shape evs : forall this w,
  same_shape (result (webSocket_loop this evs w)) this
  /\ cards (result (webSocket_loop this evs w)) = cards this
  /\ lastUpdate (result (webSocket_loop this evs w)) = lastUpdate this.
Proof.
  induction evs as [| [[num ty] payload] rest IH]; intros this w;
    cbn [webSocket_loop].
  - split; [apply same_shape_refl | split; reflexivity].
  - run.
    destruct (webSocketEvent_shape this num ty payload w) as (S1 & C1 & L1).
    match goal with
    | |- context [webSocket_loop ?d rest ?v] =>
        destruct (IH d v) as (S2 & C2 & L2)
    end.
    split; [eapply same_shape_trans; eassumption | split; congruence].
Qed.

(** [addChartDataPoint], in closed form. *)
Lemma addChartDataPoint_run this cardId v w :
  addChartDataPoint this cardId v w
  = (set_cards this
       (update_first
          (fun card => String.eqb (card_id card) cardId && is_chart card)
          (fun card =>
             push_point card {| timestamp := millis w; point_value := v |})
          (cards this)),
     w, []).
Proof.
  unfold addChartDataPoint. rewrite bind_run.
  assert (H : forall cs,
             addChartDataPoint_loop cardId v cs w
             = (update_first
                  (fun card =>
                     String.eqb (card_id card) cardId && is_chart card)
                  (fun card =>
                     push_point card
                       {| timestamp := millis w; point_value := v |}) cs,
                w, [])).
  { induction cs as [| c rest IH];
      cbn [addChartDataPoint_loop update_first].
    - reflexivity.
    - destruct (String.eqb (card_id c) cardId && is_chart c).
      + reflexivity.
      + rewrite bind_run, IH. reflexivity. }
  rewrite H. reflexivity.
Qed.

Lemma push_point_without_samples card point :
  card_without_samples (push_point card point) = card_without_samples card.
Proof. unfold push_point. destruct (_ >? _); reflexivity. Qed.

Lemma addChartDataPoint_shape this cardId v w :
  same_shape (result (addChartDataPoint this cardId v w)) this
  /\ lastUpdate (result (addChartDataPoint this cardId v w))
     = lastUpdate this.
Proof.
  rewrite addChartDataPoint_run. cbn [result fst].
  split; [| reflexivity]. repeat split.
  cbn [cards set_cards]. apply map_update_first.
  intros a _. apply push_point_without_samples.
Qed.

Lemma update_charts_shape cs : forall this w,
  same_shape (result (update_charts this cs w)) this
  /\ lastUpdate (result (update_charts this cs w)) = lastUpdate this.
Proof.
  induction cs as [| c rest IH]; intros this w; cbn [update_charts].
  - split; [apply same_shape_refl | reflexivity].
  - destruct (is_chart c); [destruct (valueCallback c) as [f |] |];
      try apply IH.
    run.
    match goal with
    | |- context [update_charts (result (addChartDataPoint ?d ?i ?x ?v)) rest ?u] =>
        destruct (IH (result (addChartDataPoint d i x v)) u) as (S2 & L2);
        destruct (addChartDataPoint_shape d i x v) as (S1 & L1)
    end.
    split; [eapply same_shape_trans; eassumption | congruence].
Qed.

Lemma loop_shape this req evs w :
  same_shape (result (loop this req evs w)) this.
Proof.
  unfold loop. run.
  destruct (handleClient_shape this req w) as (S1 & _).
  set (this1 := result (handleClient this req w)) in *.
  set (w1 := world_after (handleClient this req w)).
  destruct (webSocket_loop_shape evs this1 w1) as (S2 & _).
  set (this2 := result (webSocket_loop this1 evs w1)) in *.
  set (w2 := world_after (webSocket_loop this1 evs w1)).
  assert (S12 : same_shape this2 this)
    by (eapply same_shape_trans; eassumption).
  destruct (to_unsigned (millis w2 - lastUpdate this2)
            >=? updateInterval this2).
  - run.
    destruct (update_charts_shape (cards this2) this2 w2) as (S3 & _).
    eapply same_shape_trans; [| exact S12].
    eapply same_shape_trans; [| exact S3].
    repeat split.
  - run. exact S12.
Qed.

(** X7. Whatever is pending on the two channels and whether or not a
    tick is due, [loop] returns the same widgets in the same order: of a
    control it changes at most [state] and [value], of a card at most the
    samples; the update interval and the three event callbacks stay. *)
Theorem loop_keeps_shape :
  forall (this : ESP32Dashboard) (req : option HttpRequest)
         (evs : list (nat * WStype_t * string)) (w : World),
    same_shape (result (loop this req evs w)) this.
Proof. intros. apply loop_shape. Qed.

(** X8. Requests and push-channel events change no card (no value, no
    status, no sample) and not [lastUpdate]: only a due tick does. *)
Theorem inbound_channels_leave_cards :
  forall (this : ESP32Dashboard) (req : option HttpRequest)
         (evs : list (nat * WStype_t * string)) (w : World),
    (cards (result (handleClient this req w)) = cards this
     /\ lastUpdate (result (handleClient this req w)) = lastUpdate this)
    /\ (cards (result (webSocket_loop this evs w)) = cards this
        /\ lastUpdate (result (webSocket_loop this evs w))
           = lastUpdate this).
Proof.
  intros this req evs w.
  destruct (handleClient_shape this req w) as (_ & C1 & L1).
  destruct (webSocket_loop_shape evs this w) as (_ & C2 & L2).
  repeat split; assumption.
Qed.

End Frames.

(** ** Invariants of the reachable states *)

Section ReachableStates.

Context {P : Platform} {F : FloatOps}.

Lemma occurs_app c p d : occurs c (p ++ String c d)%string = true.
Proof.
  induction p as [| a p IH]; cbn [String.append occurs].
  - rewrite Ascii.eqb_refl. reflexivity.
  - rewrite IH. apply orb_true_r.
Qed.

(** Two texts that end with an underscore and a tail without underscore
    and are equal have the same tail. *)
Lemma underscore_tail_inj p1 : forall p2 d1 d2,
  occurs underscore d1 = false ->
  occurs underscore d2 = false ->
  (p1 ++ String underscore d1)%string = (p2 ++ String underscore d2)%string ->
  d1 = d2.
Proof.
  induction p1 as [| a p1 IH]; intros [| b p2] d1 d2 H1 H2;
    cbn [String.append]; intros [= E].
  - exact E.
  - subst d1. rewrite occurs_app in H1. discriminate.
  - subst d2. rewrite occurs_app in H2. discriminate.
  - match goal with
    | H : (p1 ++ _)%string = _ |- _ => exact (IH _ _ _ H1 H2 H)
    end.
Qed.

Lemma string_of_uint_no_underscore d :
  occurs underscore (NilEmpty.string_of_uint d) = false.
Proof. induction d; cbn; assumption || reflexivity. Qed.

Lemma String_of_num_inj i j : String_of_num i = String_of_num j -> i = j.
Proof.
  unfold String_of_num. intros H.
  apply Unsigned.to_uint_inj.
  pose proof (NilEmpty.usu (Nat.to_uint i)) as Hi.
  pose proof (NilEmpty.usu (Nat.to_uint j)) as Hj.
  rewrite H in Hi. congruence.
Qed.

Lemma numbered_NoDup {A} (get_id : A -> string) (l : list A) :
  numbered get_id l -> NoDup (map get_id l).
Proof.
  intros Hnum. apply NoDup_nth_error. intros i j Hi Heq.
  rewrite length_map in Hi.
  destruct (nth_error l i) as [a |] eqn:Ha;
    [| apply nth_error_None in Ha; lia].
  rewrite !nth_error_map, Ha in Heq. cbn [option_map] in Heq.
  destruct (nth_error l j) as [b |] eqn:Hb; [| discriminate].
  cbn [option_map] in Heq. injection Heq as Heq.
  destruct (Hnum i a Ha) as (p1 & E1). destruct (Hnum j b Hb) as (p2 & E2).
  rewrite E1, E2 in Heq.
  apply String_of_num_inj.
  exact (underscore_tail_inj _ _ _ _
           (string_of_uint_no_underscore _)
           (string_of_uint_no_underscore _) Heq).
Qed.

Lemma numbered_nil {A} (get_id : A -> string) : numbered get_id [].
Proof. intros [| i] a H; discriminate. Qed.

Lemma numbered_app {A} (get_id : A -> string) (l : list A) a prefix :
  numbered get_id l ->
  get_id a
  = (prefix ++ String underscore (String_of_num (List.length l)))%string ->
  numbered get_id (l ++ [a]).
Proof.
  intros Hnum Hid i b Hb.
  destruct (Nat.lt_ge_cases i (List.length l)) as [Hlt | Hge].
  - rewrite nth_error_app1 in Hb by exact Hlt. exact (Hnum i b Hb).
  - rewrite nth_error_app2 in Hb by exact Hge.
    destruct (i - List.length l)%nat as [| k] eqn:Hk.
    + cbn in Hb. injection Hb as <-.
      replace i with (List.length l) by lia. exists prefix. exact Hid.
    + destruct k; discriminate.
Qed.

Lemma numbered_same_ids {A} (get_id : A -> string) (l l' : list A) :
  map get_id l' = map get_id l -> numbered get_id l -> numbered get_id l'.
Proof.
  intros Hmap Hnum i a' Ha'.
  pose proof (f_equal (fun m => nth_error m i) Hmap) as Hi.
  cbn beta in Hi. rewrite !nth_error_map, Ha' in Hi.
  destruct (nth_error l i) as [a |] eqn:Ha; [| discriminate].
  cbn [option_map] in Hi. injection Hi as Hi.
  destruct (Hnum i a Ha) as (prefix & E). exists prefix. congruence.
Qed.

Lemma Forall_update_first {A} (Q : A -> Prop) (p : A -> bool) (f : A -> A) l :
  (forall a, p a = true -> Q a -> Q (f a)) ->
  Forall Q l -> Forall Q (update_first p f l).
Proof.
  intros Hf. induction 1 as [| a l Ha Hl IH]; cbn [update_first].
  - constructor.
  - destruct (p a) eqn:Hp; constructor; auto.
Qed.

Lemma push_point_within_capacity card point :
  within_capacity card -> within_capacity (push_point card point).
Proof.
  unfold within_capacity. intros Hcap.
  destruct (push_point_frame card point) as (Hmax & _ & _).
  rewrite Hmax. intros Hrange.
  rewrite (push_point_chartData card point Hrange (Hcap Hrange)).
  rewrite newest_length. lia.
Qed.

Lemma push_point_samples_only card point :
  is_chart card = true -> samples_only_in_charts (push_point card point).
Proof.
  unfold samples_only_in_charts, is_chart.
  destruct (push_point_frame card point) as (_ & _ & ->).
  intros ->. discriminate.
Qed.

(** The stores after the chart update of a tick. *)
Lemma update_charts_stores cs : forall this w,
  Forall within_capacity (cards this) ->
  Forall samples_only_in_charts (cards this) ->
  Forall within_capacity (cards (result (update_charts this cs w)))
  /\ Forall samples_only_in_charts
       (cards (result (update_charts this cs w))).
Proof.
  induction cs as [| c rest IH]; intros this w Hcap Hs; cbn [update_charts].
  - split; assumption.
  - destruct (is_chart c); [destruct (valueCallback c) as [f |] |];
      try (apply IH; assumption).
    run. apply IH; rewrite addChartDataPoint_run; cbn [result fst cards set_cards].
    + apply Forall_update_first; [| exact Hcap].
      intros a _. apply push_point_within_capacity.
    + apply Forall_update_first; [| exact Hs].
      intros a Ha _. apply push_point_samples_only.
      apply andb_prop in Ha. apply Ha.
Qed.

Lemma loop_stores this req evs w :
  Forall within_capacity (cards this) ->
  Forall samples_only_in_charts (cards this) ->
  Forall within_capacity (cards (result (loop this req evs w)))
  /\ Forall samples_only_in_charts (cards (result (loop this req evs w))).
Proof.
  intros Hcap Hs. unfold loop. run.
  destruct (handleClient_shape this req w) as (_ & C1 & _).
  set (this1 := result (handleClient this req w)) in *.
  set (w1 := world_after (handleClient this req w)).
  destruct (webSocket_loop_shape evs this1 w1) as (_ & C2 & _).
  set (this2 := result (webSocket_loop this1 evs w1)) in *.
  set (w2 := world_after (webSocket_loop this1 evs w1)).
  assert (C : cards this2 = cards this) by congruence.
  destruct (to_unsigned (millis w2 - lastUpdate this2)
            >=? updateInterval this2).
  - run. cbn [cards set_lastUpdate].
    apply update_charts_stores; rewrite C; assumption.
  - run. rewrite C. split; assumption.
Qed.

Lemma updateCard_loop_update id0 v s cs :
  updateCard_loop id0 v s cs
  = update_first (fun card => String.eqb (card_id card) id0)
      (fun card =>
         set_value_status card v
           (if 0 <? Z.of_nat (String.length s) then s else card_status card))
      cs.
Proof.
  induction cs as [| c rest IH]; cbn [updateCard_loop update_first].
  - reflexivity.
  - destruct (String.eqb (card_id c) id0); [| rewrite IH]; reflexivity.
Qed.

Lemma map_shape_ids (l l' : list DashboardControl) :
  map control_shape l' = map control_shape l -> map id l' = map id l.
Proof.
  intros H. apply (f_equal (map id)) in H.
  rewrite !map_map in H. exact H.
Qed.

Lemma map_samples_ids (l l' : list DashboardCard) :
  map card_without_samples l' = map card_without_samples l ->
  map card_id l' = map card_id l.
Proof.
  intros H. apply (f_equal (map card_id)) in H.
  rewrite !map_map in H. exact H.
Qed.

Lemma callbacks_fit_kind_shape (l l' : list DashboardControl) :
  map control_shape l' = map control_shape l ->
  Forall callbacks_fit_kind l -> Forall callbacks_fit_kind l'.
Proof.
  intros H Hl.
  assert (E : forall m, Forall callbacks_fit_kind m
                        <-> Forall callbacks_fit_kind (map control_shape m)).
  { intros m. rewrite Forall_map. reflexivity. }
  apply (proj2 (E l')). rewrite H. apply (proj1 (E l)). exact Hl.
Qed.

(** The invariant all the statements on reachable states come from. *)
Lemma reachable_invariant this :
  Reachable this ->
  numbered card_id (cards this)
  /\ numbered id (controls this)
  /\ Forall within_capacity (cards this)
  /\ Forall samples_only_in_charts (cards this)
  /\ Forall callbacks_fit_kind (controls this).
Proof.
  assert (Hempty : forall card, chartData card = [] ->
                     within_capacity card /\ samples_only_in_charts card).
  { intros card E. unfold within_capacity, samples_only_in_charts.
    rewrite E. split; [intros (H & _); exact H | reflexivity]. }
  assert (Hcard : forall this card prefix,
             numbered card_id (cards this)
             /\ numbered id (controls this)
             /\ Forall within_capacity (cards this)
             /\ Forall samples_only_in_charts (cards this)
             /\ Forall callbacks_fit_kind (controls this) ->
             card_id card
             = (prefix ++ String underscore
                            (String_of_num (List.length (cards this))))%string ->
             chartData card = [] ->
             numbered card_id (cards (fst (push_card this card)))
             /\ numbered id (controls (fst (push_card this card)))
             /\ Forall within_capacity (cards (fst (push_card this card)))
             /\ Forall samples_only_in_charts
                  (cards (fst (push_card this card)))
             /\ Forall callbacks_fit_kind
                  (controls (fst (push_card this card)))).
  { intros d card prefix (N1 & N2 & I1 & I2 & I3) Hid Hdata.
    destruct (Hempty card Hdata) as (E1 & E2).
    cbn [push_card fst cards controls set_cards].
    repeat split; try assumption.
    - exact (numbered_app _ _ _ _ N1 Hid).
    - apply Forall_app. split; [exact I1 | repeat constructor; exact E1].
    - apply Forall_app. split; [exact I2 | repeat constructor; exact E2]. }
  assert (Hcontrol : forall this control prefix,
             numbered card_id (cards this)
             /\ numbered id (controls this)
             /\ Forall within_capacity (cards this)
             /\ Forall samples_only_in_charts (cards this)
             /\ Forall callbacks_fit_kind (controls this) ->
             id control
             = (prefix ++ String underscore
                            (String_of_num
                               (List.length (controls this))))%string ->
             callbacks_fit_kind control ->
             numbered card_id (cards (fst (push_control this control)))
             /\ numbered id (controls (fst (push_control this control)))
             /\ Forall within_capacity
                  (cards (fst (push_control this control)))
             /\ Forall samples_only_in_charts
                  (cards (fst (push_control this control)))
             /\ Forall callbacks_fit_kind
                  (controls (fst (push_control this control)))).
  { intros d control prefix (N1 & N2 & I1 & I2 & I3) Hid Hfit.
    cbn [push_control fst cards controls set_controls].
    repeat split; try assumption.
    - exact (numbered_app _ _ _ _ N2 Hid).
    - apply Forall_app. split; [exact I3 | repeat constructor; exact Hfit]. }
  induction 1 as
    [ | d t cb u _ IH | d t cb u _ IH | d t cb u _ IH
      | d t ds vcb scb col u _ IH | d t ds cb col u _ IH
      | d t ds vcb scb col ic u _ IH | d t ds cb col mx _ IH
      | d t ds cb col u _ IH | d t ds cb col u _ IH | d t ds cb u _ IH
      | d t ds cb mn mx col u _ IH
      | d id0 st w _ IH | d id0 v w _ IH | d id0 v s _ IH
      | d interval _ IH | d c1 c2 c3 _ IH | d req evs w _ IH ].
  - repeat split; try constructor; apply numbered_nil.
  - apply (Hcard d _ "temp" IH); reflexivity.
  - apply (Hcard d _ "hum" IH); reflexivity.
  - apply (Hcard d _ "rpm" IH); reflexivity.
  - apply (Hcard d _ "status" IH); reflexivity.
  - apply (Hcard d _ "pct" IH); reflexivity.
  - apply (Hcard d _ "custom" IH); reflexivity.
  - apply (Hcard d _ "chart" IH); reflexivity.
  - apply (Hcontrol d _ "switch" IH); [reflexivity | split; reflexivity].
  - apply (Hcontrol d _ "btn" IH); [reflexivity | split; reflexivity].
  - apply (Hcontrol d _ "power" IH); [reflexivity | split; reflexivity].
  - apply (Hcontrol d _ "slider" IH); [reflexivity | split; reflexivity].
  - destruct IH as (N1 & N2 & I1 & I2 & I3).
    assert (C : cards (result (setSwitchState d id0 st w)) = cards d)
      by (unfold setSwitchState; run; reflexivity).
    assert (S : map control_shape (controls (result (setSwitchState d id0 st w)))
                = map control_shape (controls d))
      by (rewrite setSwitchState_controls; apply map_update_first;
          reflexivity).
    rewrite C. repeat split; try assumption.
    + exact (numbered_same_ids _ _ _ (map_shape_ids _ _ S) N2).
    + exact (callbacks_fit_kind_shape _ _ S I3).
  - destruct IH as (N1 & N2 & I1 & I2 & I3).
    assert (C : cards (result (setSliderValue d id0 v w)) = cards d)
      by (unfold setSliderValue; run; reflexivity).
    assert (S : map control_shape (controls (result (setSliderValue d id0 v w)))
                = map control_shape (controls d))
      by (rewrite setSliderValue_controls; apply map_update_first;
          reflexivity).
    rewrite C. repeat split; try assumption.
    + exact (numbered_same_ids _ _ _ (map_shape_ids _ _ S) N2).
    + exact (callbacks_fit_kind_shape _ _ S I3).
  - destruct IH as (N1 & N2 & I1 & I2 & I3).
    unfold updateCard. cbn [cards controls set_cards].
    rewrite updateCard_loop_update.
    repeat split; try assumption.
    + apply (numbered_same_ids _ (cards d)); [| exact N1].
      apply map_update_first. reflexivity.
    + apply Forall_update_first; [| exact I1]. intros a _ H. exact H.
    + apply Forall_update_first; [| exact I2]. intros a _ H. exact H.
  - exact IH.
  - exact IH.
  - destruct IH as (N1 & N2 & I1 & I2 & I3).
    destruct (loop_shape d req evs w) as (S1 & S2 & _).
    destruct (loop_stores d req evs w I1 I2) as (J1 & J2).
    repeat split; try assumption.
    + exact (numbered_same_ids _ _ _ (map_samples_ids _ _ S2) N1).
    + exact (numbered_same_ids _ _ _ (map_shape_ids _ _ S1) N2).
    + exact (callbacks_fit_kind_shape _ _ S1 I3).
Qed.

(** X9. In every reachable state the ids of the cards are pairwise
    distinct, and so are the ids of the controls (the two kinds of widget
    have separate id spaces). *)
Theorem reachable_ids_distinct :
  forall this : ESP32Dashboard,
    Reachable this ->
    NoDup (map card_id (cards this)) /\ NoDup (map id (controls this)).
Proof.
  intros this H. destruct (reachable_invariant this H) as (N1 & N2 & _).
  split; apply numbered_NoDup; assumption.
Qed.

(** X10. In every reachable state each card whose capacity is a
    non-negative [int] holds at most that many samples, and a card that
    is no chart holds none. *)
Theorem reachable_stores_within_capacity :
  forall this : ESP32Dashboard,
    Reachable this ->
    Forall within_capacity (cards this)
    /\ Forall samples_only_in_charts (cards this).
Proof.
  intros this H.
  destruct (reachable_invariant this H) as (_ & _ & I1 & I2 & _).
  split; assumption.
Qed.

(** X11. In every reachable state a control holds callbacks of its own
    kind only: a Switch or PowerButton no slider or button callback, a
    Button no switch or slider callback, a Slider no switch or button
    callback. *)
Theorem reachable_callbacks_fit_kind :
  forall this : ESP32Dashboard,
    Reachable this -> Forall callbacks_fit_kind (controls this).
Proof.
  intros this H. apply (reachable_invariant this H).
Qed.

Lemma find_by_distinct_id {A} (get_id : A -> string) (l : list A) a :
  NoDup (map get_id l) -> In a l ->
  find (fun x => String.eqb (get_id x) (get_id a)) l = Some a.
Proof.
  induction l as [| b l IH]; cbn [map find In]; [contradiction |].
  intros Hnd [-> | Hin].
  - rewrite String.eqb_refl. reflexivity.
  - inversion Hnd as [| ? ? Hnotin Hnd']; subst.
    destruct (String.eqb (get_id b) (get_id a)) eqn:E.
    + apply String.eqb_eq in E. exfalso. apply Hnotin. rewrite E.
      apply in_map, Hin.
    + apply IH; assumption.
Qed.

Lemma getSliderValue_loop_first controlId cs control :
  find_control controlId cs = Some control ->
  is_slider control = true ->
  getSliderValue_loop controlId cs = value control.
Proof.
  unfold find_control.
  induction cs as [| c rest IH]; cbn [find getSliderValue_loop].
  - discriminate.
  - destruct (String.eqb (id c) controlId); cbn [andb].
    + intros [= ->] ->. reflexivity.
    + exact IH.
Qed.

(** X12. In every reachable state each registered control is the one its
    id addresses: the dispatch loop of the handlers stops at it, and the
    getter of its kind reads its stored [state] or [value]. *)
Theorem reachable_control_addressed_by_id :
  forall (this : ESP32Dashboard) (control : DashboardControl),
    Reachable this ->
    In control (controls this) ->
    find_control (id control) (controls this) = Some control
    /\ (is_switch_like control = true ->
        getSwitchState this (id control) = state control)
    /\ (is_slider control = true ->
        getSliderValue this (id control) = value control).
Proof.
  intros this control Hreach Hin.
  destruct (reachable_invariant this Hreach) as (_ & N2 & _).
  pose proof (find_by_distinct_id id (controls this) control
                (numbered_NoDup _ _ N2) Hin) as Hfind.
  split; [exact Hfind |]. split; intros Hkind.
  - apply (getSwitchState_loop_first _ _ _ Hfind Hkind).
  - apply (getSliderValue_loop_first _ _ _ Hfind Hkind).
Qed.

(** X13. In every reachable state each chart card is the one
    [addChartDataPoint] selects for its id. *)
Theorem reachable_chart_addressed_by_id :
  forall (this : ESP32Dashboard) (card : DashboardCard),
    Reachable this ->
    In card (cards this) ->
    is_chart card = true ->
    find_chart (card_id card) (cards this) = Some card.
Proof.
  intros this card Hreach Hin Hchart.
  destruct (reachable_invariant this Hreach) as (N1 & _).
  pose proof (find_by_distinct_id card_id (cards this) card
                (numbered_NoDup _ _ N1) Hin) as Hfind.
  unfold find_chart. clear Hin N1 Hreach. revert Hfind.
  generalize (cards this) as cs.
  induction cs as [| c rest IH]; cbn [find]; [discriminate |].
  destruct (String.eqb (card_id c) (card_id card)); cbn [andb].
  - intros [= ->]. rewrite Hchart. reflexivity.
  - exact IH.
Qed.

End ReachableStates.

(** ** The tick *)

Section Tick.

Context {P : Platform}.

(** X14. The interval test of [loop] measures elapsed time across the
    32-bit wrap of [millis()]: when the clock reads [lastUpdate + d]
    modulo [2^32], with [d] below [2^32], the tick is due exactly when
    [d >= updateInterval]. *)
Theorem tick_due_across_rollover :
  forall (this : ESP32Dashboard) (w : World) (d : Z),
    0 <= lastUpdate this < 2 ^ 32 ->
    0 <= d < 2 ^ 32 ->
    millis w = (lastUpdate this + d) mod 2 ^ 32 ->
    tick_due this w = (d >=? updateInterval this).
Proof.
  intros this w d Hlast Hd Hclock. unfold tick_due, to_unsigned.
  rewrite Hclock, Zminus_mod_idemp_l.
  replace (lastUpdate this + d - lastUpdate this) with d by lia.
  rewrite Z.mod_small by lia. reflexivity.
Qed.

Lemma update_first_skip {A} (p : A -> bool) (f : A -> A) done a rest :
  (forall b, In b done -> p b = false) -> p a = true ->
  update_first p f (done ++ a :: rest) = done ++ f a :: rest.
Proof.
  intros Hdone Ha. induction done as [| b done IH]; cbn [app update_first].
  - rewrite Ha. reflexivity.
  - rewrite (Hdone b (or_introl eq_refl)), IH; [reflexivity |].
    intros x Hx. apply Hdone. right. exact Hx.
Qed.

Lemma update_first_none {A} (p : A -> bool) (f : A -> A) l :
  (forall b, In b l -> p b = false) -> update_first p f l = l.
Proof.
  intros H. apply update_first_same. intros a Ha.
  apply find_some in Ha. destruct Ha as (Hin & Hp).
  rewrite (H a Hin) in Hp. discriminate.
Qed.

(** The chart update, card by card, when the ids are distinct. *)
Lemma update_charts_ticked cs : forall done this w,
  cards this = done ++ cs ->
  NoDup (map card_id (done ++ cs)) ->
  exists done',
    cards (result (update_charts this cs w)) = done ++ done'
    /\ Forall2 ticked cs done'.
Proof.
  induction cs as [| c rest IH]; intros done this w Hcards Hnd;
    cbn [update_charts].
  - exists []. split; [exact Hcards | constructor].
  - assert (Hnext : forall this1 w1 c',
               cards this1 = done ++ c' :: rest ->
               card_id c' = card_id c ->
               ticked c c' ->
               exists done',
                 cards (result (update_charts this1 rest w1)) = done ++ done'
                 /\ Forall2 ticked (c :: rest) done').
    { intros this1 w1 c' Hc1 Hid Htick.
      destruct (IH (done ++ [c']) this1 w1) as (done'' & Hres & Hall).
      - rewrite <- app_assoc. exact Hc1.
      - rewrite <- app_assoc. cbn [app].
        rewrite map_app in *. cbn [map] in *. rewrite Hid. exact Hnd.
      - exists (c' :: done''). rewrite <- app_assoc in Hres.
        split; [exact Hres | constructor; assumption]. }
    assert (Hsame : ticked c c -> exists done',
               cards (result (update_charts this rest w)) = done ++ done'
               /\ Forall2 ticked (c :: rest) done')
      by (intros Ht; apply (Hnext this w c Hcards eq_refl Ht)).
    destruct (is_chart c) eqn:Hchart;
      [destruct (valueCallback c) as [f |] eqn:Hcb |].
    + run.
      match goal with
      | |- context [addChartDataPoint this (card_id c) ?x ?v] =>
          set (v0 := x); set (w0 := v)
      end.
      apply (Hnext _ _
               (push_point c {| timestamp := millis w0; point_value := v0 |})).
      * rewrite addChartDataPoint_run. cbn [result fst cards set_cards].
        rewrite Hcards.
        apply (update_first_skip _
                 (fun card =>
                    push_point card
                      {| timestamp := millis w0; point_value := v0 |})
                 done c rest).
        -- intros b Hb.
           rewrite map_app in Hnd. cbn [map] in Hnd.
           apply NoDup_remove_2 in Hnd.
           destruct (String.eqb (card_id b) (card_id c)) eqn:E;
             [| reflexivity].
           apply String.eqb_eq in E. exfalso. apply Hnd.
           apply in_or_app. left. rewrite <- E. apply in_map, Hb.
        -- rewrite String.eqb_refl, Hchart. reflexivity.
      * apply push_point_frame.
      * unfold ticked. rewrite Hchart, Hcb. eexists. reflexivity.
    + apply Hsame. unfold ticked. rewrite Hchart, Hcb. reflexivity.
    + apply Hsame. unfold ticked. rewrite Hchart.
      destruct (valueCallback c); reflexivity.
Qed.

Lemma loop_idle_due this w :
  tick_due this w = true ->
  result (loop this None [] w)
  = set_lastUpdate (result (update_charts this (cards this) w))
      (millis (world_after (loop this None [] w))).
Proof.
  unfold tick_due, loop, handleClient. cbn [webSocket_loop]. intros Hdue.
  run. rewrite Hdue. run. reflexivity.
Qed.

(** X15. A due tick, with nothing pending, appends exactly one sample to
    every chart card that has a value producer and leaves every other
    card as it is, when the ids of the cards are distinct (as they are in
    every reachable state). *)
Theorem due_tick_samples :
  forall (this : ESP32Dashboard) (w : World),
    NoDup (map card_id (cards this)) ->
    tick_due this w = true ->
    Forall2 ticked (cards this) (cards (result (loop this None [] w))).
Proof.
  intros this w Hnd Hdue.
  rewrite (loop_idle_due this w Hdue). cbn [cards set_lastUpdate].
  destruct (update_charts_ticked (cards this) [] this w eq_refl Hnd)
    as (done' & -> & Hall).
  exact Hall.
Qed.


End Tick.

(** ** Connections, the custom message callback, responses *)

Section Transport.

Context {P : Platform}.

Lemma call_hook_events hook ev w :
  events (call_hook hook ev w)
  = match hook with Some _ => [ev] | None => [] end.
Proof. unfold call_hook. destruct hook; run; reflexivity. Qed.

(** X17. A viewer that connects: the [onClientConnect] callback runs, if
    set, then the object is broadcast once, in the world the callback
    left.  A viewer that disconnects: the [onClientDisconnect] callback
    runs, if set, and nothing else happens.  Any other event type causes
    nothing.  None of them changes the object, calls a control callback
    or sends a response. *)
Theorem connection_events :
  forall (this : ESP32Dashboard) (num : nat) (payload : string) (w : World),
    (webSocketEvent this num WStype_CONNECTED payload w
     = (this,
        world_after
          (sendDataToClients this (after_hook (onClientConnect this) w)),
        call_of (onClientConnect this) ClientConnect
        ++ events
             (sendDataToClients this (after_hook (onClientConnect this) w)))
     /\ List.length
          (broadcasts
             (events (webSocketEvent this num WStype_CONNECTED payload w)))
        = 1%nat
     /\ control_callbacks
          (events (webSocketEvent this num WStype_CONNECTED payload w)) = []
     /\ server_sends
          (events (webSocketEvent this num WStype_CONNECTED payload w)) = [])
    /\ webSocketEvent this num WStype_DISCONNECTED payload w
       = (this, after_hook (onClientDisconnect this) w,
          call_of (onClientDisconnect this) ClientDisconnect)
    /\ webSocketEvent this num WStype_other payload w = (this, w, []).
Proof.
  intros this num payload w.
  assert (Hrun : webSocketEvent this num WStype_CONNECTED payload w
                 = (this,
                    world_after
                      (sendDataToClients this
                         (after_hook (onClientConnect this) w)),
                    call_of (onClientConnect this) ClientConnect
                    ++ events
                         (sendDataToClients this
                            (after_hook (onClientConnect this) w)))).
  { apply tuple_eq; unfold webSocketEvent; run; rewrite ?call_hook_run;
      cbn [world_after events fst snd]; rewrite ?app_nil_r; reflexivity. }
  split; [| split].
  - split; [exact Hrun |]. rewrite Hrun. cbn [events snd].
    unfold broadcasts, control_callbacks, server_sends.
    rewrite !filter_app.
    send_observed.
    unfold broadcasts, control_callbacks, server_sends in *.
    rewrite Hsend_b, Hsend_c, Hsend_s.
    unfold call_of. destruct (onClientConnect this); repeat split.
  - apply tuple_eq; unfold webSocketEvent; run; rewrite ?call_hook_run;
      cbn [world_after events fst snd]; rewrite ?app_nil_r; reflexivity.
  - reflexivity.
Qed.

Lemma no_custom_in_control_callbacks t :
  control_callbacks_only t -> filter is_custom_message t = [].
Proof.
  intros H. apply filter_none. eapply Forall_impl; [| exact H].
  intros [] Hp; (discriminate || reflexivity).
Qed.

Lemma no_custom_in_send this w :
  filter is_custom_message (events (sendDataToClients this w)) = [].
Proof.
  rewrite sendDataToClients_events, filter_app.
  rewrite (filter_none is_custom_message (events (compact_document this w))).
  - reflexivity.
  - eapply Forall_impl; [| apply compact_document_producers].
    intros [] Hp; (discriminate || reflexivity).
Qed.

(** X18. When [onCustomMessage] is set to [f], every text message on the
    push channel, a well-formed control action included, is handled as
    it would be without the callback, and then [f] runs, once, last, on
    the world that handling left, with the text and the client number in
    decimal.  (The text is the payload as the model has it.) *)
Theorem custom_message_sees_every_text :
  forall (this : ESP32Dashboard) (num : nat) (payload : string) (w : World)
         (f : string -> string -> World -> World),
    onCustomMessage this = Some f ->
    events (webSocketEvent this num WStype_TEXT payload w)
    = events (webSocketEvent (without_customMessage this) num WStype_TEXT
                payload w)
      ++ [CustomMessage payload (String_of_num num)]
    /\ world_after (webSocketEvent this num WStype_TEXT payload w)
       = f payload (String_of_num num)
           (world_after
              (webSocketEvent (without_customMessage this) num WStype_TEXT
                 payload w))
    /\ controls (result (webSocketEvent this num WStype_TEXT payload w))
       = controls
           (result
              (webSocketEvent (without_customMessage this) num WStype_TEXT
                 payload w))
    /\ filter is_custom_message
         (events
            (webSocketEvent (without_customMessage this) num WStype_TEXT
               payload w)) = [].
Proof.
  intros this num payload w f Hhook.
  destruct (has_id_and_action (deserializeJson payload)) eqn:Hkeys.
  - rewrite (webSocketEvent_text_run this _ _ _ Hkeys),
      (webSocketEvent_text_run (without_customMessage this) _ _ _ Hkeys).
    unfold after_customMessage, after_hook, call_of.
    cbn [onCustomMessage without_customMessage option_map controls
           result world_after events fst snd].
    rewrite Hhook. cbn [option_map].
    change (sendDataToClients
              (set_controls (without_customMessage this) ?x))
      with (sendDataToClients (set_controls this x)).
    rewrite !app_nil_r, app_assoc.
    repeat split.
    rewrite filter_app, no_custom_in_send.
    rewrite (no_custom_in_control_callbacks _
               (control_loop_callbacks_only _ _ _ _ _)).
    reflexivity.
  - rewrite (webSocketEvent_text_dropped_run this _ _ _ Hkeys),
      (webSocketEvent_text_dropped_run (without_customMessage this) _ _ _
         Hkeys).
    unfold after_customMessage, after_hook, call_of.
    cbn [onCustomMessage without_customMessage option_map controls
           result world_after events fst snd].
    rewrite Hhook. repeat split.
Qed.

Lemma handleApiControl_sends this plain w :
  List.length (server_sends (events (handleApiControl this plain w))) = 1%nat.
Proof.
  destruct plain as [body |]; [| reflexivity].
  destruct (handleApiControl_body this body w) as (_ & ->).
  change (ServerSend ?c ?t ?b :: ?l) with ([ServerSend c t b] ++ l).
  rewrite !server_sends_app.
  loop_quiet. send_observed. rewrite Hloop_s, Hsend_s.
  reflexivity.
Qed.

(** X19. Every request the HTTP server hands over is answered by exactly
    one [send]; with no request pending, [handleClient] does nothing. *)
Theorem one_response_per_request :
  forall (this : ESP32Dashboard) (request : HttpRequest) (w : World),
    List.length
      (server_sends (events (handleClient this (Some request) w))) = 1%nat
    /\ handleClient this None w = (this, w, []).
Proof.
  intros this request w. split; [| reflexivity].
  destruct request as [| plain |]; cbn [handleClient].
  - unfold handleApiData. run. rewrite app_nil_r, server_sends_app.
    destruct (producers_only_silent _ (full_document_producers this w))
      as (_ & _ & ->).
    reflexivity.
  - apply handleApiControl_sends.
  - reflexivity.
Qed.

End Transport.

(** ** The setters: what they store, call and leave to the next broadcast *)

Section SettersShown.

Context {P : Platform}.







End SettersShown.

(** ** The two snapshots *)

Section SnapshotContents.

Context {P : Platform} {F : FloatOps}.

Lemma run_eq {A} (r : A * World * list Event) a w t :
  result r = a -> world_after r = w -> events r = t -> r = (a, w, t).
Proof. destruct r as [[a' w'] t']. cbn. congruence. Qed.

Lemma compact_cardObj_projects card w :
  compact_cardObj card w
  = (compact_of_full_card (result (full_cardObj card w)),
     world_after (full_cardObj card w),
     events (full_cardObj card w)).
Proof.
  apply run_eq; unfold compact_cardObj, full_cardObj; run;
    try reflexivity.
  unfold compact_of_full_card, chartArray.
  destruct (is_chart card); reflexivity.
Qed.

Lemma mapM_projects {A B} (f g : A -> M B) (h : B -> B) (l : list A) :
  (forall a w, g a w = (h (result (f a w)), world_after (f a w),
                        events (f a w))) ->
  forall w,
    mapM g l w
    = (map h (result (mapM f l w)), world_after (mapM f l w),
       events (mapM f l w)).
Proof.
  intros Hg. induction l as [| a l IH]; intros w; cbn [mapM].
  - reflexivity.
  - apply run_eq; run; rewrite Hg; cbn [result world_after events fst snd];
      rewrite IH; reflexivity.
Qed.

(** X20. The compact snapshot is the full snapshot with [title],
    [description], [color] and [icon] dropped from every card and
    [title], [description], [type] and [color] from every control: built
    in the same world, the two make the same producer calls in the same
    order and agree on every member the compact one has. *)
Theorem compact_snapshot_projects_full :
  forall (this : ESP32Dashboard) (w : World),
    compact_document this w
    = (compact_of_full (result (full_document this w)),
       world_after (full_document this w),
       events (full_document this w)).
Proof.
  intros this w.
  pose proof (mapM_projects full_cardObj compact_cardObj compact_of_full_card
                (cards this) compact_cardObj_projects w) as Hcards.
  apply run_eq; unfold compact_document, full_document; run;
    rewrite Hcards; cbn [result world_after events fst snd];
    try reflexivity.
  cbn [compact_of_full]. rewrite map_map. reflexivity.
Qed.

Lemma mapM_Forall2 {A B} (f : A -> M B) (R : A -> B -> Prop) (l : list A) :
  (forall a w, R a (result (f a w))) ->
  forall w, Forall2 R l (result (mapM f l w)).
Proof.
  intros Hf. induction l as [| a l IH]; intros w; cbn [mapM].
  - constructor.
  - run. constructor; [apply Hf | apply IH].
Qed.

(** X21. In the broadcast snapshot each card has one object, in
    registration order, carrying its id; the object has a [chartData]
    member exactly when the card is a chart, listing the stored samples
    oldest first; a card without value (status) producer shows its
    stored value (status). *)
Theorem compact_card_objects :
  forall (this : ESP32Dashboard) (w : World),
    exists objs,
      member (result (compact_document this w)) "cards" = JArray objs
      /\ Forall2
           (fun card obj =>
              member obj "id" = JString (card_id card)
              /\ containsKey obj "chartData" = is_chart card
              /\ (is_chart card = true ->
                  member obj "chartData"
                  = JArray (map pointObj (chartData card)))
              /\ (valueCallback card = None ->
                  member obj "value" = JString (card_value card))
              /\ (statusCallback card = None ->
                  member obj "status" = JString (card_status card)))
           (cards this) objs.
Proof.
  intros this w.
  destruct (compact_document_result this w) as (now & n & ->).
  eexists. split; [reflexivity |].
  apply mapM_Forall2. clear. intros card w.
  unfold compact_cardObj. run. unfold chartArray.
  split; [reflexivity |]. split; [destruct (is_chart card); reflexivity |].
  split; [intros ->; reflexivity |].
  split.
  - intros Hcb. unfold value_of. rewrite Hcb. reflexivity.
  - intros Hcb. unfold status_of. rewrite Hcb. run. reflexivity.
Qed.

Lemma mapM_update_first_found {A B} (f : A -> M B) (p : A -> bool) l a a' :
  find p l = Some a -> f a' = f a ->
  mapM f (update_first p (fun _ => a') l) = mapM f l.
Proof.
  intros Hfind Hf. revert Hfind.
  induction l as [| b l IH]; cbn [update_first find mapM].
  - reflexivity.
  - destruct (p b); cbn [mapM].
    + intros [= ->]. rewrite Hf. reflexivity.
    + intros H. rewrite (IH H). reflexivity.
Qed.

Lemma updateCard_loop_found id0 v s cs card :
  find (fun c => String.eqb (card_id c) id0) cs = Some card ->
  updateCard_loop id0 v s cs
  = update_first (fun c => String.eqb (card_id c) id0)
      (fun _ =>
         set_value_status card v
           (if 0 <? Z.of_nat (String.length s) then s else card_status card))
      cs.
Proof.
  induction cs as [| c rest IH]; cbn [find updateCard_loop update_first].
  - discriminate.
  - destruct (String.eqb (card_id c) id0).
    + intros [= ->]. reflexivity.
    + intros H. rewrite (IH H). reflexivity.
Qed.

(** X22. [updateCard] on a card that has both producers does not show:
    the snapshots after it are the snapshots before it.  (All cards but
    Status and Custom ones always have both producers.) *)
Theorem updateCard_hidden_by_producers :
  forall (this : ESP32Dashboard) (id0 v s : string) (card : DashboardCard)
         (w : World),
    find (fun c => String.eqb (card_id c) id0) (cards this) = Some card ->
    valueCallback card <> None ->
    statusCallback card <> None ->
    compact_document (updateCard this id0 v s) w = compact_document this w
    /\ full_document (updateCard this id0 v s) w = full_document this w.
Proof.
  intros this id0 v s card w Hfind Hv Hs.
  unfold compact_document, full_document, updateCard.
  cbn [cards controls set_cards].
  rewrite (updateCard_loop_found _ _ _ _ _ Hfind).
  destruct (valueCallback card) as [fv |] eqn:Ev; [| contradiction].
  destruct (statusCallback card) as [fs |] eqn:Es; [| contradiction].
  rewrite (mapM_update_first_found compact_cardObj _ _ card _ Hfind),
    (mapM_update_first_found full_cardObj _ _ card _ Hfind).
  - split; reflexivity.
  - unfold full_cardObj, value_of, status_of, chartArray, is_chart.
    cbn [valueCallback statusCallback set_value_status card_id card_title
           card_description card_color card_icon card_type chartData].
    rewrite Ev, Es. reflexivity.
  - unfold compact_cardObj, value_of, status_of, chartArray, is_chart.
    cbn [valueCallback statusCallback set_value_status card_id card_title
           card_description card_color card_icon card_type chartData].
    rewrite Ev, Es. reflexivity.
Qed.

(** X23. [updateCard] with an id no card has changes nothing, whatever
    value and status it is given.  Otherwise the first card with the id
    gets the value, and the status when that is not empty (an empty
    status leaves the stored one); its samples, kind and producers stay,
    and the controls are not touched. *)
Theorem updateCard_edge_cases :
  forall (this : ESP32Dashboard) (id0 v s : string),
    (find (fun c => String.eqb (card_id c) id0) (cards this) = None ->
     updateCard this id0 v s = this)
    /\ (forall card,
           find (fun c => String.eqb (card_id c) id0) (cards this)
           = Some card ->
           controls (updateCard this id0 v s) = controls this
           /\ exists card',
               find (fun c => String.eqb (card_id c) id0)
                 (cards (updateCard this id0 v s)) = Some card'
               /\ card_value card' = v
               /\ card_status card'
                  = (if is_empty s then card_status card else s)
               /\ chartData card' = chartData card
               /\ card_type card' = card_type card
               /\ valueCallback card' = valueCallback card
               /\ statusCallback card' = statusCallback card).
Proof.
  intros this id0 v s. unfold updateCard. split.
  - intros Hnone. rewrite updateCard_loop_update, update_first_none.
    + destruct this; reflexivity.
    + intros b Hb. exact (find_none _ _ Hnone b Hb).
  - intros card Hsome. split; [reflexivity |].
    cbn [cards set_cards]. rewrite (updateCard_loop_found _ _ _ _ _ Hsome).
    eexists. split.
    + apply (find_update_first _ _ _ card Hsome).
      cbn [card_id set_value_status].
      apply find_some in Hsome. apply Hsome.
    + cbn [card_value card_status chartData card_type valueCallback
             statusCallback set_value_status].
      unfold is_empty.
      destruct (0 <? Z.of_nat (String.length s)); repeat split.
Qed.

End SnapshotContents.

(** ** Edges of the chart store *)

Section ChartEdges.

Context {P : Platform}.

(** X24. [addChartDataPoint] with an id that no chart card has (an
    unknown id, or the id of a card of another kind) does nothing. *)
Theorem addChartDataPoint_ignores_other_ids :
  forall (this : ESP32Dashboard) (cardId : string) (v : float) (w : World),
    find_chart cardId (cards this) = None ->
    addChartDataPoint this cardId v w = (this, w, []).
Proof.
  intros this cardId v w Hnone. rewrite addChartDataPoint_run.
  rewrite update_first_none.
  - destruct this; reflexivity.
  - intros b Hb. unfold find_chart in Hnone.
    pose proof (find_none _ _ Hnone b Hb) as K. exact K.
Qed.

Lemma push_point_negative_capacity card point :
  INT_MIN <= maxDataPoints card < 0 ->
  Z.of_nat (List.length (chartData card)) < 2 ^ 31 ->
  chartData (push_point card point) = chartData card ++ [point].
Proof.
  intros Hmax Hlen. unfold push_point, to_unsigned.
  replace (maxDataPoints card mod 2 ^ 32) with (maxDataPoints card + 2 ^ 32).
  - rewrite length_app. cbn [List.length].
    destruct (Z.gtb_spec (Z.of_nat (List.length (chartData card) + 1))
                (maxDataPoints card + 2 ^ 32)) as [Hgt | Hle].
    + unfold INT_MIN in Hmax. lia.
    + reflexivity.
  - unfold INT_MIN in Hmax.
    apply Z.mod_unique with (q := -1); [left |]; lia.
Qed.

(** X25. A chart card registered with a negative capacity never evicts:
    the unsigned comparison turns the capacity into a number of at least
    [2^31], so as long as the store holds fewer than [2^31] samples
    every append just adds its sample at the end. *)
Theorem negative_capacity_never_evicts :
  forall (calls : list (World * float)) (this : ESP32Dashboard)
         (cardId : string) (card : DashboardCard),
    find_chart cardId (cards this) = Some card ->
    INT_MIN <= maxDataPoints card < 0 ->
    Z.of_nat (List.length (chartData card) + List.length calls) <= 2 ^ 31 ->
    exists card',
      find_chart cardId (cards (appends this cardId calls)) = Some card'
      /\ chartData card' = chartData card ++ map sample_of calls.
Proof.
  induction calls as [| [w v] rest IH]; intros this cardId card Hfind Hmax Hlen.
  - exists card. cbn [appends map]. rewrite app_nil_r. split; trivial.
  - cbn [appends map]. cbn [List.length] in Hlen.
    pose proof (addChartDataPoint_find this cardId v w card Hfind) as Hstep.
    assert (Hdata : chartData (push_point card (sample_of (w, v)))
                    = chartData card ++ [sample_of (w, v)])
      by (apply push_point_negative_capacity; [exact Hmax | lia]).
    destruct (push_point_frame card (sample_of (w, v))) as (Hm & _ & _).
    destruct (IH _ _ _ Hstep) as (card' & Hfind' & Hdata').
    + rewrite Hm. exact Hmax.
    + rewrite Hdata, length_app. cbn [List.length]. lia.
    + exists card'. split; [exact Hfind' |].
      rewrite Hdata', Hdata, <- app_assoc. reflexivity.
Qed.

End ChartEdges.

(** ** Registration and the getters *)

Section Registered.

Context {P : Platform} {F : FloatOps}.

Lemma getSliderValue_loop_app x cs control :
  String.eqb (id control) x = false ->
  getSliderValue_loop x (cs ++ [control]) = getSliderValue_loop x cs.
Proof.
  intros Hid. induction cs as [| c rest IH]; cbn [app getSliderValue_loop].
  - rewrite Hid. reflexivity.
  - rewrite IH. reflexivity.
Qed.

Lemma getSliderValue_loop_new x cs control :
  (forall c, In c cs -> String.eqb (id c) x = false) ->
  String.eqb (id control) x = true ->
  is_slider control = true ->
  getSliderValue_loop x (cs ++ [control]) = value control.
Proof.
  intros H Hid Hkind. induction cs as [| c rest IH];
    cbn [app getSliderValue_loop].
  - rewrite Hid, Hkind. reflexivity.
  - rewrite (H c (or_introl eq_refl)). cbn [andb].
    apply IH. intros b Hb. apply H. right. exact Hb.
Qed.

(** X26. In a reachable state, [addSlider] returns an id no control had
    yet; [getSliderValue] for that id gives [min] (whatever [max] is),
    and for every other id what it gave before the registration. *)
Theorem addSlider_then_getSliderValue :
  forall (this : ESP32Dashboard) (title0 description0 : string)
         (callback : option (Z -> World -> World)) (min max : Z)
         (color0 : string) (u : Unassigned) (x : string),
    Reachable this ->
    ~ In (snd (addSlider this title0 description0 callback min max color0 u))
        (map id (controls this))
    /\ getSliderValue
         (fst (addSlider this title0 description0 callback min max color0 u))
         x
       = if String.eqb x
              (snd (addSlider this title0 description0 callback min max
                      color0 u))
         then min else getSliderValue this x.
Proof.
  intros this title0 description0 callback min max color0 u x Hreach.
  pose proof (reach_addSlider this title0 description0 callback min max
                color0 u Hreach) as Hreach'.
  destruct (reachable_invariant _ Hreach') as (_ & N2 & _).
  apply numbered_NoDup in N2.
  unfold getSliderValue, addSlider, push_control in *.
  cbn [fst snd controls set_controls id] in *.
  rewrite map_app in N2. cbn [map id] in N2.
  apply NoDup_remove_2 in N2. rewrite app_nil_r in N2.
  split; [exact N2 |].
  destruct (String.eqb x (next_id "slider_" (controls this))) eqn:E.
  - apply String.eqb_eq in E. subst x.
    rewrite getSliderValue_loop_new; [reflexivity | | apply String.eqb_refl
                                      | reflexivity].
    intros c Hc.
    destruct (String.eqb (id c) (next_id "slider_" (controls this))) eqn:K;
      [| reflexivity].
    apply String.eqb_eq in K. exfalso. apply N2. rewrite <- K.
    apply in_map, Hc.
  - apply getSliderValue_loop_app. cbn [id].
    rewrite String.eqb_sym. exact E.
Qed.

End Registered.

(** ** The full snapshot on the object in the store *)

Section StoreFrame.

Context {P : Platform} {SO : SharedObject}.

Lemma current_ext this w w' :
  registers w' = registers w -> current this w' = current this w.
Proof. unfold current. intros ->. reflexivity. Qed.

Lemma nth_load_list {A R} (load : A -> R -> A) (l : list A) :
  forall (rs : list R) (i : nat) (d : A),
    nth i (load_list load l rs) d = nth i l d
    \/ exists r, nth i (load_list load l rs) d = load (nth i l d) r.
Proof.
  induction l as [| a l IH]; intros rs i d.
  - left. reflexivity.
  - destruct rs as [| r rs]; [left; reflexivity |].
    destruct i as [| i]; cbn [load_list nth].
    + right. exists r. reflexivity.
    + apply IH.
Qed.

Lemma length_load_list {A R} (load : A -> R -> A) (l : list A) :
  forall rs : list R, List.length (load_list load l rs) = List.length l.
Proof.
  induction l as [| a l IH]; intros rs; [reflexivity |].
  destruct rs; cbn [load_list List.length]; [| rewrite IH]; reflexivity.
Qed.

Lemma skipn_nth_cons {A} (l : list A) :
  forall (n : nat) (d : A),
    (n < List.length l)%nat -> skipn n l = nth n l d :: skipn (S n) l.
Proof.
  induction l as [| a l IH]; intros n d Hn; cbn [List.length] in Hn.
  - lia.
  - destruct n as [| n]; [reflexivity |].
    cbn [skipn nth]. apply IH. lia.
Qed.

(** The card at position [i] of the object in the store has the layout's
    constant members and producers. *)
Lemma current_card_layout this w i card :
  let card' := nth i (cards (current this w)) card in
  card_id card' = card_id (nth i (cards this) card)
  /\ card_title card' = card_title (nth i (cards this) card)
  /\ card_description card' = card_description (nth i (cards this) card)
  /\ card_color card' = card_color (nth i (cards this) card)
  /\ card_icon card' = card_icon (nth i (cards this) card)
  /\ card_type card' = card_type (nth i (cards this) card)
  /\ valueCallback card' = valueCallback (nth i (cards this) card)
  /\ statusCallback card' = statusCallback (nth i (cards this) card).
Proof.
  cbn zeta. unfold current. cbn [cards set_cards].
  destruct (nth_load_list load_card (cards this)
              (card_registers (registers w)) i card) as [-> | (r & ->)].
  - repeat split.
  - repeat split.
Qed.

Section OneCard.

Variables (this : ESP32Dashboard) (i : nat) (card : DashboardCard).

Hypothesis keeps :
  forall f w, valueCallback card = Some f \/ statusCallback card = Some f ->
              registers (snd (f w)) = registers w.

(** The loop body writes nothing, whatever the position. *)
Lemma shared_full_cardObj_registers w :
  registers (world_after (shared_full_cardObj this i card w)) = registers w.
Proof.
  unfold shared_full_cardObj.
  destruct (valueCallback card) as [f |] eqn:Ev;
    destruct (statusCallback card) as [g |] eqn:Es; run.
  - rewrite (keeps g) by (right; reflexivity).
    apply (keeps f). left; reflexivity.
  - apply (keeps f). left; reflexivity.
  - apply (keeps g). right; reflexivity.
  - reflexivity.
Qed.

Hypothesis position : nth i (cards this) card = card.

(** The loop body on the store is the loop body on the object as it is
    when the body starts. *)
Lemma shared_full_cardObj_world w :
  world_after (shared_full_cardObj this i card w)
  = world_after (full_cardObj (nth i (cards (current this w)) card) w).
Proof.
  destruct (current_card_layout this w i card)
    as (_ & _ & _ & _ & _ & _ & Hv & Hs).
  rewrite position in Hv, Hs.
  unfold shared_full_cardObj, full_cardObj, value_of, status_of.
  rewrite Hv, Hs.
  destruct (valueCallback card) as [f |];
    destruct (statusCallback card) as [g |]; run; reflexivity.
Qed.

Lemma shared_full_cardObj_events w :
  events (shared_full_cardObj this i card w)
  = events (full_cardObj (nth i (cards (current this w)) card) w).
Proof.
  destruct (current_card_layout this w i card)
    as (Hid & _ & _ & _ & _ & _ & Hv & Hs).
  rewrite position in Hid, Hv, Hs.
  unfold shared_full_cardObj, full_cardObj, value_of, status_of.
  rewrite Hv, Hs, Hid.
  destruct (valueCallback card) as [f |];
    destruct (statusCallback card) as [g |]; run; reflexivity.
Qed.

Lemma shared_full_cardObj_result w :
  result (shared_full_cardObj this i card w)
  = result (full_cardObj (nth i (cards (current this w)) card) w).
Proof.
  destruct (current_card_layout this w i card)
    as (Hid & Ht & Hd & Hc & Hi & Hty & Hv & Hs).
  rewrite position in Hid, Ht, Hd, Hc, Hi, Hty, Hv, Hs.
  unfold shared_full_cardObj, full_cardObj, value_of, status_of.
  rewrite Hv, Hs, Hid, Ht, Hd, Hc, Hi, Hty.
  destruct (valueCallback card) as [f |] eqn:Ev;
    destruct (statusCallback card) as [g |] eqn:Es; run;
    rewrite ?(current_ext this w (snd (g (snd (f w))))),
            ?(current_ext this w (snd (f w))),
            ?(current_ext this w (snd (g w)));
    try reflexivity;
    rewrite ?(keeps g) by (right; reflexivity);
    try (apply (keeps f); left; reflexivity);
    try (apply (keeps g); right; reflexivity);
    reflexivity.
Qed.

End OneCard.

Lemma shared_cards_loop_run this :
  producers_keep_registers this ->
  forall cs pre w,
    cards this = pre ++ cs ->
    registers (world_after (shared_cards_loop this (List.length pre) cs w))
    = registers w
    /\ shared_cards_loop this (List.length pre) cs w
       = mapM full_cardObj
           (skipn (List.length pre) (cards (current this w))) w.
Proof.
  intros Hkeep cs.
  induction cs as [| card rest IH]; intros pre w Hsplit.
  - split; [reflexivity |].
    rewrite skipn_all2; [reflexivity |].
    unfold current. cbn [cards set_cards].
    rewrite length_load_list, Hsplit, length_app. cbn. lia.
  - assert (Hin : In card (cards this))
      by (rewrite Hsplit; apply in_elt).
    assert (Hk : forall f w, valueCallback card = Some f
                             \/ statusCallback card = Some f ->
                             registers (snd (f w)) = registers w)
      by (intros f v Hf; exact (Hkeep card f v Hin Hf)).
    assert (Hpos : nth (List.length pre) (cards this) card = card)
      by (rewrite Hsplit; apply nth_middle).
    assert (Hlen : (List.length pre
                    < List.length (cards (current this w)))%nat).
    { unfold current. cbn [cards set_cards].
      rewrite length_load_list, Hsplit, length_app. cbn. lia. }
    pose proof (shared_full_cardObj_registers this (List.length pre) card
                  Hk w) as Hreg.
    destruct (IH (pre ++ [card])
                (world_after
                   (shared_full_cardObj this (List.length pre) card w)))
      as (IHreg & IHrun).
    { rewrite Hsplit, <- app_assoc. reflexivity. }
    replace (List.length (pre ++ [card])) with (S (List.length pre))
      in IHreg, IHrun by (rewrite length_app; cbn; lia).
    rewrite (current_ext this w _ Hreg) in IHrun.
    cbn [shared_cards_loop]. split.
    + run. rewrite IHreg. exact Hreg.
    + rewrite (skipn_nth_cons _ _ card Hlen). cbn [mapM].
      rewrite (bind_run (shared_full_cardObj _ _ _)),
        (bind_run (full_cardObj _)).
      rewrite (shared_full_cardObj_result this _ card Hk Hpos w),
        (shared_full_cardObj_world this _ card Hk Hpos w),
        (shared_full_cardObj_events this _ card Hk Hpos w).
      rewrite !(bind_run (shared_cards_loop _ _ _)).
      rewrite (shared_full_cardObj_world this _ card Hk Hpos w) in IHrun.
      rewrite IHrun. rewrite !(bind_run (mapM _ _)). reflexivity.
Qed.

(** C9, as the code has it.  When no value or status producer writes the
    dashboard, serving the full snapshot changes no stored member: the
    object in the store is the same after the query as before it.  The
    query then does what it does on an object nothing else can reach: the
    user state it leaves and the calls it makes, the response among them,
    are those of [handleApiData] on the object as it was when the query
    began. *)
Theorem handleApiData_writes_nothing :
  forall (this : ESP32Dashboard) (w : World),
    producers_keep_registers this ->
    registers (world_after (shared_handleApiData this w)) = registers w
    /\ current this (world_after (shared_handleApiData this w))
       = current this w
    /\ world_after (shared_handleApiData this w)
       = world_after (handleApiData (current this w) w)
    /\ events (shared_handleApiData this w)
       = events (handleApiData (current this w) w).
Proof.
  intros this w Hkeep.
  destruct (shared_cards_loop_run this Hkeep (cards this) [] w eq_refl)
    as (Hreg & Hrun).
  cbn [List.length skipn] in Hreg, Hrun.
  assert (Hstore : registers (world_after (shared_handleApiData this w))
                   = registers w).
  { unfold shared_handleApiData. run. exact Hreg. }
  split; [exact Hstore |].
  split; [apply current_ext, Hstore |].
  unfold shared_handleApiData, handleApiData, full_document.
  split; run; rewrite Hrun; [reflexivity |].
  rewrite (current_ext this w
             (world_after (mapM full_cardObj (cards (current this w)) w)))
    by (rewrite <- Hrun; exact Hreg).
  cbn [app]. rewrite !app_nil_r. reflexivity.
Qed.

End StoreFrame.

(** ** The code run on the bench *)

Import Bench.

(** Three appends to a chart of capacity 2 keep the last two samples. *)
Example chart_0_after_three_appends :
  map chartData
    (cards (appends registry "chart_0" [(100, 10); (200, 20); (300, 30)]))
  = [[{| timestamp := 200; point_value := 20 |};
      {| timestamp := 300; point_value := 30 |}]; []; []].
Proof. reflexivity. Qed.

Lemma chart_store_bounded_fifo_witness :
  find_chart "chart_0" (cards registry) = Some chart_0
  /\ exists card',
      find_chart "chart_0"
        (cards (appends registry "chart_0" [(100, 10); (200, 20); (300, 30)]))
      = Some card'
      /\ Z.of_nat (List.length (chartData card')) <= maxDataPoints chart_0
      /\ chartData card'
         = newest (Z.to_nat (maxDataPoints chart_0))
             (chartData chart_0
              ++ map sample_of [(100, 10); (200, 20); (300, 30)])
      /\ (chartData chart_0 = [] ->
          List.length (chartData card')
          = Nat.min 3 (Z.to_nat (maxDataPoints chart_0))
          /\ chartData card'
             = newest (Nat.min 3 (Z.to_nat (maxDataPoints chart_0)))
                 (map sample_of [(100, 10); (200, 20); (300, 30)])).
Proof.
  split; [reflexivity |].
  apply (chart_store_bounded_fifo registry "chart_0" chart_0
           [(100, 10); (200, 20); (300, 30)]).
  - reflexivity.
  - vm_compute. split; discriminate.
  - vm_compute. discriminate.
Defined.

(** An action for an id no control has, and a [toggle] for a Button, are
    each followed by a broadcast, on both channels. *)
Lemma broadcast_without_effect :
  (find_control (controlId_of toggle_nobody) (controls registry) = None
   /\ broadcasts (events (handleApiControl registry (Some toggle_nobody) 5))
      <> []
   /\ broadcasts
        (events (webSocketEvent registry 3 WStype_TEXT toggle_nobody 5))
      <> [])
  /\ (find_control (controlId_of toggle_btn_1) (controls registry)
      = Some btn_1
      /\ verb_fits (action_of toggle_btn_1) (type btn_1) = false
      /\ broadcasts (events (handleApiControl registry (Some toggle_btn_1) 5))
         <> []
      /\ broadcasts
           (events (webSocketEvent registry 3 WStype_TEXT toggle_btn_1 5))
         <> []).
Proof.
  repeat split; try reflexivity; vm_compute; discriminate.
Qed.

Lemma verb_kind_mismatch_is_noop_witness :
  find_control (controlId_of toggle_btn_1) (controls registry) = Some btn_1
  /\ verb_fits (action_of toggle_btn_1) (type btn_1) = false
  /\ (result (handleApiControl registry (Some toggle_btn_1) 5) = registry
      /\ control_callbacks
           (events (handleApiControl registry (Some toggle_btn_1) 5)) = [])
  /\ (forall num,
         result (webSocketEvent registry num WStype_TEXT toggle_btn_1 5)
         = registry
         /\ control_callbacks
              (events (webSocketEvent registry num WStype_TEXT toggle_btn_1 5))
            = []).
Proof.
  split; [reflexivity |]. split; [reflexivity |].
  apply (verb_kind_mismatch_is_noop registry toggle_btn_1 5 btn_1);
    reflexivity.
Defined.

(** A body that is not JSON, and one without [action], are answered 200
    with the success object. *)
Lemma malformed_body_gets_200 :
  (deserializeJson not_json = JNull
   /\ server_sends (events (handleApiControl registry (Some not_json) 5))
      = [ServerSend 200 application_json status_success])
  /\ (containsKey (deserializeJson id_only) "action" = false
      /\ server_sends (events (handleApiControl registry (Some id_only) 5))
         = [ServerSend 200 application_json status_success]).
Proof. repeat split. Qed.

(** The snapshot of the bench registry gives its Status card the code 4
    and its Custom card the code 3; by the kind list of the specification
    they would be 3 and 5. *)
Lemma status_code_follows_custom :
  map card_type (cards registry) = [CARD_CHART; CARD_STATUS; CARD_CUSTOM]
  /\ type_codes (result (full_document registry 5))
     = [JInt 6; JInt 4; JInt 3]
  /\ type_codes (result (compact_document registry 5))
     = [JInt 6; JInt 4; JInt 3]
  /\ map (fun card => position (card_type card) spec_kind_list)
       (cards registry) = [6; 3; 5]
  /\ ~ CardType_to_int CARD_STATUS < CardType_to_int CARD_CUSTOM.
Proof.
  repeat split. vm_compute. discriminate.
Qed.

(** A slider with bounds 0 and 100 at 50 receiving [slide] 75, then 150. *)
Example slide_75_then_150 :
  map value (controls (result (handleApiControl registry (Some slide_75) 5)))
  = [0; 0; 75]
  /\ map value
       (controls (result (webSocketEvent registry 3 WStype_TEXT slide_150 5)))
     = [0; 0; 150].
Proof. split; reflexivity. Qed.

Lemma slide_assigns_requested_value_witness :
  find_control (controlId_of slide_150) (controls registry) = Some slider_2
  /\ minValue slider_2 = 0 /\ maxValue slider_2 = 100 /\ value slider_2 = 50
  /\ (exists control',
         find_control (controlId_of slide_150)
           (controls (result (handleApiControl registry (Some slide_150) 5)))
         = Some control'
         /\ control' = set_value slider_2 150
         /\ value control' = 150
         /\ minValue control' = minValue slider_2
         /\ maxValue control' = maxValue slider_2
         /\ getSliderValue
              (result (handleApiControl registry (Some slide_150) 5))
              (controlId_of slide_150) = 150)
  /\ (has_id_and_action (deserializeJson slide_150) = true ->
      forall num,
      exists control',
        find_control (controlId_of slide_150)
          (controls
             (result (webSocketEvent registry num WStype_TEXT slide_150 5)))
        = Some control'
        /\ control' = set_value slider_2 150
        /\ value control' = 150
        /\ minValue control' = minValue slider_2
        /\ maxValue control' = maxValue slider_2
        /\ getSliderValue
             (result (webSocketEvent registry num WStype_TEXT slide_150 5))
             (controlId_of slide_150) = 150).
Proof.
  split; [reflexivity |]. repeat (split; [reflexivity |]).
  apply (slide_assigns_requested_value registry slide_150 5 slider_2 150).
  - reflexivity.
  - reflexivity.
  - reflexivity.
  - reflexivity.
  - vm_compute. split; discriminate.
Defined.

(** A text that is not JSON reaches the custom message hook. *)
Lemma refused_text_reaches_custom_hook :
  has_id_and_action (deserializeJson not_json) = false
  /\ onCustomMessage registry <> None
  /\ events (webSocketEvent registry 3 WStype_TEXT not_json 5)
     = [CustomMessage not_json "3"].
Proof.
  split; [reflexivity |]. split; [discriminate | reflexivity].
Qed.

Lemma text_without_id_or_action_witness :
  has_id_and_action (deserializeJson id_only) = false
  /\ result (webSocketEvent registry 3 WStype_TEXT id_only 5) = registry
  /\ events (webSocketEvent registry 3 WStype_TEXT id_only 5)
     = match onCustomMessage registry with
       | Some _ => [CustomMessage id_only (String_of_num 3)]
       | None => []
       end.
Proof.
  split; [reflexivity |].
  apply (text_without_id_or_action registry 3 id_only 5). reflexivity.
Defined.

Lemma toggle_twice_witness :
  find_control (controlId_of (P := Lab.platform) Lab.toggle_switch_0)
    (controls Lab.registry) = Some Lab.switch_0
  /\ switchCallback Lab.switch_0 = Some Lab.set_lamp
  /\ let first :=
       handleApiControl Lab.registry (Some Lab.toggle_switch_0)
         (Lab.at_time 5) in
     let second :=
       handleApiControl (result first) (Some Lab.toggle_switch_0)
         (world_after first) in
     (getSwitchState Lab.registry
        (controlId_of (P := Lab.platform) Lab.toggle_switch_0)
      = state Lab.switch_0
      /\ getSwitchState (result first)
           (controlId_of (P := Lab.platform) Lab.toggle_switch_0)
         = negb (state Lab.switch_0)
      /\ getSwitchState (result second)
           (controlId_of (P := Lab.platform) Lab.toggle_switch_0)
         = state Lab.switch_0)
     /\ controls (result second) = controls Lab.registry
     /\ (world_after first
         = world_after
             (sendDataToClients (result first)
                (Lab.set_lamp (negb (state Lab.switch_0)) (Lab.at_time 5)))
         /\ events first
            = SwitchCallback (id Lab.switch_0) (negb (state Lab.switch_0))
              :: ServerSend 200 application_json status_success
              :: events
                   (sendDataToClients (result first)
                      (Lab.set_lamp (negb (state Lab.switch_0))
                         (Lab.at_time 5))))
     /\ (world_after second
         = world_after
             (sendDataToClients (result second)
                (Lab.set_lamp (state Lab.switch_0) (world_after first)))
         /\ events second
            = SwitchCallback (id Lab.switch_0) (state Lab.switch_0)
              :: ServerSend 200 application_json status_success
              :: events
                   (sendDataToClients (result second)
                      (Lab.set_lamp (state Lab.switch_0)
                         (world_after first))))
     /\ control_callbacks (events first ++ events second)
        = [SwitchCallback (id Lab.switch_0) (negb (state Lab.switch_0));
           SwitchCallback (id Lab.switch_0) (state Lab.switch_0)].
Proof.
  split; [reflexivity |]. split; [reflexivity |].
  apply (toggle_twice Lab.registry Lab.toggle_switch_0 Lab.toggle_switch_0
           (Lab.at_time 5) Lab.switch_0 Lab.set_lamp); reflexivity.
Defined.

(** The lamp is off, on after the first toggle, off after the second. *)
Example lamp_follows_toggles :
  Lab.lamp (Lab.at_time 5) = false
  /\ Lab.lamp
       (world_after
          (handleApiControl Lab.registry (Some Lab.toggle_switch_0)
             (Lab.at_time 5))) = true
  /\ Lab.lamp
       (world_after
          (handleApiControl
             (result (handleApiControl Lab.registry (Some Lab.toggle_switch_0)
                        (Lab.at_time 5)))
             (Some Lab.toggle_switch_0)
             (world_after
                (handleApiControl Lab.registry (Some Lab.toggle_switch_0)
                   (Lab.at_time 5))))) = false.
Proof. repeat split. Qed.

(** ** The code run on the second bench *)

Lemma built_reachable : Reachable (F := Workshop.float_ops) Workshop.built.
Proof.
  unfold Workshop.built, Workshop.with_button, Workshop.with_switch,
    Workshop.with_static, Workshop.with_chart, Workshop.with_temperature.
  repeat constructor.
Qed.

Lemma setters_ignore_other_ids_witness :
  find (switch_with_id "btn_1") (controls Workshop.built) = None
  /\ find (slider_with_id "switch_0") (controls Workshop.built) = None
  /\ setSwitchState Workshop.built "btn_1" true 5 = (Workshop.built, 5, [])
  /\ setSliderValue Workshop.built "switch_0" 42 5 = (Workshop.built, 5, []).
Proof.
  split; [reflexivity |]. split; [reflexivity |].
  apply (setters_ignore_other_ids Workshop.built "btn_1" "switch_0" true 42 5);
    reflexivity.
Defined.

Lemma toggle_observed_by_getSwitchState_witness :
  find_control (controlId_of (P := Workshop.platform) Workshop.toggle_switch_0)
    (controls Workshop.built) = Some Workshop.switch_0
  /\ getSwitchState Workshop.built "switch_0" = false
  /\ getSwitchState
       (result (handleApiControl Workshop.built
                  (Some Workshop.toggle_switch_0) 5))
       (controlId_of (P := Workshop.platform) Workshop.toggle_switch_0)
     = negb (getSwitchState Workshop.built
               (controlId_of (P := Workshop.platform) Workshop.toggle_switch_0))
  /\ (forall num,
         getSwitchState
           (result (webSocketEvent Workshop.built num WStype_TEXT
                      Workshop.toggle_switch_0 5))
           (controlId_of (P := Workshop.platform) Workshop.toggle_switch_0)
         = negb (getSwitchState Workshop.built
                   (controlId_of (P := Workshop.platform) Workshop.toggle_switch_0))).
Proof.
  split; [reflexivity |]. split; [reflexivity |].
  apply (toggle_observed_by_getSwitchState Workshop.built
           Workshop.toggle_switch_0 5 Workshop.switch_0); reflexivity.
Defined.

Lemma click_calls_button_callback_witness :
  find_control (controlId_of (P := Lab.platform) Lab.click_btn_1)
    (controls Lab.registry) = Some Lab.btn_1
  /\ (handleApiControl Lab.registry (Some Lab.click_btn_1) (Lab.at_time 5)
      = (Lab.registry,
         world_after
           (sendDataToClients Lab.registry (Lab.press (Lab.at_time 5))),
         ButtonCallback "btn_1"
         :: ServerSend 200 application_json status_success
         :: events
              (sendDataToClients Lab.registry (Lab.press (Lab.at_time 5))))
      /\ control_callbacks
           (events (handleApiControl Lab.registry (Some Lab.click_btn_1)
                      (Lab.at_time 5)))
         = [ButtonCallback "btn_1"])
  /\ (forall num,
         webSocketEvent Lab.registry num WStype_TEXT Lab.click_btn_1
           (Lab.at_time 5)
         = (Lab.registry,
            Lab.receive Lab.click_btn_1 (String_of_num num)
              (world_after
                 (sendDataToClients Lab.registry
                    (Lab.press (Lab.at_time 5)))),
            ButtonCallback "btn_1"
            :: events
                 (sendDataToClients Lab.registry (Lab.press (Lab.at_time 5)))
            ++ [CustomMessage Lab.click_btn_1 (String_of_num num)])
         /\ control_callbacks
              (events (webSocketEvent Lab.registry num WStype_TEXT
                         Lab.click_btn_1 (Lab.at_time 5)))
            = [ButtonCallback "btn_1"]).
Proof.
  split; [reflexivity |].
  apply (click_calls_button_callback Lab.registry Lab.click_btn_1
           (Lab.at_time 5) Lab.btn_1); reflexivity.
Defined.

Example click_counts_one_press :
  Lab.presses (Lab.at_time 5) = 0
  /\ Lab.presses
       (world_after
          (handleApiControl Lab.registry (Some Lab.click_btn_1)
             (Lab.at_time 5))) = 1
  /\ Lab.presses
       (world_after
          (webSocketEvent Lab.registry 3 WStype_TEXT Lab.click_btn_1
             (Lab.at_time 5))) = 1.
Proof. repeat split; vm_compute; reflexivity. Qed.

Lemma reachable_ids_distinct_witness :
  NoDup (map card_id (cards (result (loop Workshop.built None [] 1234))))
  /\ NoDup (map id (controls (result (loop Workshop.built None [] 1234)))).
Proof.
  apply (reachable_ids_distinct (F := Workshop.float_ops) (result (loop Workshop.built None [] 1234))).
  apply reach_loop, built_reachable.
Defined.

Lemma reachable_stores_within_capacity_witness :
  Forall within_capacity
    (cards (result (loop (result (loop (result (loop Workshop.built None []
                                                  1000)) None [] 2000))
                      None [] 3000)))
  /\ Forall samples_only_in_charts
       (cards (result (loop (result (loop (result (loop Workshop.built None []
                                                     1000)) None [] 2000))
                         None [] 3000))).
Proof.
  apply (reachable_stores_within_capacity (F := Workshop.float_ops)).
  do 3 apply reach_loop. apply built_reachable.
Defined.

(** Three ticks on a chart of capacity 2: the two newest samples stay. *)
Example chart_1_after_three_ticks :
  map (fun card =>
         map (fun point => (timestamp point, point_value point))
           (chartData card))
    (cards (result (loop (result (loop (result (loop Workshop.built None []
                                                  1000)) None [] 2000))
                      None [] 3007)))
  = [[]; [(2000, 0); (3007, 7)]; []].
Proof. reflexivity. Qed.

Lemma reachable_callbacks_fit_kind_witness :
  Forall callbacks_fit_kind
    (controls (result (setSliderValue Workshop.built "slider_2" 150 5))).
Proof.
  apply (reachable_callbacks_fit_kind (F := Workshop.float_ops)).
  apply reach_setSliderValue, built_reachable.
Defined.

Lemma reachable_control_addressed_by_id_witness :
  In Workshop.slider_2 (controls Workshop.built)
  /\ find_control (id Workshop.slider_2) (controls Workshop.built)
     = Some Workshop.slider_2
  /\ (is_switch_like Workshop.slider_2 = true ->
      getSwitchState Workshop.built (id Workshop.slider_2)
      = state Workshop.slider_2)
  /\ (is_slider Workshop.slider_2 = true ->
      getSliderValue Workshop.built (id Workshop.slider_2)
      = value Workshop.slider_2).
Proof.
  assert (Hin : In Workshop.slider_2 (controls Workshop.built))
    by (right; right; left; reflexivity).
  split; [exact Hin |].
  apply (reachable_control_addressed_by_id Workshop.built Workshop.slider_2
           built_reachable Hin).
Defined.

Lemma reachable_chart_addressed_by_id_witness :
  In Workshop.chart_1 (cards Workshop.built)
  /\ find_chart (card_id Workshop.chart_1) (cards Workshop.built)
     = Some Workshop.chart_1.
Proof.
  assert (Hin : In Workshop.chart_1 (cards Workshop.built))
    by (right; left; reflexivity).
  split; [exact Hin |].
  apply (reachable_chart_addressed_by_id Workshop.built Workshop.chart_1
           built_reachable Hin).
  reflexivity.
Defined.

Lemma tick_due_across_rollover_witness :
  lastUpdate Workshop.before_wrap = 2 ^ 32 - 100
  /\ @millis Workshop.platform 900 = (lastUpdate Workshop.before_wrap + 1000) mod 2 ^ 32
  /\ tick_due Workshop.before_wrap 900
     = (1000 >=? updateInterval Workshop.before_wrap).
Proof.
  split; [reflexivity |]. split; [reflexivity |].
  apply (tick_due_across_rollover Workshop.before_wrap 900 1000).
  - vm_compute. split; [discriminate | reflexivity].
  - vm_compute. split; [discriminate | reflexivity].
  - reflexivity.
Defined.

Lemma due_tick_samples_witness :
  tick_due Workshop.built 1234 = true
  /\ Forall2 ticked (cards Workshop.built)
       (cards (result (loop Workshop.built None [] 1234))).
Proof.
  split; [reflexivity |].
  apply (due_tick_samples Workshop.built 1234); [| reflexivity].
  destruct (reachable_invariant _ built_reachable) as (N1 & _).
  exact (numbered_NoDup _ _ N1).
Defined.


Lemma custom_message_sees_every_text_witness :
  onCustomMessage Lab.registry = Some Lab.receive
  /\ events (webSocketEvent Lab.registry 3 WStype_TEXT Lab.toggle_switch_0
               (Lab.at_time 5))
     = events (webSocketEvent (without_customMessage Lab.registry) 3
                 WStype_TEXT Lab.toggle_switch_0 (Lab.at_time 5))
       ++ [CustomMessage Lab.toggle_switch_0 (String_of_num 3)]
  /\ world_after (webSocketEvent Lab.registry 3 WStype_TEXT
                    Lab.toggle_switch_0 (Lab.at_time 5))
     = Lab.receive Lab.toggle_switch_0 (String_of_num 3)
         (world_after
            (webSocketEvent (without_customMessage Lab.registry) 3
               WStype_TEXT Lab.toggle_switch_0 (Lab.at_time 5)))
  /\ controls (result (webSocketEvent Lab.registry 3 WStype_TEXT
                         Lab.toggle_switch_0 (Lab.at_time 5)))
     = controls
         (result
            (webSocketEvent (without_customMessage Lab.registry) 3
               WStype_TEXT Lab.toggle_switch_0 (Lab.at_time 5)))
  /\ filter is_custom_message
       (events
          (webSocketEvent (without_customMessage Lab.registry) 3
             WStype_TEXT Lab.toggle_switch_0 (Lab.at_time 5))) = [].
Proof.
  split; [reflexivity |].
  apply (custom_message_sees_every_text Lab.registry 3 Lab.toggle_switch_0
           (Lab.at_time 5) Lab.receive).
  reflexivity.
Defined.

Example inbox_gets_text_and_client :
  Lab.inbox
    (world_after
       (webSocketEvent Lab.registry 3 WStype_TEXT Lab.toggle_switch_0
          (Lab.at_time 5)))
  = [(Lab.toggle_switch_0, "3")]
  /\ Lab.lamp
       (world_after
          (webSocketEvent Lab.registry 3 WStype_TEXT Lab.toggle_switch_0
             (Lab.at_time 5))) = true
  /\ Lab.inbox
       (world_after
          (webSocketEvent Lab.registry 3 WStype_TEXT "hello"
             (Lab.at_time 5)))
     = [("hello", "3")].
Proof. repeat split; vm_compute; reflexivity. Qed.

Example viewers_follow_connections :
  Lab.viewers (Lab.at_time 5) = 1
  /\ Lab.viewers
       (world_after
          (webSocketEvent Lab.registry 0 WStype_CONNECTED "" (Lab.at_time 5)))
     = 2
  /\ Lab.viewers
       (world_after
          (webSocketEvent Lab.registry 0 WStype_DISCONNECTED ""
             (Lab.at_time 5))) = 0
  /\ Lab.viewers
       (world_after
          (webSocketEvent Lab.registry 0 WStype_other "" (Lab.at_time 5)))
     = 1.
Proof. repeat split; vm_compute; reflexivity. Qed.

Lemma updateCard_hidden_by_producers_witness :
  find (fun c => String.eqb (card_id c) "temp_0") (cards Workshop.built)
  = Some Workshop.temp_0
  /\ compact_document (updateCard Workshop.built "temp_0" "99" "hot") 5
     = compact_document Workshop.built 5
  /\ full_document (updateCard Workshop.built "temp_0" "99" "hot") 5
     = full_document Workshop.built 5.
Proof.
  split; [reflexivity |].
  apply (updateCard_hidden_by_producers Workshop.built "temp_0" "99" "hot"
           Workshop.temp_0 5); [reflexivity | discriminate | discriminate].
Defined.

Lemma updateCard_edge_cases_witness :
  find (fun c => String.eqb (card_id c) "nobody") (cards Workshop.built) = None
  /\ find (fun c => String.eqb (card_id c) "status_2") (cards Workshop.built)
     = Some Workshop.status_2
  /\ updateCard Workshop.built "nobody" "up" "late" = Workshop.built
  /\ controls (updateCard Workshop.built "status_2" "up" "")
     = controls Workshop.built
  /\ exists card',
      find (fun c => String.eqb (card_id c) "status_2")
        (cards (updateCard Workshop.built "status_2" "up" "")) = Some card'
      /\ card_value card' = "up"
      /\ card_status card' = card_status Workshop.status_2
      /\ chartData card' = chartData Workshop.status_2
      /\ card_type card' = card_type Workshop.status_2
      /\ valueCallback card' = valueCallback Workshop.status_2
      /\ statusCallback card' = statusCallback Workshop.status_2.
Proof.
  split; [reflexivity |]. split; [reflexivity |].
  split.
  - apply (proj1 (updateCard_edge_cases Workshop.built "nobody" "up" "late")).
    reflexivity.
  - apply (proj2 (updateCard_edge_cases Workshop.built "status_2" "up" "")
             Workshop.status_2).
    reflexivity.
Defined.

Lemma setSwitchState_then_get_witness :
  existsb (switch_with_id "btn_1") (controls Lab.registry) = false
  /\ getSwitchState Lab.registry "btn_1" = false
  /\ getSwitchState
       (result (setSwitchState Lab.registry "btn_1" true (Lab.at_time 5)))
       "btn_1" = false.
Proof.
  split; [reflexivity |].
  apply (proj2 (setSwitchState_then_get Lab.registry "btn_1" "btn_1" true
                  (Lab.at_time 5))).
  reflexivity.
Defined.



Lemma addChartDataPoint_ignores_other_ids_witness :
  find_chart "temp_0" (cards Workshop.built) = None
  /\ addChartDataPoint Workshop.built "temp_0" 21 5 = (Workshop.built, 5, []).
Proof.
  split; [reflexivity |].
  apply (addChartDataPoint_ignores_other_ids Workshop.built "temp_0" 21 5).
  reflexivity.
Defined.

Lemma negative_capacity_never_evicts_witness :
  find_chart "chart_0" (cards Workshop.with_unbounded_chart)
  = Some Workshop.log_0
  /\ maxDataPoints Workshop.log_0 = -1
  /\ exists card',
      find_chart "chart_0"
        (cards (appends Workshop.with_unbounded_chart "chart_0"
                  [(100, 10); (200, 20); (300, 30)]))
      = Some card'
      /\ chartData card'
         = chartData Workshop.log_0
           ++ map (sample_of (P := Workshop.platform)) [(100, 10); (200, 20); (300, 30)].
Proof.
  split; [reflexivity |]. split; [reflexivity |].
  apply (negative_capacity_never_evicts (P := Workshop.platform)
           [(100, 10); (200, 20); (300, 30)]
           Workshop.with_unbounded_chart "chart_0" Workshop.log_0).
  - reflexivity.
  - vm_compute. split; [discriminate | reflexivity].
  - vm_compute. discriminate.
Defined.

Lemma addSlider_then_getSliderValue_witness :
  ~ In (snd (addSlider Workshop.built "Gain" "" None 30 20 "red"
               Workshop.unassigned))
      (map id (controls Workshop.built))
  /\ getSliderValue
       (fst (addSlider Workshop.built "Gain" "" None 30 20 "red"
               Workshop.unassigned)) "slider_3"
     = if String.eqb "slider_3"
            (snd (addSlider Workshop.built "Gain" "" None 30 20 "red"
                    Workshop.unassigned))
       then 30 else getSliderValue Workshop.built "slider_3".
Proof.
  apply (addSlider_then_getSliderValue Workshop.built "Gain" "" None 30 20
           "red" Workshop.unassigned "slider_3" built_reachable).
Defined.

(** ** The full snapshot run on the third bench *)

Lemma handleApiData_writes_nothing_witness :
  producers_keep_registers (SO := Lab.shared) Lab.counting
  /\ @registers Lab.platform Lab.shared
       (world_after (shared_handleApiData (SO := Lab.shared) Lab.counting (Lab.at_time 5)))
     = Lab.quiet_store
  /\ current (SO := Lab.shared) Lab.counting
       (world_after (shared_handleApiData (SO := Lab.shared) Lab.counting (Lab.at_time 5)))
     = current (SO := Lab.shared) Lab.counting (Lab.at_time 5)
  /\ world_after (shared_handleApiData (SO := Lab.shared) Lab.counting (Lab.at_time 5))
     = world_after
         (handleApiData (current (SO := Lab.shared) Lab.counting (Lab.at_time 5))
            (Lab.at_time 5))
  /\ events (shared_handleApiData (SO := Lab.shared) Lab.counting (Lab.at_time 5))
     = events
         (handleApiData (current (SO := Lab.shared) Lab.counting (Lab.at_time 5))
            (Lab.at_time 5)).
Proof.
  assert (Hkeep : producers_keep_registers (SO := Lab.shared) Lab.counting).
  { intros card f w [<- | []] [Hf | Hf]; inversion Hf. reflexivity. }
  split; [exact Hkeep |].
  exact (handleApiData_writes_nothing Lab.counting (Lab.at_time 5) Hkeep).
Defined.

(** The producer of the counting card did run: the sketch counts one
    poll, and the response carries what it returned. *)
Example counting_card_is_polled :
  Lab.presses
    (world_after (shared_handleApiData (SO := Lab.shared) Lab.counting (Lab.at_time 5))) = 1
  /\ control_callbacks
       (events (shared_handleApiData (SO := Lab.shared) Lab.counting (Lab.at_time 5))) = []
  /\ List.length
       (server_sends
          (events (shared_handleApiData (SO := Lab.shared) Lab.counting (Lab.at_time 5))))
     = 1%nat.
Proof. repeat split; vm_compute; reflexivity. Qed.

(** The watchdog's producer calls [setSwitchState("plain_0", true)]: the
    pump is off before GET /api/data and on after it. *)
Lemma full_snapshot_runs_writing_producer :
  current (SO := Lab.shared) Lab.reentrant (Lab.switch_on Lab.pump_off)
  = result
      (setSwitchState
         (current (SO := Lab.shared) Lab.reentrant Lab.pump_off)
         "plain_0" true Lab.pump_off)
  /\ getSwitchState
       (current (SO := Lab.shared) Lab.reentrant Lab.pump_off) "plain_0"
     = false
  /\ getSwitchState
       (current (SO := Lab.shared) Lab.reentrant
          (world_after
             (shared_handleApiData (SO := Lab.shared) Lab.reentrant
                Lab.pump_off)))
       "plain_0" = true
  /\ @registers Lab.platform Lab.shared
       (world_after
          (shared_handleApiData (SO := Lab.shared) Lab.reentrant
             Lab.pump_off))
     <> @registers Lab.platform Lab.shared Lab.pump_off.
Proof.
  split; [reflexivity |]. split; [reflexivity |]. split; [reflexivity |].
  vm_compute. discriminate.
Qed.
